(** * Complaints navigator: pathway routing and session workflow

    A shallow embedding of the JavaScript sources of the navigator:

    - [Router]    : router.js (the catalog [PATHWAYS], [getPathway],
                    [adjustForStepsTaken]);
    - [Chat]      : js/chat.js (session state, [handleConfirmSummary]);
    - [Workflow]  : the later revision of chat.js, the copy that follows
                    docs/DPIA.md (safeguarding gate, nation-aware
                    confirmation, deadline calculator);
    - [Intake]    : js/intake.js ([extractFacts]).

    Conventions.  In the router and the controllers a JavaScript string
    is a Rocq [string] (the bytes of its UTF-8 encoding), and
    [toLowerCase] maps the ASCII letters; in [Intake], where white space
    and regular expressions are at work, a string is the list of its
    UTF-16 code units.  [undefined] arguments and absent properties are
    [None].  Objects that the code shares by reference live in a
    [heap], and functions that allocate thread the heap explicitly.
    Exceptions are the [Throw] outcome of a [completion]. *)

From Stdlib Require Import ZArith String Ascii List Bool Lia.
From Stdlib Require SpecFloat.
From stdpp Require Import base tactics option list gmap strings.

Local Open Scope string_scope.

(** ** Completions: normal return or a thrown exception *)

Inductive completion (A : Type) : Type :=
| Normal (a : A)
| Throw.
Arguments Normal {A} a.
Arguments Throw {A}.

Definition cbind {A B} (c : completion A) (k : A → completion B) : completion B :=
  match c with
  | Normal a => k a
  | Throw => Throw
  end.

Notation "'let*' x ':=' c 'in' k" := (cbind c (fun x => k))
  (at level 10, x pattern, c at level 100, k at level 200).

(** ** The string primitives the sources call *)

Module JsString.

Definition lower_char (c : ascii) : ascii :=
  let n := nat_of_ascii c in
  if (65 <=? n)%nat && (n <=? 90)%nat then ascii_of_nat (n + 32) else c.

(** [s.toLowerCase()] *)
Fixpoint toLowerCase (s : string) : string :=
  match s with
  | EmptyString => EmptyString
  | String c s' => String (lower_char c) (toLowerCase s')
  end.

(** [s.startsWith(p)] *)
Fixpoint startsWith (s p : string) : bool :=
  match p, s with
  | EmptyString, _ => true
  | String _ _, EmptyString => false
  | String a p', String b s' => Ascii.eqb a b && startsWith s' p'
  end.

(** [s.includes(kw)] *)
Fixpoint includes (s kw : string) : bool :=
  startsWith s kw ||
  match s with
  | EmptyString => false
  | String _ s' => includes s' kw
  end.

(** [s.slice(n)] and [s.slice(0, n)] *)
Fixpoint drop (n : nat) (s : string) : string :=
  match n, s with
  | O, _ => s
  | S _, EmptyString => EmptyString
  | S n', String _ s' => drop n' s'
  end.

Fixpoint take (n : nat) (s : string) : string :=
  match n, s with
  | O, _ => EmptyString
  | S _, EmptyString => EmptyString
  | S n', String a s' => String a (take n' s')
  end.

(** [String(x)] for an argument that is a string or [undefined] *)
Definition to_string (x : option string) : string :=
  match x with
  | Some s => s
  | None => "undefined"
  end.

(** truthiness of a string-or-undefined value *)
Definition truthy (x : option string) : bool :=
  match x with
  | Some s => negb (String.eqb s "")
  | None => false
  end.

(** [x === lit] for a string literal [lit] *)
Definition strict_eq (x : option string) (lit : string) : bool :=
  match x with
  | Some s => String.eqb s lit
  | None => false
  end.

(** A text of ASCII characters only.  On such a text [toLowerCase] of
    the language is the map above; beyond ASCII it also folds the Kelvin
    sign (U+212A) to "k" and the dotted capital I (U+0130) to "i" and a
    combining dot. *)
Definition ascii_only (s : string) : bool :=
  forallb (λ c, (nat_of_ascii c <? 128)%nat) (list_ascii_of_string s).

End JsString.

(** ** The [Date] built-in

    A [Date] holds a time value: milliseconds since 1970-01-01T00:00Z.
    Local time is UTC plus the zone offset.  The first part of the module
    takes the offset [tz] constant, in minutes east of Greenwich (0 for
    GMT, 60 for British Summer Time): that is the [Date] of a computation
    which stays on one side of a clock change.  [Zoned], at the end, is
    the [Date] of a zone whose offset changes. *)

Module JsDate.
Local Open Scope Z_scope.

Definition msPerDay : Z := 86400000.
Definition msPerMinute : Z := 60000.

Definition Day (t : Z) : Z := t / msPerDay.
Definition TimeWithinDay (t : Z) : Z := t mod msPerDay.
Definition LocalTime (tz t : Z) : Z := t + tz * msPerMinute.
Definition UTC (tz t : Z) : Z := t - tz * msPerMinute.

(** Day number of a proleptic Gregorian date ([m] from 1 to 12). *)
Definition days_from_civil (y m d : Z) : Z :=
  let y' := if m <=? 2 then y - 1 else y in
  let era := y' / 400 in
  let yoe := y' - era * 400 in
  let mp := if 2 <? m then m - 3 else m + 9 in
  let doy := (153 * mp + 2) / 5 + d - 1 in
  let doe := yoe * 365 + yoe / 4 - yoe / 100 + doy in
  era * 146097 + doe - 719468.

(** Year, month (1 to 12) and day of the month of a day number. *)
Definition civil_from_days (z : Z) : Z * Z * Z :=
  let z' := z + 719468 in
  let era := z' / 146097 in
  let doe := z' - era * 146097 in
  let yoe := (doe - doe / 1460 + doe / 36524 - doe / 146096) / 365 in
  let doy := doe - (365 * yoe + yoe / 4 - yoe / 100) in
  let mp := (5 * doy + 2) / 153 in
  let d := doy - (153 * mp + 2) / 5 + 1 in
  let m := if mp <? 10 then mp + 3 else mp - 9 in
  let y := yoe + era * 400 in
  (if m <=? 2 then y + 1 else y, m, d).

(** [new Date(y, m - 1, d)]: local midnight of a calendar date *)
Definition local_midnight (tz y m d : Z) : Z :=
  UTC tz (days_from_civil y m d * msPerDay).

(** [new Date('YYYY-MM-DD')]: a date-only string is UTC midnight *)
Definition utc_midnight (y m d : Z) : Z :=
  days_from_civil y m d * msPerDay.

(** [date.getDate()] *)
Definition getDate (tz t : Z) : Z :=
  let '(_, _, d) := civil_from_days (Day (LocalTime tz t)) in d.

(** [date.getDay()]: 0 is Sunday; 1970-01-01 was a Thursday *)
Definition getDay (tz t : Z) : Z :=
  (Day (LocalTime tz t) + 4) mod 7.

(** [date.setDate(dt)]: the local year, month and time of day are kept
    and the day of the month becomes [dt], overflowing into the
    neighbouring months. *)
Definition setDate (tz t dt : Z) : Z :=
  let lt := LocalTime tz t in
  let '(y, m, _) := civil_from_days (Day lt) in
  UTC tz ((days_from_civil y m 1 + dt - 1) * msPerDay + TimeWithinDay lt).

Definition digit (n : Z) : string :=
  String (ascii_of_nat (48 + Z.to_nat (n mod 10))) EmptyString.

Fixpoint digits (width : nat) (n : Z) : string :=
  match width with
  | O => EmptyString
  | S w => (digits w (n / 10) ++ digit n)%string
  end.

(** The first ten characters of [date.toISOString()].  Years 0 to 9999
    print as four digits; the others as a sign and six digits. *)
Definition toISOString_slice_0_10 (t : Z) : string :=
  let '(y, m, d) := civil_from_days (Day t) in
  let year :=
    if (0 <=? y) && (y <=? 9999) then digits 4 y
    else String.append (if y <? 0 then "-"%string else "+"%string)
                       (digits 6 (Z.abs y)) in
  String.substring 0 10 (year ++ "-" ++ digits 2 m ++ "-" ++ digits 2 d)%string.

(** *** Zones

    [offset_at z t] is the offset, in milliseconds, in force at the
    instant [t]; [offset_of_local z lt] is the offset with which the
    local time value [lt] is taken back to an instant.  The two agree
    except around a clock change, where a local time that the change
    skips or repeats is read with the offset before the change. *)
Record zone : Type := {
  offset_at : Z → Z;
  offset_of_local : Z → Z
}.

(** A zone without clock changes. *)
Definition fixed (tz : Z) : zone :=
  {| offset_at := λ _, tz * msPerMinute;
     offset_of_local := λ _, tz * msPerMinute |}.

Definition msPerHour : Z := 3600000.

(** Europe/London in 2025 and 2026, the years of the holiday list:
    British Summer Time runs from 01:00 UTC on the last Sunday of March
    to 01:00 UTC on the last Sunday of October. *)
Definition bst_periods : list (Z * Z) :=
  [ (utc_midnight 2025 3 30 + msPerHour, utc_midnight 2025 10 26 + msPerHour);
    (utc_midnight 2026 3 29 + msPerHour, utc_midnight 2026 10 25 + msPerHour) ].

Definition europe_london : zone :=
  {| offset_at := λ t,
       if existsb (λ '(s, e), (s <=? t) && (t <? e)) bst_periods
       then msPerHour else 0;
     offset_of_local := λ lt,
       if existsb (λ '(s, e), (s + msPerHour <=? lt) && (lt <? e + msPerHour))
            bst_periods
       then msPerHour else 0 |}.

Module Zoned.

Definition LocalTime (z : zone) (t : Z) : Z := t + offset_at z t.
Definition UTC (z : zone) (lt : Z) : Z := lt - offset_of_local z lt.

(** [TimeClip]: a time value lies within 100,000,000 days of the epoch;
    [None] is [NaN], the value of an invalid date. *)
Definition TimeClip (t : Z) : option Z :=
  if Z.abs t <=? 8640000000000000 then Some t else None.

(** [date.getDate()] *)
Definition getDate (z : zone) (t : Z) : Z :=
  let '(_, _, d) := civil_from_days (Day (LocalTime z t)) in d.

(** [date.getDay()] *)
Definition getDay (z : zone) (t : Z) : Z :=
  (Day (LocalTime z t) + 4) mod 7.

(** The instant that [date.setDate(dt)] computes, before it is clipped. *)
Definition setDate_value (z : zone) (t dt : Z) : Z :=
  let lt := LocalTime z t in
  let '(y, m, _) := civil_from_days (Day lt) in
  UTC z ((days_from_civil y m 1 + dt - 1) * msPerDay + TimeWithinDay lt).

(** [date.setDate(dt)] on a valid date *)
Definition setDate (z : zone) (t dt : Z) : option Z :=
  TimeClip (setDate_value z t dt).

End Zoned.

End JsDate.

(** ** router.js *)

Module Router.
Import JsString.

(** A pathway step and a pathway, with the properties that the program
    reads; the remaining properties of the catalog entries (description,
    contact details and the advisory lists) are display text that no
    function below inspects or writes. *)
Record PathwayStep : Type := {
  name : string;
  timeline : string;
  current : option bool;            (* absent on most catalog steps *)
  acknowledgmentTimeline : string
}.

Record Pathway : Type := {
  title : string;
  timeLimit : string;
  steps : list PathwayStep;
  legislation : string
}.

(** *** The catalog literal [PATHWAYS] *)
Module Catalog.

Definition nhs_trust : Pathway :=
  {| title := "NHS Hospital/Trust Complaint";
     timeLimit := "12 months from the event or from when you became aware of the issue";
     steps :=
     [
       {| name := "PALS (Patient Advice & Liaison Service)";
          timeline := "Usually responds within a few days";
          current := Some true;
          acknowledgmentTimeline := "Same day or next working day" |};
       {| name := "Formal Complaint to the Trust";
          timeline := "Response within 6 months (often 25-40 working days)";
          current := None;
          acknowledgmentTimeline := "3 working days" |};
       {| name := "Parliamentary and Health Service Ombudsman (PHSO)";
          timeline := "Investigation can take 6-12 months";
          current := None;
          acknowledgmentTimeline := "5 working days" |} ];
     legislation := "NHS Constitution, Local Authority Social Services and NHS Complaints Regulations 2009" |}.

Definition gp : Pathway :=
  {| title := "GP Surgery Complaint";
     timeLimit := "12 months from the event or from when you became aware of the issue";
     steps :=
     [
       {| name := "Complain to the GP Practice";
          timeline := "Acknowledgement within 3 working days; response usually within 10-25 working days";
          current := Some true;
          acknowledgmentTimeline := "3 working days" |};
       {| name := "NHS Integrated Care Board (ICB)";
          timeline := "Response within 6 months";
          current := None;
          acknowledgmentTimeline := "3 working days" |};
       {| name := "Parliamentary and Health Service Ombudsman (PHSO)";
          timeline := "Investigation can take 6-12 months";
          current := None;
          acknowledgmentTimeline := "5 working days" |} ];
     legislation := "NHS Constitution, Local Authority Social Services and NHS Complaints Regulations 2009" |}.

Definition social_care : Pathway :=
  {| title := "Social Care Complaint";
     timeLimit := "12 months from the event or from when you became aware of the issue";
     steps :=
     [
       {| name := "Complain to the Care Provider";
          timeline := "Varies by provider; most respond within 10-20 working days";
          current := Some true;
          acknowledgmentTimeline := "3 working days (varies by provider)" |};
       {| name := "Local Authority Complaint";
          timeline := "Usually a staged process over several months";
          current := None;
          acknowledgmentTimeline := "3 working days" |};
       {| name := "Local Government & Social Care Ombudsman (LGSCO)";
          timeline := "Investigation typically takes 3-6 months";
          current := None;
          acknowledgmentTimeline := "5 working days" |} ];
     legislation := "Care Act 2014, Health and Social Care Act 2008 (Regulated Activities) Regulations 2014" |}.

Definition council : Pathway :=
  {| title := "Council Services Complaint";
     timeLimit := "12 months from the event (the LGSCO expects complaints within 12 months)";
     steps :=
     [
       {| name := "Contact the Service Directly";
          timeline := "Allow 10-15 working days for a response";
          current := Some true;
          acknowledgmentTimeline := "5 working days" |};
       {| name := "Council Complaints Procedure (Stage 1)";
          timeline := "Response usually within 10-20 working days";
          current := None;
          acknowledgmentTimeline := "3-5 working days" |};
       {| name := "Council Complaints Procedure (Stage 2)";
          timeline := "Response usually within 20 working days";
          current := None;
          acknowledgmentTimeline := "3-5 working days" |};
       {| name := "Local Government & Social Care Ombudsman (LGSCO)";
          timeline := "Investigation typically takes 3-6 months";
          current := None;
          acknowledgmentTimeline := "5 working days" |} ];
     legislation := "Relevant council-specific legislation varies by service area" |}.

Definition police : Pathway :=
  {| title := "Police Complaint";
     timeLimit := "12 months from the incident";
     steps :=
     [
       {| name := "Complain to the Police Force";
          timeline := "Usually within 10-15 working days for initial response";
          current := Some true;
          acknowledgmentTimeline := "15 working days" |};
       {| name := "Independent Office for Police Conduct (IOPC)";
          timeline := "Varies; complex investigations can take months";
          current := None;
          acknowledgmentTimeline := "15 working days" |} ];
     legislation := "Police Reform Act 2002, Police (Complaints and Misconduct) Regulations 2020" |}.

Definition school : Pathway :=
  {| title := "School Complaint";
     timeLimit := "No statutory time limit, but complain as soon as possible";
     steps :=
     [
       {| name := "Raise Informally with Staff";
          timeline := "Allow 5-10 school days for a response";
          current := Some true;
          acknowledgmentTimeline := "3-5 school days" |};
       {| name := "Formal Complaint to the Headteacher";
          timeline := "Most schools aim to respond within 10-15 school days";
          current := None;
          acknowledgmentTimeline := "5 school days (varies by school)" |};
       {| name := "Governing Body / Academy Trust";
          timeline := "Usually convenes a complaints panel within a few weeks";
          current := None;
          acknowledgmentTimeline := "5-10 school days" |};
       {| name := "Department for Education / Local Government Ombudsman";
          timeline := "Varies by route";
          current := None;
          acknowledgmentTimeline := "Varies" |} ];
     legislation := "Education Act 2002 (Section 29), School Complaints (England) Regulations 2006 (proposed)" |}.

Definition dwp_decision : Pathway :=
  {| title := "DWP Benefits Decision Challenge";
     timeLimit := "1 month from the date of the decision letter";
     steps :=
     [
       {| name := "Request Mandatory Reconsideration";
          timeline := "DWP aims for a decision within a few weeks, but it can take longer";
          current := Some true;
          acknowledgmentTimeline := "DWP should confirm receipt; follow up if you do not hear back within 2 weeks" |};
       {| name := "Appeal to the First-tier Tribunal";
          timeline := "Hearing typically within a few months of appeal";
          current := None;
          acknowledgmentTimeline := "Written acknowledgment within a few weeks" |} ];
     legislation := "Social Security Act 1998, Tribunal Procedure (First-tier Tribunal) (Social Entitlement Chamber) Rules 2008" |}.

Definition dwp_service : Pathway :=
  {| title := "DWP Service Complaint";
     timeLimit := "12 months (ICE expects complaints within 12 months of completing DWP's process)";
     steps :=
     [
       {| name := "DWP Complaints Procedure";
          timeline := "Response usually within 15 working days";
          current := Some true;
          acknowledgmentTimeline := "3-5 working days" |};
       {| name := "Independent Case Examiner (ICE)";
          timeline := "Several months — ICE has a significant backlog";
          current := None;
          acknowledgmentTimeline := "A few weeks (due to volume)" |};
       {| name := "Parliamentary and Health Service Ombudsman (PHSO)";
          timeline := "Several months";
          current := None;
          acknowledgmentTimeline := "5 working days" |} ];
     legislation := "DWP Complaints Procedure, Parliamentary Commissioner Act 1967" |}.

Definition dwp : Pathway :=
  {| title := "DWP Benefits Complaint";
     timeLimit := "1 month for decision challenges; 12 months for service complaints";
     steps :=
     [
       {| name := "Mandatory Reconsideration (for decision challenges)";
          timeline := "DWP aims for a decision within a few weeks";
          current := Some true;
          acknowledgmentTimeline := "Follow up if no response within 2 weeks" |};
       {| name := "Appeal to the Tribunal (for decision challenges)";
          timeline := "Hearing typically within a few months of appeal";
          current := None;
          acknowledgmentTimeline := "Written acknowledgment within a few weeks" |};
       {| name := "DWP Complaints Procedure (for service issues)";
          timeline := "Response usually within 15 working days";
          current := None;
          acknowledgmentTimeline := "3-5 working days" |};
       {| name := "Independent Case Examiner / PHSO";
          timeline := "Several months";
          current := None;
          acknowledgmentTimeline := "A few weeks" |} ];
     legislation := "Social Security Act 1998, Tribunal Procedure (First-tier Tribunal) (Social Entitlement Chamber) Rules 2008" |}.

Definition hmrc : Pathway :=
  {| title := "HMRC Complaint";
     timeLimit := "12 months (the Adjudicator expects complaints within 6 months of HMRC's final response)";
     steps :=
     [
       {| name := "HMRC Complaints Process (Tier 1)";
          timeline := "HMRC aims to respond within 15 working days";
          current := Some true;
          acknowledgmentTimeline := "Verbal or written acknowledgment within a few days" |};
       {| name := "HMRC Tier 2 Review";
          timeline := "Usually within 15 working days";
          current := None;
          acknowledgmentTimeline := "A few days" |};
       {| name := "The Adjudicator's Office";
          timeline := "Investigation can take several months";
          current := None;
          acknowledgmentTimeline := "10 working days" |};
       {| name := "Parliamentary and Health Service Ombudsman (PHSO)";
          timeline := "Several months";
          current := None;
          acknowledgmentTimeline := "5 working days" |} ];
     legislation := "HMRC Charter, Finance Act (various)" |}.

Definition nhs_trust_scotland : Pathway :=
  {| title := "NHS Scotland Complaint";
     timeLimit := "12 months from the event or from when you became aware of the issue";
     steps :=
     [
       {| name := "Formal Complaint to the NHS Board";
          timeline := "Response within 20 working days";
          current := Some true;
          acknowledgmentTimeline := "3 working days" |};
       {| name := "Scottish Public Services Ombudsman (SPSO)";
          timeline := "Investigation can take several months";
          current := None;
          acknowledgmentTimeline := "5 working days" |} ];
     legislation := "NHS Scotland Complaints Procedure, Scottish Public Services Ombudsman Act 2002" |}.

Definition gp_scotland : Pathway :=
  {| title := "GP Surgery Complaint (Scotland)";
     timeLimit := "12 months from the event or from when you became aware of the issue";
     steps :=
     [
       {| name := "Complain to the GP Practice";
          timeline := "Response within 20 working days";
          current := Some true;
          acknowledgmentTimeline := "3 working days" |};
       {| name := "Scottish Public Services Ombudsman (SPSO)";
          timeline := "Investigation can take several months";
          current := None;
          acknowledgmentTimeline := "5 working days" |} ];
     legislation := "NHS Scotland Complaints Procedure, Scottish Public Services Ombudsman Act 2002" |}.

Definition council_scotland : Pathway :=
  {| title := "Council Services Complaint (Scotland)";
     timeLimit := "12 months from the event (the SPSO expects complaints within 12 months)";
     steps :=
     [
       {| name := "Council Complaints (Stage 1 — Frontline Resolution)";
          timeline := "Response within 5 working days";
          current := Some true;
          acknowledgmentTimeline := "3 working days" |};
       {| name := "Council Complaints (Stage 2 — Investigation)";
          timeline := "Response within 20 working days";
          current := None;
          acknowledgmentTimeline := "3 working days" |};
       {| name := "Scottish Public Services Ombudsman (SPSO)";
          timeline := "Investigation can take several months";
          current := None;
          acknowledgmentTimeline := "5 working days" |} ];
     legislation := "Scottish Public Services Ombudsman Act 2002, Local Government (Scotland) Act 1973" |}.

Definition police_scotland : Pathway :=
  {| title := "Police Scotland Complaint";
     timeLimit := "12 months from the incident";
     steps :=
     [
       {| name := "Complain to Police Scotland";
          timeline := "Usually within 15 working days for initial response";
          current := Some true;
          acknowledgmentTimeline := "15 working days" |};
       {| name := "Police Investigations & Review Commissioner (PIRC)";
          timeline := "Varies; investigations can take months";
          current := None;
          acknowledgmentTimeline := "10 working days" |} ];
     legislation := "Police and Fire Reform (Scotland) Act 2012, Police Investigations & Review Commissioner" |}.

Definition social_care_scotland : Pathway :=
  {| title := "Social Care Complaint (Scotland)";
     timeLimit := "12 months from the event";
     steps :=
     [
       {| name := "Complain to the Care Provider";
          timeline := "Usually within 20 working days";
          current := Some true;
          acknowledgmentTimeline := "3 working days" |};
       {| name := "Local Authority Social Work Complaints";
          timeline := "Varies; follows the council's two-stage process";
          current := None;
          acknowledgmentTimeline := "3 working days" |};
       {| name := "Scottish Public Services Ombudsman (SPSO)";
          timeline := "Investigation can take several months";
          current := None;
          acknowledgmentTimeline := "5 working days" |} ];
     legislation := "Scottish Public Services Ombudsman Act 2002, Social Work (Scotland) Act 1968, Public Services Reform (Scotland) Act 2010" |}.

Definition nhs_trust_wales : Pathway :=
  {| title := "NHS Wales Complaint";
     timeLimit := "12 months from the event or from when you became aware of the issue";
     steps :=
     [
       {| name := "Formal Concern to the Health Board (Putting Things Right)";
          timeline := "Investigation within 30 working days; complex cases may take longer";
          current := Some true;
          acknowledgmentTimeline := "2 working days" |};
       {| name := "Public Services Ombudsman for Wales (PSOW)";
          timeline := "Investigation can take several months";
          current := None;
          acknowledgmentTimeline := "5 working days" |} ];
     legislation := "NHS (Concerns, Complaints and Redress Arrangements) (Wales) Regulations 2011, Public Services Ombudsman (Wales) Act 2019" |}.

Definition gp_wales : Pathway :=
  {| title := "GP Surgery Complaint (Wales)";
     timeLimit := "12 months from the event or from when you became aware of the issue";
     steps :=
     [
       {| name := "Complain to the GP Practice or Health Board";
          timeline := "Investigation within 30 working days";
          current := Some true;
          acknowledgmentTimeline := "2 working days" |};
       {| name := "Public Services Ombudsman for Wales (PSOW)";
          timeline := "Investigation can take several months";
          current := None;
          acknowledgmentTimeline := "5 working days" |} ];
     legislation := "NHS (Concerns, Complaints and Redress Arrangements) (Wales) Regulations 2011, Public Services Ombudsman (Wales) Act 2019" |}.

Definition council_wales : Pathway :=
  {| title := "Council Services Complaint (Wales)";
     timeLimit := "12 months from the event (the PSOW expects complaints within 12 months)";
     steps :=
     [
       {| name := "Council Complaints (Stage 1 — Informal/Early Resolution)";
          timeline := "Response within 10 working days";
          current := Some true;
          acknowledgmentTimeline := "2 working days" |};
       {| name := "Council Complaints (Stage 2 — Formal Investigation)";
          timeline := "Response within 20 working days";
          current := None;
          acknowledgmentTimeline := "5 working days" |};
       {| name := "Public Services Ombudsman for Wales (PSOW)";
          timeline := "Investigation can take several months";
          current := None;
          acknowledgmentTimeline := "5 working days" |} ];
     legislation := "Public Services Ombudsman (Wales) Act 2019, Local Government Act 2000" |}.

Definition police_wales : Pathway :=
  {| title := "Police Complaint (Wales)";
     timeLimit := "12 months from the incident";
     steps :=
     [
       {| name := "Complain to the Police Force";
          timeline := "Usually within 10-15 working days for initial response";
          current := Some true;
          acknowledgmentTimeline := "15 working days" |};
       {| name := "Independent Office for Police Conduct (IOPC)";
          timeline := "Varies; complex investigations can take months";
          current := None;
          acknowledgmentTimeline := "15 working days" |} ];
     legislation := "Police Reform Act 2002, Police (Complaints and Misconduct) Regulations 2020" |}.

Definition social_care_wales : Pathway :=
  {| title := "Social Care Complaint (Wales)";
     timeLimit := "12 months from the event";
     steps :=
     [
       {| name := "Complain to the Care Provider";
          timeline := "Usually within 20 working days";
          current := Some true;
          acknowledgmentTimeline := "2 working days" |};
       {| name := "Local Authority Social Services Complaints";
          timeline := "Follows the council's two-stage process";
          current := None;
          acknowledgmentTimeline := "2 working days" |};
       {| name := "Public Services Ombudsman for Wales (PSOW)";
          timeline := "Investigation can take several months";
          current := None;
          acknowledgmentTimeline := "5 working days" |} ];
     legislation := "Public Services Ombudsman (Wales) Act 2019, Social Services and Well-being (Wales) Act 2014" |}.

Definition nhs_trust_ni : Pathway :=
  {| title := "Health & Social Care Complaint (Northern Ireland)";
     timeLimit := "6 months from the event or from when you became aware of the issue";
     steps :=
     [
       {| name := "Formal Complaint to the HSC Trust";
          timeline := "Acknowledgment within 2 working days; response usually within 20 working days";
          current := Some true;
          acknowledgmentTimeline := "2 working days" |};
       {| name := "Northern Ireland Public Services Ombudsman (NIPSO)";
          timeline := "Investigation can take several months";
          current := None;
          acknowledgmentTimeline := "5 working days" |} ];
     legislation := "Health and Social Care (Reform) Act (Northern Ireland) 2009, Commissioner for Complaints (NI) Order 1996" |}.

Definition gp_ni : Pathway :=
  {| title := "GP Surgery Complaint (Northern Ireland)";
     timeLimit := "6 months from the final response to escalate to NIPSO";
     steps :=
     [
       {| name := "Complain to the GP Practice";
          timeline := "Response usually within 20 working days";
          current := Some true;
          acknowledgmentTimeline := "2 working days" |};
       {| name := "Northern Ireland Public Services Ombudsman (NIPSO)";
          timeline := "Investigation can take several months";
          current := None;
          acknowledgmentTimeline := "5 working days" |} ];
     legislation := "Health and Social Care (Reform) Act (NI) 2009, Commissioner for Complaints (NI) Order 1996" |}.

Definition council_ni : Pathway :=
  {| title := "Council Services Complaint (Northern Ireland)";
     timeLimit := "6 months from the final response to escalate to NIPSO";
     steps :=
     [
       {| name := "Council Complaints Procedure";
          timeline := "Response usually within 15-20 working days";
          current := Some true;
          acknowledgmentTimeline := "3 working days" |};
       {| name := "Northern Ireland Public Services Ombudsman (NIPSO)";
          timeline := "Investigation can take several months";
          current := None;
          acknowledgmentTimeline := "5 working days" |} ];
     legislation := "Commissioner for Complaints (NI) Order 1996, Local Government Act (Northern Ireland) 2014" |}.

Definition police_ni : Pathway :=
  {| title := "PSNI Complaint (Northern Ireland)";
     timeLimit := "12 months from the incident";
     steps :=
     [
       {| name := "Police Ombudsman for Northern Ireland";
          timeline := "Varies by complexity; they will explain the expected timeline";
          current := Some true;
          acknowledgmentTimeline := "5 working days" |} ];
     legislation := "Police (Northern Ireland) Act 1998, Police (Northern Ireland) Act 2000" |}.

Definition social_care_ni : Pathway :=
  {| title := "Social Care Complaint (Northern Ireland)";
     timeLimit := "6 months from the final response to escalate to NIPSO";
     steps :=
     [
       {| name := "Complain to the Care Provider or HSC Trust";
          timeline := "Usually within 20 working days";
          current := Some true;
          acknowledgmentTimeline := "2 working days" |};
       {| name := "Northern Ireland Public Services Ombudsman (NIPSO)";
          timeline := "Investigation can take several months";
          current := None;
          acknowledgmentTimeline := "5 working days" |} ];
     legislation := "Health and Social Care (Reform) Act (NI) 2009, Commissioner for Complaints (NI) Order 1996" |}.

Definition other_gov : Pathway :=
  {| title := "Government Body Complaint";
     timeLimit := "12 months is a general guideline (the PHSO expects complaints within 12 months)";
     steps :=
     [
       {| name := "Department's Own Complaints Procedure";
          timeline := "Usually within 15-20 working days";
          current := Some true;
          acknowledgmentTimeline := "3-5 working days" |};
       {| name := "Parliamentary and Health Service Ombudsman (PHSO)";
          timeline := "Investigation can take several months";
          current := None;
          acknowledgmentTimeline := "5 working days" |} ];
     legislation := "Varies by department and issue" |}.

Definition entries : list (string * Pathway) :=
  [ ("nhs_trust", nhs_trust);
    ("gp", gp);
    ("social_care", social_care);
    ("council", council);
    ("police", police);
    ("school", school);
    ("dwp_decision", dwp_decision);
    ("dwp_service", dwp_service);
    ("dwp", dwp);
    ("hmrc", hmrc);
    ("nhs_trust_scotland", nhs_trust_scotland);
    ("gp_scotland", gp_scotland);
    ("council_scotland", council_scotland);
    ("police_scotland", police_scotland);
    ("social_care_scotland", social_care_scotland);
    ("nhs_trust_wales", nhs_trust_wales);
    ("gp_wales", gp_wales);
    ("council_wales", council_wales);
    ("police_wales", police_wales);
    ("social_care_wales", social_care_wales);
    ("nhs_trust_ni", nhs_trust_ni);
    ("gp_ni", gp_ni);
    ("council_ni", council_ni);
    ("police_ni", police_ni);
    ("social_care_ni", social_care_ni);
    ("other_gov", other_gov) ].
End Catalog.

(** *** Objects and references

    Pathway objects are shared by reference: the catalog entries are
    allocated once, when the module is loaded, and [getPathway] hands out
    references to them.  A heap is the list of allocated pathway objects;
    a reference is an index into it. *)
Abbreviation ref := nat.
Abbreviation heap := (list Pathway).

Definition alloc (h : heap) (p : Pathway) : ref * heap :=
  (List.length h, (h ++ [p])%list).

(** The heap right after module initialisation: one object per catalog
    entry, in source order. *)
Definition catalog_heap : heap := Catalog.entries.*2.

(** The own properties of the [PATHWAYS] object. *)
Definition PATHWAYS : gmap string ref :=
  list_to_map (zip (Catalog.entries.*1) (seq 0 (List.length Catalog.entries))).

(** Property names that every plain object inherits from
    [Object.prototype]. *)
Definition Object_prototype : list string :=
  [ "constructor"; "__defineGetter__"; "__defineSetter__"; "hasOwnProperty";
    "__lookupGetter__"; "__lookupSetter__"; "isPrototypeOf";
    "propertyIsEnumerable"; "toString"; "valueOf"; "__proto__";
    "toLocaleString" ].

Definition inherited (k : string) : bool :=
  existsb (String.eqb k) Object_prototype.

(** What a property read on [PATHWAYS] can produce. *)
Inductive value : Type :=
| VUndefined
| VPathway (r : ref)          (* a pathway object *)
| VInherited (k : string).    (* a member of [Object.prototype]; truthy *)

(** [o[k]] on a plain object literal whose own properties are [o] *)
Definition get {A} (inj : A → value) (o : gmap string A) (k : string) : value :=
  match o !! k with
  | Some a => inj a
  | None => if inherited k then VInherited k else VUndefined
  end.

Definition is_truthy (v : value) : bool :=
  match v with
  | VUndefined => false
  | _ => true
  end.

(** [a || b] *)
Definition or_else (a b : value) : value := if is_truthy a then a else b.

(** The literal [{ Scotland: 'scotland', Wales: 'wales',
    'Northern Ireland': 'ni' }]. *)
Definition nation_keys : gmap string string :=
  {[ "Scotland" := "scotland"; "Wales" := "wales"; "Northern Ireland" := "ni" ]}.

(** [getPathway(bodyType, complaintType, nation)].

    The nation lookup is a property read on an object literal, so a
    nation that names a member of [Object.prototype] yields that member;
    the template literal then stringifies a built-in function or object,
    which is never the suffix of a catalog key nor of an inherited name,
    and the nation-specific read comes back [undefined]. *)
Definition getPathway (bodyType complaintType nation : option string) : value :=
  let base := or_else (get VPathway PATHWAYS (to_string bodyType))
                      (get VPathway PATHWAYS "other_gov") in
  let by_nation :=
    if truthy nation && negb (strict_eq nation "England") then
      match nation_keys !! to_string nation with
      | Some nationKey =>
          if negb (String.eqb nationKey "") then
            let nationPathway :=
              get VPathway PATHWAYS (to_string bodyType ++ "_" ++ nationKey) in
            if is_truthy nationPathway then nationPathway else base
          else base
      | None => base
      end
    else base in
  if strict_eq bodyType "dwp" && truthy complaintType then
    if strict_eq complaintType "decision" then get VPathway PATHWAYS "dwp_decision"
    else if strict_eq complaintType "service" then get VPathway PATHWAYS "dwp_service"
    else by_nation
  else by_nation.

(** *** [adjustForStepsTaken] *)

Definition set_current (b : bool) (s : PathwayStep) : PathwayStep :=
  {| name := name s;
     timeline := timeline s;
     current := Some b;
     acknowledgmentTimeline := acknowledgmentTimeline s |}.

(** [steps[i].current = true]; a [TypeError] when [steps[i]] is undefined *)
Definition mark (i : nat) (ss : list PathwayStep) : completion (list PathwayStep) :=
  match ss !! i with
  | Some _ => Normal (alter (set_current true) i ss)
  | None => Throw
  end.

(** The three keyword tests of the loop body, on the lower-cased text. *)
Definition ombudsman_class (lower : string) : bool :=
  includes lower "ombudsman" || includes lower "phso" ||
  includes lower "lgsco" || includes lower "iopc".

Definition formal_class (lower : string) : bool :=
  includes lower "formal" || includes lower "written" ||
  includes lower "complained" || includes lower "stage 2" ||
  includes lower "tier 2".

Definition informal_class (lower : string) : bool :=
  includes lower "pals" || includes lower "spoke" || includes lower "called" ||
  includes lower "mentioned" || includes lower "raised" || includes lower "tried".

(** The [for] loop: [i] is the loop index, [n] the number of iterations
    left ([steps.length - i]).  The result carries [foundStep]. *)
Fixpoint scan (lower : string) (ss : list PathwayStep) (i n : nat)
  : completion (list PathwayStep * bool) :=
  match n with
  | O => Normal (ss, false)
  | S n' =>
      match ss !! i with
      | None => Throw
      | Some st =>
          let stepName := toLowerCase (name st) in
          if ombudsman_class lower then
            let* ss' := mark (List.length ss - 1) ss in Normal (ss', true)
          else if formal_class lower then
            let* ss' := (if (i <? List.length ss - 1)%nat
                         then mark (i + 1) ss else mark i ss)
            in Normal (ss', true)
          else if informal_class lower then
            let* ss' := (if (1 <? List.length ss)%nat
                         then mark 1 ss else mark 0 ss)
            in Normal (ss', true)
          else scan lower ss (S i) n'
      end
  end.

(** The guard of the early return. *)
Definition nothing_taken (stepsTaken : option string) : bool :=
  negb (truthy stepsTaken) ||
  String.eqb (toLowerCase (to_string stepsTaken)) "none" ||
  String.eqb (toLowerCase (to_string stepsTaken)) "no".

(** The body after the early return, on the cloned object. *)
Definition adjust (lower : string) (adjusted : Pathway) : completion Pathway :=
  let cleared := set_current false <$> steps adjusted in
  let* (ss, foundStep) := scan lower cleared 0 (List.length cleared) in
  let* ss' := (if foundStep : bool then Normal ss else mark 0 ss) in
  Normal {| title := title adjusted;
            timeLimit := timeLimit adjusted;
            steps := ss';
            legislation := legislation adjusted |}.

(** [adjustForStepsTaken(pathway, stepsTaken)].

    [JSON.parse(JSON.stringify(pathway))] allocates a fresh object; it is
    private to the call until it is returned, so the model builds its final
    contents first and allocates once.  For a [pathway] that is not a
    pathway object the clone step throws ([undefined] and functions
    stringify to [undefined]) or the clone has no [steps]. *)
Definition adjustForStepsTaken (h : heap) (pathway : value) (stepsTaken : option string)
  : completion (value * heap) :=
  if nothing_taken stepsTaken then Normal (pathway, h)
  else
    let lower := toLowerCase (to_string stepsTaken) in
    match pathway with
    | VPathway r =>
        match h !! r with
        | Some p =>
            let* adjusted := adjust lower p in
            let '(r', h') := alloc h adjusted in
            Normal (VPathway r', h')
        | None => Throw
        end
    | _ => Throw
    end.

(** Number of steps whose [current] flag is [true]. *)
Definition is_current (s : PathwayStep) : bool :=
  match current s with
  | Some true => true
  | _ => false
  end.

Definition current_count (p : Pathway) : nat :=
  List.length (List.filter is_current (steps p)).

(** *** Notions used in the statements about the router *)

(** Every catalog object has steps and exactly one of them is flagged. *)
Definition well_formed (p : Pathway) : bool :=
  negb (Nat.eqb (List.length (steps p)) 0) && Nat.eqb (current_count p) 1.

(** Index of the step that ends up flagged, for a pathway with [n] steps. *)
Definition target (lower : string) (n : nat) : nat :=
  if ombudsman_class lower then n - 1
  else if formal_class lower then (if (0 <? n - 1)%nat then 1 else 0)
  else if informal_class lower then (if (1 <? n)%nat then 1 else 0)
  else 0.

(** The pathway value that [adjust] builds from [p]. *)
Definition adjusted_copy (lower : string) (p : Pathway) : Pathway :=
  {| title := title p;
     timeLimit := timeLimit p;
     steps := alter (set_current true) (target lower (List.length (steps p)))
                (set_current false <$> steps p);
     legislation := legislation p |}.

(** The copy differs from its template in the [current] flags only. *)
Definition same_text (a b : PathwayStep) : Prop :=
  name a = name b ∧ timeline a = timeline b ∧
  acknowledgmentTimeline a = acknowledgmentTimeline b.

(** "No steps taken": no text, the empty text, or "none"/"no" up to
    letter case. *)
Definition no_steps_text (stepsTaken : option string) : Prop :=
  stepsTaken = None ∨
  ∃ s, stepsTaken = Some s ∧
       (s = "" ∨ toLowerCase s = "none" ∨ toLowerCase s = "no").

(** "The result is a copy", at one template and one text: the function
    returns an object other than the template's. *)
Definition returns_copy (h : heap) (r : ref) (stepsTaken : option string) : Prop :=
  ∃ r' h', adjustForStepsTaken h (VPathway r) stepsTaken = Normal (VPathway r', h') ∧
           r' ≠ r.

(** A keyword of the ombudsman class occurs in the lower-cased text. *)
Definition mentions_ombudsman (s : string) : Prop :=
  ∃ kw, kw ∈ ["ombudsman"; "phso"; "lgsco"; "iopc"] ∧
        includes (toLowerCase s) kw = true.

(** [name] ends in [sfx]. *)
Definition ends_with (name sfx : string) : bool :=
  String.eqb (drop (String.length name - String.length sfx) name) sfx.

(** A resolution yields a catalog object, or a member of
    [Object.prototype] when the body type is the name of one. *)
Inductive resolved (bodyType : option string) : value → Prop :=
| resolved_template (key : string) (r : ref) :
    PATHWAYS !! key = Some r → resolved bodyType (VPathway r)
| resolved_inherited :
    inherited (to_string bodyType) = true →
    PATHWAYS !! to_string bodyType = None →
    resolved bodyType (VInherited (to_string bodyType)).

(** The store of a running session keeps the catalog objects in place. *)
Definition hosts_catalog (h : heap) : Prop :=
  ∀ r p, catalog_heap !! r = Some p → h !! r = Some p.

(** *** [getSupportedBodyTypes]

    [Object.keys(PATHWAYS)]: the own keys, in the order of the literal. *)
Definition getSupportedBodyTypes : list string := Catalog.entries.*1.

(** The step index that both the formal and the informal branch of the
    loop select: the second step when there is one, else the first. *)
Definition second_or_first (n : nat) : nat := if (1 <? n)%nat then 1 else 0.

(** A pathway object without steps.  The catalog has none, but
    [adjustForStepsTaken] is exported and takes any pathway object. *)
Definition stepless : Pathway :=
  {| title := "Complaint pathway";
     timeLimit := "12 months";
     steps := [];
     legislation := "" |}.

End Router.

(** ** js/chat.js: the session controller *)

(** The facts record produced by the intake conversation: the properties
    that the controller reads for routing and gating.  A property that is
    absent (or [null]) is [None]. *)
Record Facts : Type := {
  bodyType : option string;
  complaintType : option string;
  nation : option string;
  stepsTaken : option string;
  safeguardingConcern : option string
}.

(** A facts record about a hospital, with a safeguarding classification. *)
Definition hospital_facts (concern : string) : Facts :=
  {| bodyType := Some "nhs_trust";
     complaintType := Some "general";
     nation := Some "England";
     stepsTaken := Some "I spoke to the ward manager";
     safeguardingConcern := Some concern |}.

(** A facts record about a Scottish police complaint. *)
Definition police_scotland_facts : Facts :=
  {| bodyType := Some "police";
     complaintType := Some "general";
     nation := Some "Scotland";
     stepsTaken := Some "none";
     safeguardingConcern := Some "none" |}.

Module Chat.
Import JsString Router.

(** What the controller inserts into the messages container. *)
Inductive element : Type :=
| SummaryCard (facts : Facts)
| PathwayCard (pathway : ref).

(** The module-level variables, the object store and the rendered cards. *)
Record state : Type := {
  extractedFacts : option Facts;      (* [null] until facts are extracted *)
  currentPathway : option value;      (* [null] until a pathway is resolved *)
  objects : heap;
  messages : list element
}.

(** State after [handleStart]. *)
Definition initial : state :=
  {| extractedFacts := None;
     currentPathway := None;
     objects := catalog_heap;
     messages := [] |}.

(** The part of [handleSend] that runs once [extractFacts] has returned a
    facts object. *)
Definition handleSend_facts (facts : Facts) (st : state) : state :=
  {| extractedFacts := Some facts;
     currentPathway := currentPathway st;
     objects := objects st;
     messages := (messages st ++ [SummaryCard facts])%list |}.

(** [showPathwayCard(pathway)]: reads [pathway.timeLimit] and maps over
    [pathway.steps]; anything but a pathway object makes it throw. *)
Definition showPathwayCard (pathway : value) (st : state) : completion state :=
  match pathway with
  | VPathway r =>
      match objects st !! r with
      | Some _ =>
          Normal {| extractedFacts := extractedFacts st;
                    currentPathway := currentPathway st;
                    objects := objects st;
                    messages := (messages st ++ [PathwayCard r])%list |}
      | None => Throw
      end
  | _ => Throw
  end.

(** [handleConfirmSummary()], the click handler of the summary card's
    confirm button.  [getPathway] is called with two arguments. *)
Definition handleConfirmSummary (st : state) : completion state :=
  match extractedFacts st with
  | None => Normal st
  | Some facts =>
      let pathway := getPathway (bodyType facts) (complaintType facts) None in
      let* (cur, h) := adjustForStepsTaken (objects st) pathway (stepsTaken facts) in
      showPathwayCard cur
        {| extractedFacts := extractedFacts st;
           currentPathway := Some cur;
           objects := h;
           messages := messages st |}
  end.

(** *** More of the controller *)

(** [pathway.steps.find(s => s.current) || pathway.steps[0]], the step
    that [buildLetterPrompt] addresses the letter to; [None] is
    [undefined]. *)
Definition currentStep (p : Pathway) : option PathwayStep :=
  match List.find is_current (steps p) with
  | Some s => Some s
  | None => steps p !! 0%nat
  end.

(** What a summary-card formatter returns: [null], a label, or a member
    of [Object.prototype] found by the [labels[x]] read. *)
Inductive label : Type :=
| LNull
| LText (s : string)
| LInherited (k : string).

(** [formatComplaintType(type)] *)
Definition formatComplaintType (type : option string) : label :=
  if negb (truthy type) || strict_eq type "general" then LNull
  else
    let labels : gmap string string :=
      {[ "decision" := "Challenging a decision"; "service" := "Service complaint" ]} in
    match labels !! to_string type with
    | Some l => if String.eqb l "" then LNull else LText l
    | None => if inherited (to_string type) then LInherited (to_string type) else LNull
    end.

(** [handleStart()]: the variables are reset and the messages container
    is emptied; objects allocated earlier stay in the store. *)
Definition handleStart (st : state) : state :=
  {| extractedFacts := None;
     currentPathway := None;
     objects := objects st;
     messages := [] |}.

(** The variables once [handleConfirmSummary()] has run, whether it
    returned or threw: nothing is assigned when [adjustForStepsTaken]
    throws, and [currentPathway] is already assigned when
    [showPathwayCard] throws. *)
Definition handleConfirmSummary_vars (st : state) : state :=
  match extractedFacts st with
  | None => st
  | Some facts =>
      let pathway := getPathway (bodyType facts) (complaintType facts) None in
      match adjustForStepsTaken (objects st) pathway (stepsTaken facts) with
      | Throw => st
      | Normal (cur, h) =>
          let st1 := {| extractedFacts := extractedFacts st;
                        currentPathway := Some cur;
                        objects := h;
                        messages := messages st |} in
          match showPathwayCard cur st1 with
          | Normal st2 => st2
          | Throw => st1
          end
      end
  end.

(** The user actions and arrivals that write the session variables. *)
Inductive event : Type :=
| Start                         (* the start button *)
| Extracted (facts : Facts)     (* a response from which facts were extracted *)
| Confirm.                      (* the confirm button of a summary card *)

Definition handle (st : state) (e : event) : state :=
  match e with
  | Start => handleStart st
  | Extracted facts => handleSend_facts facts st
  | Confirm => handleConfirmSummary_vars st
  end.

(** The session after a sequence of events, from page load. *)
Definition session (es : list event) : state := foldl handle initial es.

(** The store hosts the catalog, every object has steps and exactly one
    current step, and the current pathway, when it is a pathway, is an
    object of the store. *)
Definition sound (st : state) : Prop :=
  hosts_catalog (objects st) ∧
  (∀ r p, objects st !! r = Some p → steps p ≠ [] ∧ current_count p = 1%nat) ∧
  (∀ r, currentPathway st = Some (VPathway r) → is_Some (objects st !! r)).

End Chat.

(** ** The later revision of chat.js: session status, safeguarding gate,
       nation-aware confirmation and the deadline calculator *)

Module Workflow.
Import JsString Router.

Inductive status : Type := intake | summary | pathway | letter.

(** A contact line of the safeguarding gate: label and value. *)
Abbreviation contact := (string * string)%type.

Inductive element : Type :=
| SummaryCard (facts : Facts)
| SafeguardingGate (title action : string) (contacts : list contact)
    (isSerious : bool)
| PathwayCard (pathway : ref).

Record state : Type := {
  extractedFacts : option Facts;
  currentPathway : option value;
  resolvedCountry : option string;    (* [resolvedBodies?.country] *)
  sessionStatus : status;
  objects : heap;
  messages : list element;
  landing : bool                      (* the landing view is shown *)
}.

(** State after [proceedToChat]. *)
Definition initial : state :=
  {| extractedFacts := None;
     currentPathway := None;
     resolvedCountry := None;
     sessionStatus := intake;
     objects := catalog_heap;
     messages := [];
     landing := false |}.

Definition add_element (e : element) (st : state) : state :=
  {| extractedFacts := extractedFacts st;
     currentPathway := currentPathway st;
     resolvedCountry := resolvedCountry st;
     sessionStatus := sessionStatus st;
     objects := objects st;
     messages := (messages st ++ [e])%list;
     landing := landing st |}.

(** The part of [handleSend] that runs once [extractFacts] has returned a
    facts object.  The postcode lookup is an external service: [lookup] is
    [Some c] when it answered, with [c] the country of the answer, and
    [None] when there was no postcode or no answer, which leaves
    [resolvedBodies] as it was. *)
Definition handleSend_facts (facts : Facts) (lookup : option (option string))
    (st : state) : state :=
  add_element (SummaryCard facts)
    {| extractedFacts := Some facts;
       currentPathway := currentPathway st;
       resolvedCountry := default (resolvedCountry st) lookup;
       sessionStatus := summary;
       objects := objects st;
       messages := messages st;
       landing := landing st |}.

(** [showPathwayCard(pathway)]; the deadline panel that it also renders
    is computed apart, see [addWorkingDays] below. *)
Definition showPathwayCard (p : value) (st : state) : completion state :=
  match p with
  | VPathway r =>
      match objects st !! r with
      | Some _ => Normal (add_element (PathwayCard r) st)
      | None => Throw
      end
  | _ => Throw
  end.

(** [a || b] on strings-or-undefined *)
Definition or_str (a b : option string) : option string :=
  if truthy a then a else b.

(** [handleConfirmSummary()]; the closing [saveSession()] writes to the
    browser's storage and is left out. *)
Definition handleConfirmSummary (st : state) : completion state :=
  match extractedFacts st with
  | None => Normal st
  | Some facts =>
      let nation := or_str (or_str (resolvedCountry st) (nation facts)) (Some "England") in
      let p := getPathway (bodyType facts) (complaintType facts) nation in
      let* (cur, h) := adjustForStepsTaken (objects st) p (stepsTaken facts) in
      showPathwayCard cur
        {| extractedFacts := extractedFacts st;
           currentPathway := Some cur;
           resolvedCountry := resolvedCountry st;
           sessionStatus := pathway;
           objects := h;
           messages := messages st;
           landing := landing st |}
  end.

Definition SERIOUS_CONCERNS : list string :=
  [ "emergency"; "crime"; "child_safeguarding"; "adult_safeguarding" ].

(** [resolvedBodies?.country || extractedFacts?.nation || 'England'], the
    nation that [showSafeguardingGate] reads from the session *)
Definition session_nation (st : state) : string :=
  to_string (or_str (or_str (resolvedCountry st) (extractedFacts st ≫= nation))
               (Some "England")).

(** The three nation-indexed object literals of [showSafeguardingGate]. *)
Definition regulatoryContacts : gmap string (list contact) :=
  {[ "England" :=
       [ ("CQC (care services)", "0300 061 6161");
         ("GMC (doctors)", "0161 923 6602");
         ("NMC (nurses/midwives)", "020 7637 7181") ];
     "Scotland" :=
       [ ("Care Inspectorate (care services)", "0345 600 9527");
         ("GMC (doctors)", "0161 923 6602");
         ("NMC (nurses/midwives)", "020 7637 7181") ];
     "Wales" :=
       [ ("Care Inspectorate Wales (CIW)", "0300 7900 126");
         ("GMC (doctors)", "0161 923 6602");
         ("NMC (nurses/midwives)", "020 7637 7181") ];
     "Northern Ireland" :=
       [ ("RQIA (care services)", "028 9536 1111");
         ("GMC (doctors)", "0161 923 6602");
         ("NMC (nurses/midwives)", "020 7637 7181") ] ]}.

Definition childSafeguardingContacts : gmap string (list contact) :=
  {[ "England" :=
       [ ("NSPCC helpline", "0808 800 5000");
         ("Local council children's safeguarding", "Find via your council's website");
         ("Police (if a crime)", "101 or 999 if urgent") ];
     "Scotland" :=
       [ ("NSPCC helpline", "0808 800 5000");
         ("Scottish Children's Reporter", "0300 200 1555");
         ("Local council children's services", "Find via your council's website");
         ("Police Scotland", "101 or 999 if urgent") ];
     "Wales" :=
       [ ("NSPCC helpline", "0808 800 5000");
         ("Local council children's services", "Find via your council's website");
         ("Police (if a crime)", "101 or 999 if urgent") ];
     "Northern Ireland" :=
       [ ("NSPCC helpline", "0808 800 5000");
         ("Health and Social Care Trust gateway team", "Find via your local Trust");
         ("PSNI (police)", "101 or 999 if urgent") ] ]}.

Definition adultSafeguardingContacts : gmap string (list contact) :=
  {[ "England" :=
       [ ("Local council adult safeguarding", "Find via your council's website");
         ("Police (if a crime)", "101 or 999 if urgent") ];
     "Scotland" :=
       [ ("Local council adult protection team", "Find via your council's website");
         ("Police Scotland", "101 or 999 if urgent") ];
     "Wales" :=
       [ ("Local council adult safeguarding", "Find via your council's website");
         ("Police (if a crime)", "101 or 999 if urgent") ];
     "Northern Ireland" :=
       [ ("Health and Social Care Trust adult safeguarding", "Find via your local Trust");
         ("PSNI (police)", "101 or 999 if urgent") ] ]}.

(** What the [contacts] property of an entry of [contactInfo] holds: an
    array, or the member of [Object.prototype] that the nation names. *)
Inductive contacts_value : Type :=
| ContactsArray (l : list contact)
| ContactsInherited (k : string).

(** [table[nation] || table.England]: an array and an inherited member
    are both truthy. *)
Definition by_nation (table : gmap string (list contact)) (nation : string)
  : contacts_value :=
  match table !! nation with
  | Some l => ContactsArray l
  | None =>
      if inherited nation then ContactsInherited nation
      else ContactsArray (default [] (table !! "England"))
  end.

Definition policeLabel (nation : string) : string :=
  if String.eqb nation "Northern Ireland" then "PSNI non-emergency"
  else if String.eqb nation "Scotland" then "Police Scotland non-emergency"
  else "Police non-emergency".

Record info : Type := {
  info_title : string;
  info_action : string;
  info_contacts : contacts_value
}.

(** The object literal [contactInfo], for the session's nation. *)
Definition contactInfo (nation : string) : gmap string info :=
  {[ "emergency" :=
       {| info_title := "This situation may require emergency services";
          info_action := "If anyone is in immediate danger, call <strong>999</strong> now.";
          info_contacts :=
            ContactsArray [ ("Emergency services", "999");
                            (policeLabel nation, "101") ] |};
     "crime" :=
       {| info_title := "What you described may involve a criminal offence";
          info_action := "To report a crime, contact the police directly.";
          info_contacts :=
            ContactsArray [ (policeLabel nation, "101");
                            ("Action Fraud (fraud/cyber crime)", "0300 123 2040") ] |};
     "child_safeguarding" :=
       {| info_title := "This may be a child safeguarding concern";
          info_action := "To protect a child from harm, contact a safeguarding team directly.";
          info_contacts := by_nation childSafeguardingContacts nation |};
     "adult_safeguarding" :=
       {| info_title := "This may be an adult safeguarding concern";
          info_action := "To protect a vulnerable adult from harm, contact safeguarding directly.";
          info_contacts := by_nation adultSafeguardingContacts nation |};
     "regulatory" :=
       {| info_title := "This may need reporting to a regulatory body";
          info_action := "Regulators can investigate unsafe practice and take enforcement action.";
          info_contacts := by_nation regulatoryContacts nation |} ]}.

(** [contactInfo[concernType] || contactInfo.crime]; [None] is a member
    of [Object.prototype], which has no [contacts]. *)
Definition gate_info (nation concernType : string) : option info :=
  match contactInfo nation !! concernType with
  | Some i => Some i
  | None =>
      if inherited concernType then None
      else contactInfo nation !! "crime"
  end.

(** [showSafeguardingGate(concernType)].  The contact lines are built
    with [info.contacts.map(...)] before the gate is inserted: that call
    is a [TypeError] when [info] or [info.contacts] is an inherited
    member, and then nothing is inserted. *)
Definition showSafeguardingGate (concernType : string) (st : state)
  : completion state :=
  let isSerious := existsb (String.eqb concernType) SERIOUS_CONCERNS in
  match gate_info (session_nation st) concernType with
  | None => Throw
  | Some i =>
      match info_contacts i with
      | ContactsInherited _ => Throw
      | ContactsArray contacts =>
          Normal (add_element
                    (SafeguardingGate (info_title i) (info_action i) contacts isSerious)
                    st)
      end
  end.

(** The click listener that [showSummaryCard(facts)] installs on the
    confirm button; [facts] is the argument the card was rendered with. *)
Definition confirm_summary_click (facts : Facts) (st : state) : completion state :=
  if truthy (safeguardingConcern facts) &&
     negb (strict_eq (safeguardingConcern facts) "none")
  then showSafeguardingGate (to_string (safeguardingConcern facts)) st
  else handleConfirmSummary st.

(** [handleBackToLanding()] *)
Definition handleBackToLanding (st : state) : state :=
  {| extractedFacts := extractedFacts st;
     currentPathway := currentPathway st;
     resolvedCountry := resolvedCountry st;
     sessionStatus := sessionStatus st;
     objects := objects st;
     messages := messages st;
     landing := true |}.

(** The buttons of a safeguarding gate: a serious gate only offers
    "Return to home"; the other one offers "I understand" and "I need to
    make a report first". *)
Inductive gate_button : Type := gate_go_home | gate_acknowledge | gate_pause.

Definition gate_click (isSerious : bool) (b : gate_button) (st : state)
  : option (completion state) :=
  match isSerious, b with
  | true, gate_go_home => Some (Normal (handleBackToLanding st))
  | false, gate_acknowledge => Some (handleConfirmSummary st)
  | false, gate_pause => Some (Normal st)   (* a notice and a save *)
  | _, _ => None                      (* no such button on this gate *)
  end.

(** *** The deadline calculator

    First under a constant offset [tz], which is the function on a walk
    that stays on one side of a clock change; further down in a zone
    whose offset changes. *)

Definition UK_BANK_HOLIDAYS : list string :=
  [ "2025-01-01"; "2025-04-18"; "2025-04-21"; "2025-05-05"; "2025-05-26";
    "2025-08-25"; "2025-12-25"; "2025-12-26";
    "2026-01-01"; "2026-04-03"; "2026-04-06"; "2026-05-04"; "2026-05-25";
    "2026-08-31"; "2026-12-25"; "2026-12-28" ].

(** [array.includes(x)] on an array of strings *)
Definition array_includes (l : list string) (x : string) : bool :=
  existsb (String.eqb x) l.

(** The [while (added < days)] loop of [addWorkingDays], over the holiday
    array [holidays]; [fuel] bounds the number of iterations and [None]
    means the bound was reached. *)
Fixpoint addWorkingDays_loop (holidays : list string) (tz : Z) (fuel : nat)
    (result added days : Z) : option Z :=
  if (added <? days)%Z then
    match fuel with
    | O => None
    | S fuel' =>
        let result := JsDate.setDate tz result (JsDate.getDate tz result + 1) in
        let dayOfWeek := JsDate.getDay tz result in
        let dateStr := JsDate.toISOString_slice_0_10 result in
        if negb (dayOfWeek =? 0)%Z && negb (dayOfWeek =? 6)%Z &&
           negb (array_includes holidays dateStr)
        then addWorkingDays_loop holidays tz fuel' result (added + 1) days
        else addWorkingDays_loop holidays tz fuel' result added days
    end
  else Some result.

(** [addWorkingDays(fromDate, days)] in the time zone [tz] *)
Definition addWorkingDays (tz : Z) (fuel : nat) (fromDate days : Z) : option Z :=
  addWorkingDays_loop UK_BANK_HOLIDAYS tz fuel fromDate 0 days.

(** *** The deadline calculator across clock changes

    The same function in a zone [z] whose offset changes.  [setDate] can
    leave the range of time values; the date is then invalid, and the
    [toISOString()] of the same turn throws a [RangeError]. *)
Fixpoint addWorkingDays_loop_in (holidays : list string) (z : JsDate.zone)
    (fuel : nat) (result added days : Z) : option (completion Z) :=
  if (added <? days)%Z then
    match fuel with
    | O => None
    | S fuel' =>
        match JsDate.Zoned.setDate z result (JsDate.Zoned.getDate z result + 1) with
        | None => Some Throw
        | Some result =>
            let dayOfWeek := JsDate.Zoned.getDay z result in
            let dateStr := JsDate.toISOString_slice_0_10 result in
            if negb (dayOfWeek =? 0)%Z && negb (dayOfWeek =? 6)%Z &&
               negb (array_includes holidays dateStr)
            then addWorkingDays_loop_in holidays z fuel' result (added + 1) days
            else addWorkingDays_loop_in holidays z fuel' result added days
        end
    end
  else Some (Normal result).

(** [addWorkingDays(fromDate, days)] in the zone [z] *)
Definition addWorkingDays_in (z : JsDate.zone) (fuel : nat) (fromDate days : Z)
  : option (completion Z) :=
  addWorkingDays_loop_in UK_BANK_HOLIDAYS z fuel fromDate 0 days.

(** *** Notions used in the statements about business days *)

(** One turn of the loop moves the date to the next local calendar day. *)
Definition next_day (z : JsDate.zone) (t : Z) : Z :=
  JsDate.Zoned.setDate_value z t (JsDate.Zoned.getDate z t + 1).

(** The test of the loop body on a date. *)
Definition counts (holidays : list string) (z : JsDate.zone) (t : Z) : bool :=
  negb (JsDate.Zoned.getDay z t =? 0)%Z && negb (JsDate.Zoned.getDay z t =? 6)%Z &&
  negb (array_includes holidays (JsDate.toISOString_slice_0_10 t)).

(** The [k] dates that the loop visits after [t]. *)
Fixpoint visited (next : Z → Z) (t : Z) (k : nat) : list Z :=
  match k with
  | O => []
  | S k' => next t :: visited next (next t) k'
  end.

Definition days_after (z : JsDate.zone) (t : Z) (k : nat) : list Z :=
  visited (next_day z) t k.

End Workflow.

(** ** intake.js: fact extraction *)

Module Intake.
Local Open Scope list_scope.

(** *** Strings

    The two functions of this file cut a response at white space and at
    fences, so here a string is what the language definition says it is:
    the sequence of its UTF-16 code units.  That is the unit of
    [String.prototype.trim] and of a regular expression without the [u]
    flag. *)
Abbreviation text := (list N).

(** A literal of the source; the literals of intake.js are ASCII, one
    code unit per character. *)
Definition lit (s : string) : text := N_of_ascii <$> list_ascii_of_string s.

(** [s.startsWith(p)] *)
Fixpoint startsWith (s p : text) : bool :=
  match p, s with
  | [], _ => true
  | _ :: _, [] => false
  | a :: p', b :: s' => N.eqb a b && startsWith s' p'
  end.

(** [WhiteSpace] and [LineTerminator] of the language definition: the
    code units that [\s] matches and that [trim] removes. *)
Definition is_space (u : N) : bool :=
  ((0x0009 <=? u) && (u <=? 0x000D)      (* TAB, LF, VT, FF, CR *)
   || (u =? 0x0020)                      (* SPACE *)
   || (u =? 0x00A0)                      (* NO-BREAK SPACE *)
   || (u =? 0x1680)                      (* OGHAM SPACE MARK *)
   || (0x2000 <=? u) && (u <=? 0x200A)   (* EN QUAD .. HAIR SPACE *)
   || (u =? 0x2028)                      (* LINE SEPARATOR *)
   || (u =? 0x2029)                      (* PARAGRAPH SEPARATOR *)
   || (u =? 0x202F)                      (* NARROW NO-BREAK SPACE *)
   || (u =? 0x205F)                      (* MEDIUM MATHEMATICAL SPACE *)
   || (u =? 0x3000)                      (* IDEOGRAPHIC SPACE *)
   || (u =? 0xFEFF))%N.                  (* ZERO WIDTH NO-BREAK SPACE *)

(** *** Regular expressions

    The fragment of the regular-expression language that the source
    uses: literals, a greedy or lazy star over a character class, one
    capturing group and concatenation.  The matcher is the backtracking
    matcher of the language definition, written with a continuation for
    the rest of the pattern. *)

Inductive charclass : Type :=
| CSpace        (* \s *)
| CAny.         (* [\s\S] *)

Inductive regex : Type :=
| RLit (l : text)
| RStar (greedy : bool) (c : charclass)
| RGroup (r : regex)
| RSeq (r1 r2 : regex).

Definition in_class (c : charclass) (u : N) : bool :=
  match c with
  | CSpace => is_space u
  | CAny => true
  end.

(** [c*]: the longest run first, then shorter ones *)
Fixpoint star_greedy {R} (c : N → bool) (s : text) (k : text → option R)
  : option R :=
  match s with
  | u :: s' =>
      if c u then
        match star_greedy c s' k with
        | Some r => Some r
        | None => k s
        end
      else k s
  | [] => k s
  end.

(** [c*?]: the empty run first, then longer ones *)
Fixpoint star_lazy {R} (c : N → bool) (s : text) (k : text → option R)
  : option R :=
  match k s with
  | Some r => Some r
  | None =>
      match s with
      | u :: s' => if c u then star_lazy c s' k else None
      | [] => None
      end
  end.

(** [rmatch r s caps k]: match [r] at the start of [s]; on success call
    [k] with the text left and the captures so far (a group records its
    text when it closes). *)
Fixpoint rmatch {R} (r : regex) (s : text) (caps : list text)
    (k : text → list text → option R) : option R :=
  match r with
  | RLit l =>
      if startsWith s l then k (drop (List.length l) s) caps else None
  | RStar true c => star_greedy (in_class c) s (fun rest => k rest caps)
  | RStar false c => star_lazy (in_class c) s (fun rest => k rest caps)
  | RGroup r1 =>
      rmatch r1 s caps
        (fun rest caps' =>
           k rest (caps' ++ [take (List.length s - List.length rest) s]))
  | RSeq r1 r2 =>
      rmatch r1 s caps (fun rest caps' => rmatch r2 rest caps' k)
  end.

(** [s.match(r)] for a regular expression without the global flag: the
    match at the leftmost position where one exists.  The result lists
    the captures ([jsonMatch[1]] is its first element); [None] is [null]. *)
Fixpoint str_match (r : regex) (s : text) : option (list text) :=
  match rmatch r s [] (fun _ caps => Some caps) with
  | Some caps => Some caps
  | None =>
      match s with
      | _ :: s' => str_match r s'
      | [] => None
      end
  end.

(** The literal [/```json\s*([\s\S]*?)```/] *)
Definition json_block_re : regex :=
  RSeq (RLit (lit "```json"))
    (RSeq (RStar true CSpace)
       (RSeq (RGroup (RStar false CAny)) (RLit (lit "```")))).

(** [s.trim()] *)
Fixpoint trimStart (s : text) : text :=
  match s with
  | u :: s' => if is_space u then trimStart s' else s
  | [] => []
  end.

Fixpoint trimEnd (s : text) : text :=
  match s with
  | u :: s' =>
      match trimEnd s' with
      | [] => if is_space u then [] else [u]
      | t => u :: t
      end
  | [] => []
  end.

Definition trim (s : text) : text := trimEnd (trimStart s).

(** *** JSON values *)

Local Unset Elimination Schemes.

Inductive json : Type :=
| JNull
| JBool (b : bool)
| JNumber (x : SpecFloat.spec_float)
| JString (s : text)
| JArray (items : list json)
| JObject (props : list (text * json)).   (* own properties *)

Local Set Elimination Schemes.

(** Truthiness; [None] is [undefined]. *)
Definition truthy_value (v : option json) : bool :=
  match v with
  | None => false
  | Some JNull => false
  | Some (JBool b) => b
  | Some (JNumber x) =>
      match x with
      | SpecFloat.S754_zero _ | SpecFloat.S754_nan => false
      | _ => true
      end
  | Some (JString s) =>
      match s with
      | [] => false
      | _ => true
      end
  | Some (JArray _) | Some (JObject _) => true
  end.

Fixpoint assoc (k : text) (props : list (text * json)) : option json :=
  match props with
  | [] => None
  | (k', v) :: props' => if bool_decide (k = k') then Some v else assoc k props'
  end.

(** [v.extractionComplete] and [v.facts]: a property read on a parsed
    value, for a name that no prototype defines.  Reading a property of
    [null] is a [TypeError]; a primitive or an array has no such property. *)
Definition get_field (v : json) (k : text) : completion (option json) :=
  match v with
  | JNull => Throw
  | JObject props => Normal (assoc k props)
  | _ => Normal None
  end.

Section ExtractFacts.

(** [JSON.parse]: [None] stands for the [SyntaxError] it throws on text
    that is not JSON. *)
Variable JSON_parse : text → option json.

(** The body of the [try] block: [Normal (Some v)] is [return v],
    [Normal None] is falling out of the block. *)
Definition try_block (jsonMatch : list text) : completion (option json) :=
  match jsonMatch !! 0%nat with
  | None => Throw
  | Some group1 =>
      match JSON_parse (trim group1) with
      | None => Throw
      | Some parsed =>
          let* extractionComplete := get_field parsed (lit "extractionComplete") in
          if truthy_value extractionComplete then
            let* facts := get_field parsed (lit "facts") in
            if truthy_value facts then Normal facts else Normal None
          else Normal None
      end
  end.

(** [extractFacts(responseText)]; the result [JNull] is [null]. *)
Definition extractFacts (responseText : text) : completion json :=
  match str_match json_block_re responseText with
  | None => Normal JNull
  | Some jsonMatch =>
      match try_block jsonMatch with
      | Normal (Some facts) => Normal facts
      | Normal None => Normal JNull
      | Throw => Normal JNull            (* [catch {}] *)
      end
  end.

End ExtractFacts.

(** *** The fenced block, as the documentation describes it

    The text between the first [```json] marker and the first closing
    fence after it. *)

(** [after_first m s]: the text of [s] after the first occurrence of [m] *)
Fixpoint after_first (m s : text) : option text :=
  if startsWith s m then Some (drop (List.length m) s)
  else
    match s with
    | _ :: s' => after_first m s'
    | [] => None
    end.

(** [before_first m s]: the text of [s] before the first occurrence of [m] *)
Fixpoint before_first (m s : text) : option text :=
  if startsWith s m then Some []
  else
    match s with
    | u :: s' => cons u <$> before_first m s'
    | [] => None
    end.

Definition first_json_block (s : text) : option text :=
  after_first (lit "```json") s ≫= before_first (lit "```").

(** *** The behaviour that the documentation describes *)

(** The fields of a parsed value: only an object has any. *)
Definition own_field (v : json) (k : text) : option json :=
  match v with
  | JObject props => assoc k props
  | _ => None
  end.

Section Described.

Variable JSON_parse : text → option json.

(** The facts that a response embeds, following the documentation: the
    first fenced block parses as JSON, and the parsed value has truthy
    [extractionComplete] and [facts] fields. *)
Definition embedded_facts (responseText : text) (facts : json) : Prop :=
  ∃ block parsed,
    first_json_block responseText = Some block ∧
    JSON_parse (trim block) = Some parsed ∧
    truthy_value (own_field parsed (lit "extractionComplete")) = true ∧
    own_field parsed (lit "facts") = Some facts ∧
    truthy_value (Some facts) = true.

(** The same, as a function. *)
Definition complete_facts (responseText : text) : option json :=
  block ← first_json_block responseText;
  parsed ← JSON_parse (trim block);
  if truthy_value (own_field parsed (lit "extractionComplete")) then
    facts ← own_field parsed (lit "facts");
    if truthy_value (Some facts) then Some facts else None
  else None.

End Described.

(** *** [getDisplayText] *)

(** The literal [/```json\s*[\s\S]*?```/] *)
Definition json_block_cut_re : regex :=
  RSeq (RLit (lit "```json"))
    (RSeq (RStar true CSpace)
       (RSeq (RStar false CAny) (RLit (lit "```")))).

(** [s.replace(r, repl)] for a regular expression without the global
    flag and a replacement text without [$]: the leftmost match is
    replaced, and a text without match is returned as it is. *)
Fixpoint str_replace (r : regex) (repl : text) (s : text) : text :=
  match rmatch r s [] (fun rest _ => Some rest) with
  | Some rest => repl ++ rest
  | None =>
      match s with
      | u :: s' => u :: str_replace r repl s'
      | [] => []
      end
  end.

(** [getDisplayText(responseText)] *)
Definition getDisplayText (responseText : text) : text :=
  trim (str_replace json_block_cut_re [] responseText).

(** The text around the first fenced block: what precedes the marker and
    what follows the closing fence. *)
Definition around_first_block (s : text) : option (text * text) :=
  pre ← before_first (lit "```json") s;
  post ← after_first (lit "```json") s ≫= after_first (lit "```");
  Some (pre, post).

(** A parser for examples: it knows one text. *)
Definition parses_only (t : text) (v : json) : text → option json :=
  λ x, if bool_decide (x = t) then Some v else None.

End Intake.

(** * Properties *)

(** ** The resolver *)

Module RouterProofs.
Import JsString Router.

Lemma PATHWAYS_lookup (key : string) (r : ref) :
  PATHWAYS !! key = Some r →
  (key, r) ∈ zip (Catalog.entries.*1) (seq 0 (List.length Catalog.entries)).
Proof.
  unfold PATHWAYS. intros H. by apply elem_of_list_to_map_2 in H.
Qed.

Lemma catalog_well_formed : forallb well_formed catalog_heap = true.
Proof. vm_compute. reflexivity. Qed.

Lemma PATHWAYS_ref_bound (key : string) (r : ref) :
  PATHWAYS !! key = Some r → r < List.length catalog_heap.
Proof.
  intros H%PATHWAYS_lookup.
  apply elem_of_zip_r in H. apply elem_of_seq in H.
  unfold catalog_heap. rewrite length_fmap. lia.
Qed.

Lemma PATHWAYS_object (key : string) (r : ref) :
  PATHWAYS !! key = Some r →
  ∃ p, catalog_heap !! r = Some p ∧ well_formed p = true.
Proof.
  intros H%PATHWAYS_ref_bound.
  destruct (lookup_lt_is_Some_2 catalog_heap r H) as [p Hp].
  exists p. split; [done|].
  pose proof catalog_well_formed as Hall.
  rewrite forallb_forall in Hall. apply Hall.
  apply list_elem_of_In. by eapply list_elem_of_lookup_2.
Qed.

(** *** Where the loop puts the marker *)

Lemma target_lt (lower : string) (n : nat) : 0 < n → target lower n < n.
Proof.
  intros Hn. unfold target.
  repeat case_match; try lia;
    match goal with
    | H : (_ <? _)%nat = true |- _ => apply Nat.ltb_lt in H; lia
    end.
Qed.

Lemma mark_lt (i : nat) (ss : list PathwayStep) :
  i < List.length ss → mark i ss = Normal (alter (set_current true) i ss).
Proof.
  intros Hi. unfold mark.
  destruct (lookup_lt_is_Some_2 ss i Hi) as [st ->]. reflexivity.
Qed.

Lemma scan_no_class (lower : string) (ss : list PathwayStep) (n i : nat) :
  ombudsman_class lower = false →
  formal_class lower = false →
  informal_class lower = false →
  (i + n ≤ List.length ss)%nat →
  scan lower ss i n = Normal (ss, false).
Proof.
  intros Ho Hf Hi. revert i.
  induction n as [|n IH]; intros i Hlen; simpl; [reflexivity|].
  destruct (lookup_lt_is_Some_2 ss i) as [st ->]; [lia|].
  rewrite Ho, Hf, Hi. apply IH. lia.
Qed.

Lemma scan_S (lower : string) (ss : list PathwayStep) (i n : nat) (st : PathwayStep) :
  ss !! i = Some st →
  scan lower ss i (S n) =
    if ombudsman_class lower then
      let* ss' := mark (List.length ss - 1) ss in Normal (ss', true)
    else if formal_class lower then
      let* ss' := (if (i <? List.length ss - 1)%nat
                   then mark (i + 1) ss else mark i ss)
      in Normal (ss', true)
    else if informal_class lower then
      let* ss' := (if (1 <? List.length ss)%nat then mark 1 ss else mark 0 ss)
      in Normal (ss', true)
    else scan lower ss (S i) n.
Proof. intros H. simpl. rewrite H. reflexivity. Qed.

Lemma scan_first (lower : string) (ss : list PathwayStep) :
  ss ≠ [] →
  cbind (scan lower ss 0 (List.length ss))
        (λ '(ss', foundStep), if foundStep : bool then Normal ss' else mark 0 ss')
  = Normal (alter (set_current true) (target lower (List.length ss)) ss).
Proof.
  intros Hne.
  assert (Hlen : (0 < List.length ss)%nat).
  { destruct ss; [done|]. simpl. lia. }
  destruct (lookup_lt_is_Some_2 ss 0 Hlen) as [st Hst].
  destruct (List.length ss) as [|m] eqn:Hm; [lia|].
  unfold target.
  destruct (ombudsman_class lower) eqn:Ho.
  { rewrite (scan_S _ _ _ _ _ Hst), Ho, Hm.
    rewrite mark_lt by lia. reflexivity. }
  destruct (formal_class lower) eqn:Hf.
  { rewrite (scan_S _ _ _ _ _ Hst), Ho, Hf, Hm.
    destruct (0 <? S m - 1)%nat eqn:Hlt.
    - apply Nat.ltb_lt in Hlt. rewrite mark_lt by lia. reflexivity.
    - rewrite mark_lt by lia. reflexivity. }
  destruct (informal_class lower) eqn:Hi.
  { rewrite (scan_S _ _ _ _ _ Hst), Ho, Hf, Hi, Hm.
    destruct (1 <? S m)%nat eqn:Hlt.
    - apply Nat.ltb_lt in Hlt. rewrite mark_lt by lia. reflexivity.
    - rewrite mark_lt by lia. reflexivity. }
  rewrite scan_no_class by (done || lia).
  simpl. rewrite mark_lt by lia. reflexivity.
Qed.

Lemma adjust_steps (lower : string) (p : Pathway) :
  steps p ≠ [] → adjust lower p = Normal (adjusted_copy lower p).
Proof.
  intros Hne. unfold adjust, adjusted_copy.
  assert (Hc : set_current false <$> steps p ≠ []).
  { destruct (steps p); [done|]. discriminate. }
  pose proof (scan_first lower _ Hc) as Hs.
  rewrite length_fmap in Hs.
  rewrite length_fmap.
  destruct (scan lower (set_current false <$> steps p) 0 (List.length (steps p)))
    as [[ss found]|]; simpl in Hs |- *; [|discriminate].
  destruct found; simpl in *.
  - inversion Hs; subst. reflexivity.
  - rewrite Hs. reflexivity.
Qed.

Lemma filter_cleared (ss : list PathwayStep) :
  List.filter is_current (set_current false <$> ss) = [].
Proof. induction ss as [|s ss IH]; simpl; [reflexivity|]. exact IH. Qed.

Lemma count_marked (i : nat) (ss : list PathwayStep) :
  i < List.length ss →
  List.length
    (List.filter is_current (alter (set_current true) i (set_current false <$> ss))) = 1.
Proof.
  revert i. induction ss as [|s ss IH]; intros i Hi; simpl in Hi; [lia|].
  destruct i as [|i]; simpl.
  - rewrite filter_cleared. reflexivity.
  - apply IH. lia.
Qed.

Lemma adjusted_copy_count (lower : string) (p : Pathway) :
  steps p ≠ [] → current_count (adjusted_copy lower p) = 1.
Proof.
  intros Hne. unfold current_count, adjusted_copy. simpl.
  apply count_marked, target_lt.
  destruct (steps p); [done|]. simpl. lia.
Qed.

(** *** The two paths of [adjustForStepsTaken] *)

(** The early return hands back the argument itself. *)
Lemma adjustForStepsTaken_early (h : heap) (v : value) (stepsTaken : option string) :
  nothing_taken stepsTaken = true →
  adjustForStepsTaken h v stepsTaken = Normal (v, h).
Proof. intros H. unfold adjustForStepsTaken. rewrite H. reflexivity. Qed.

(** Otherwise a new object is allocated, after all the objects of [h]. *)
Lemma adjustForStepsTaken_clone (h : heap) (r : ref) (p : Pathway)
    (stepsTaken : option string) :
  nothing_taken stepsTaken = false →
  h !! r = Some p →
  steps p ≠ [] →
  adjustForStepsTaken h (VPathway r) stepsTaken =
    Normal (VPathway (List.length h),
            (h ++ [adjusted_copy (toLowerCase (to_string stepsTaken)) p])%list).
Proof.
  intros Hnt Hr Hne. unfold adjustForStepsTaken.
  rewrite Hnt, Hr, adjust_steps by done. reflexivity.
Qed.

(** The guard, spelled out: no text, the empty text, or a text that is
    "none" or "no" up to letter case. *)
Lemma nothing_taken_spec (stepsTaken : option string) :
  nothing_taken stepsTaken = true ↔
  stepsTaken = None ∨
  ∃ s, stepsTaken = Some s ∧
       (s = "" ∨ toLowerCase s = "none" ∨ toLowerCase s = "no").
Proof.
  unfold nothing_taken. destruct stepsTaken as [s|]; simpl.
  - rewrite !orb_true_iff, negb_true_iff, negb_false_iff, !String.eqb_eq.
    split.
    + intros H. right. exists s. tauto.
    + intros [H|(s' & [= <-] & H)]; [done|tauto].
  - split; [by left|done].
Qed.

Lemma well_formed_steps (p : Pathway) :
  well_formed p = true → steps p ≠ [] ∧ current_count p = 1.
Proof.
  unfold well_formed. rewrite andb_true_iff, negb_true_iff.
  rewrite Nat.eqb_neq, Nat.eqb_eq. intros [Hlen Hc]. split; [|done].
  intros E. rewrite E in Hlen. simpl in Hlen. lia.
Qed.

Lemma hosts_catalog_initial : hosts_catalog catalog_heap.
Proof. by intros r p H. Qed.

Lemma hosts_catalog_app (h : heap) (p : Pathway) :
  hosts_catalog h → hosts_catalog (h ++ [p]).
Proof.
  intros H r q Hq. apply lookup_app_l_Some. by apply H.
Qed.

(** C2.  For every template of the catalog and every text of steps taken
    (absent, empty, "none"/"no", without keyword, or with keywords of
    several classes), [adjustForStepsTaken] returns a pathway object in
    which exactly one step has [current = true].  The store [h] is the
    one of module initialisation or any later one of the session. *)
Theorem adjustForStepsTaken_one_current
    (h : heap) (key : string) (r : ref) (stepsTaken : option string) :
  hosts_catalog h →
  PATHWAYS !! key = Some r →
  ∃ r' h' p',
    adjustForStepsTaken h (VPathway r) stepsTaken = Normal (VPathway r', h') ∧
    h' !! r' = Some p' ∧
    current_count p' = 1.
Proof.
  intros Hh (p & Hp%Hh & Hwf%well_formed_steps)%PATHWAYS_object.
  destruct Hwf as [Hne Hone].
  destruct (nothing_taken stepsTaken) eqn:Hnt.
  - exists r, h, p.
    rewrite adjustForStepsTaken_early by done. done.
  - eexists _, _, _.
    rewrite (adjustForStepsTaken_clone _ _ p) by done.
    split; [reflexivity|]. split.
    + rewrite lookup_app_r by lia.
      rewrite Nat.sub_diag. reflexivity.
    + by apply adjusted_copy_count.
Qed.

Lemma adjustForStepsTaken_one_current_witness :
  ∃ r' h' p',
    adjustForStepsTaken catalog_heap (VPathway 3)
      (Some "I Complained in writing, then tried the Ombudsman")
      = Normal (VPathway r', h') ∧
    h' !! r' = Some p' ∧
    current_count p' = 1.
Proof.
  apply (adjustForStepsTaken_one_current catalog_heap "council" 3).
  - apply hosts_catalog_initial.
  - vm_compute. reflexivity.
Defined.

(** *** Sharing and copying *)

Lemma set_current_text (b : bool) (s : PathwayStep) : same_text (set_current b s) s.
Proof. done. Qed.

Lemma adjusted_copy_text (lower : string) (p : Pathway) :
  title (adjusted_copy lower p) = title p ∧
  timeLimit (adjusted_copy lower p) = timeLimit p ∧
  legislation (adjusted_copy lower p) = legislation p ∧
  Forall2 same_text (steps (adjusted_copy lower p)) (steps p).
Proof.
  repeat split. unfold adjusted_copy. simpl.
  generalize (target lower (List.length (steps p))).
  induction (steps p) as [|s ss IH]; intros i; simpl; [constructor|].
  destruct i as [|i]; simpl.
  - constructor; [done|]. clear. induction ss; simpl; constructor; done.
  - constructor; [done|]. apply IH.
Qed.

(** C4, counterexample.  For the police template and the text "none" the
    function returns the catalog object itself: the same reference, in an
    unchanged store.  Writing through the returned reference is therefore
    a write to the catalog. *)
Lemma adjustForStepsTaken_none_is_template :
  ∃ r, PATHWAYS !! "police" = Some r ∧
       adjustForStepsTaken catalog_heap (VPathway r) (Some "none")
         = Normal (VPathway r, catalog_heap) ∧
       ¬ returns_copy catalog_heap r (Some "none").
Proof.
  exists 4. split; [vm_compute; reflexivity|].
  split; [reflexivity|].
  intros (r' & h' & H & Hne).
  rewrite adjustForStepsTaken_early in H by reflexivity.
  congruence.
Qed.

(** C4, amended.  For every store [h], every pathway object [p] of it with
    at least one step and every text: when the text is absent, empty, or
    "none"/"no" up to letter case, the function returns the very object it
    was given and leaves the store as it is; in every other case it returns
    a newly allocated object that copies the texts of [p], and no write to
    the new object changes an object of [h]. *)
Theorem adjustForStepsTaken_copy_or_same
    (h : heap) (r : ref) (p : Pathway) (stepsTaken : option string) :
  h !! r = Some p →
  steps p ≠ [] →
  (no_steps_text stepsTaken ∧
   adjustForStepsTaken h (VPathway r) stepsTaken = Normal (VPathway r, h))
  ∨
  (¬ no_steps_text stepsTaken ∧
   ∃ r' h' p',
     adjustForStepsTaken h (VPathway r) stepsTaken = Normal (VPathway r', h') ∧
     h !! r' = None ∧
     h' !! r' = Some p' ∧
     title p' = title p ∧ timeLimit p' = timeLimit p ∧
     legislation p' = legislation p ∧
     Forall2 same_text (steps p') (steps p) ∧
     ∀ (q : Pathway) (i : ref), i ≠ r' → <[r' := q]> h' !! i = h !! i).
Proof.
  intros Hr Hne. unfold no_steps_text.
  destruct (nothing_taken stepsTaken) eqn:Hnt.
  - left. split; [by apply nothing_taken_spec|].
    by apply adjustForStepsTaken_early.
  - right. split.
    { rewrite <- nothing_taken_spec. congruence. }
    set (lower := toLowerCase (to_string stepsTaken)).
    exists (List.length h), (h ++ [adjusted_copy lower p])%list, (adjusted_copy lower p).
    split; [by apply adjustForStepsTaken_clone|].
    split; [by apply lookup_ge_None_2|].
    split; [rewrite lookup_app_r by lia; by rewrite Nat.sub_diag|].
    destruct (adjusted_copy_text lower p) as (Ht & Hl & Hg & Hs).
    repeat (split; [done|]).
    intros q i Hi.
    rewrite list_lookup_insert_ne by done.
    destruct (decide (i < List.length h)%nat) as [Hlt|Hge].
    + by rewrite lookup_app_l.
    + rewrite lookup_ge_None_2; [|rewrite length_app; simpl; lia].
      symmetry. apply lookup_ge_None_2. lia.
Qed.

Lemma adjustForStepsTaken_copy_or_same_witness :
  (no_steps_text (Some "I wrote to them") ∧
   adjustForStepsTaken catalog_heap (VPathway 4) (Some "I wrote to them")
     = Normal (VPathway 4, catalog_heap))
  ∨
  (¬ no_steps_text (Some "I wrote to them") ∧
   ∃ r' h' p',
     adjustForStepsTaken catalog_heap (VPathway 4) (Some "I wrote to them")
       = Normal (VPathway r', h') ∧
     catalog_heap !! r' = None ∧
     h' !! r' = Some p' ∧
     title p' = title Catalog.police ∧ timeLimit p' = timeLimit Catalog.police ∧
     legislation p' = legislation Catalog.police ∧
     Forall2 same_text (steps p') (steps Catalog.police) ∧
     ∀ (q : Pathway) (i : ref), i ≠ r' → <[r' := q]> h' !! i = catalog_heap !! i).
Proof.
  apply (adjustForStepsTaken_copy_or_same catalog_heap 4 Catalog.police).
  - reflexivity.
  - discriminate.
Defined.

(** *** Resolution *)

(** Distinct catalog keys name distinct objects. *)
Lemma PATHWAYS_injective (k1 k2 : string) (r : ref) :
  PATHWAYS !! k1 = Some r → PATHWAYS !! k2 = Some r → k1 = k2.
Proof.
  intros H1%PATHWAYS_lookup H2%PATHWAYS_lookup.
  apply list_elem_of_lookup in H1 as [i Hi], H2 as [j Hj].
  apply lookup_zip_with_Some in Hi as (a & b & [= <- <-] & Ha & Hb).
  apply lookup_zip_with_Some in Hj as (c & d & [= <- Hd] & Hc & Hd').
  apply lookup_seq in Hb as [-> _]. apply lookup_seq in Hd' as [-> _].
  simpl in Hd. subst j. congruence.
Qed.

(** C6.  Whatever the nation (any string, or none), a DWP decision
    complaint resolves to the catalog's [dwp_decision] template and a DWP
    service complaint to its [dwp_service] template; the result is the
    object of no other catalog key, so never a nation-specific one. *)
Theorem getPathway_dwp_any_nation (nation : option string) :
  (∃ r, getPathway (Some "dwp") (Some "decision") nation = VPathway r ∧
        PATHWAYS !! "dwp_decision" = Some r ∧
        catalog_heap !! r = Some Catalog.dwp_decision ∧
        ∀ key, PATHWAYS !! key = Some r → key = "dwp_decision") ∧
  (∃ r, getPathway (Some "dwp") (Some "service") nation = VPathway r ∧
        PATHWAYS !! "dwp_service" = Some r ∧
        catalog_heap !! r = Some Catalog.dwp_service ∧
        ∀ key, PATHWAYS !! key = Some r → key = "dwp_service").
Proof.
  split.
  - exists 6. repeat split.
    intros key Hk. apply (PATHWAYS_injective _ _ 6 Hk). reflexivity.
  - exists 7. repeat split.
    intros key Hk. apply (PATHWAYS_injective _ _ 7 Hk). reflexivity.
Qed.

(** C7.  A police complaint with no complaint type resolves to the
    [police_scotland] template for Scotland and to the base [police]
    template for England. *)
Theorem getPathway_police_scotland_england :
  (∃ r, getPathway (Some "police") None (Some "Scotland") = VPathway r ∧
        PATHWAYS !! "police_scotland" = Some r ∧
        catalog_heap !! r = Some Catalog.police_scotland) ∧
  (∃ r, getPathway (Some "police") None (Some "England") = VPathway r ∧
        PATHWAYS !! "police" = Some r ∧
        catalog_heap !! r = Some Catalog.police).
Proof.
  split; [exists 13 | exists 4]; repeat split.
Qed.

(** *** Every outcome of a resolution *)

Lemma drop_app_length (b sfx : string) : drop (String.length b) (b ++ sfx) = sfx.
Proof. induction b as [|a b IH]; simpl; [by destruct sfx|done]. Qed.

Lemma length_append (a b : string) :
  String.length (a ++ b) = (String.length a + String.length b)%nat.
Proof. induction a as [|c a IH]; simpl; [done|by rewrite IH]. Qed.

Lemma ends_with_append (b sfx : string) : ends_with (b ++ sfx) sfx = true.
Proof.
  unfold ends_with. rewrite length_append.
  replace (String.length b + String.length sfx - String.length sfx)%nat
    with (String.length b) by lia.
  rewrite drop_app_length. apply String.eqb_refl.
Qed.

Lemma inherited_suffix (b sfx : string) :
  forallb (λ name, negb (ends_with name sfx)) Object_prototype = true →
  inherited (b ++ sfx) = false.
Proof.
  intros Hall. unfold inherited.
  apply not_true_is_false. intros (name & Hin & Heq)%existsb_exists.
  apply String.eqb_eq in Heq.
  rewrite forallb_forall in Hall. specialize (Hall name Hin).
  rewrite <- Heq, ends_with_append in Hall. discriminate.
Qed.

Lemma nation_keys_range (k v : string) :
  nation_keys !! k = Some v → v = "scotland" ∨ v = "wales" ∨ v = "ni".
Proof.
  unfold nation_keys. intros H.
  apply lookup_insert_Some in H as [[_ <-]|[_ H]]; [tauto|].
  apply lookup_insert_Some in H as [[_ <-]|[_ H]]; [tauto|].
  apply lookup_singleton_Some in H as [_ <-]. tauto.
Qed.

Lemma get_cases (key : string) :
  (∃ r, PATHWAYS !! key = Some r ∧ get VPathway PATHWAYS key = VPathway r) ∨
  (PATHWAYS !! key = None ∧ inherited key = true ∧
   get VPathway PATHWAYS key = VInherited key) ∨
  (PATHWAYS !! key = None ∧ inherited key = false ∧
   get VPathway PATHWAYS key = VUndefined).
Proof.
  unfold get. destruct (PATHWAYS !! key) as [r|]; [left; eauto|].
  destruct (inherited key); [right; left | right; right]; done.
Qed.

Lemma base_resolved (bodyType : option string) :
  resolved bodyType
    (or_else (get VPathway PATHWAYS (to_string bodyType))
             (get VPathway PATHWAYS "other_gov")).
Proof.
  destruct (get_cases (to_string bodyType))
    as [(r & Hr & ->)|[(Hn & Hi & ->)|(Hn & Hi & ->)]]; simpl.
  - by econstructor.
  - by constructor.
  - by apply (resolved_template _ "other_gov" 25).
Qed.

Lemma getPathway_resolved (bodyType complaintType nation : option string) :
  resolved bodyType (getPathway bodyType complaintType nation).
Proof.
  pose proof (base_resolved bodyType) as Hbase.
  assert (Hnat : resolved bodyType
    (if truthy nation && negb (strict_eq nation "England") then
       match nation_keys !! to_string nation with
       | Some nationKey =>
           if negb (String.eqb nationKey "") then
             let nationPathway :=
               get VPathway PATHWAYS (to_string bodyType ++ "_" ++ nationKey) in
             if is_truthy nationPathway then nationPathway
             else or_else (get VPathway PATHWAYS (to_string bodyType))
                          (get VPathway PATHWAYS "other_gov")
           else or_else (get VPathway PATHWAYS (to_string bodyType))
                        (get VPathway PATHWAYS "other_gov")
       | None => or_else (get VPathway PATHWAYS (to_string bodyType))
                         (get VPathway PATHWAYS "other_gov")
       end
     else or_else (get VPathway PATHWAYS (to_string bodyType))
                  (get VPathway PATHWAYS "other_gov"))).
  { destruct (truthy nation && negb (strict_eq nation "England")); [|done].
    destruct (nation_keys !! to_string nation) as [nationKey|] eqn:Hk; [|done].
    destruct (negb (String.eqb nationKey "")); [|done].
    cbv zeta.
    destruct (get_cases (to_string bodyType ++ "_" ++ nationKey))
      as [(r & Hr & ->)|[(Hn & Hi & ->)|(Hn & Hi & ->)]]; simpl; [| |done].
    - by econstructor.
    - exfalso.
      apply nation_keys_range in Hk.
      rewrite inherited_suffix in Hi; [discriminate|].
      destruct Hk as [->|[->| ->]]; reflexivity. }
  unfold getPathway. cbv zeta.
  destruct (strict_eq bodyType "dwp" && truthy complaintType); [|done].
  destruct (strict_eq complaintType "decision").
  { by apply (resolved_template _ "dwp_decision" 6). }
  destruct (strict_eq complaintType "service").
  { by apply (resolved_template _ "dwp_service" 7). }
  done.
Qed.

(** For a body type that is not an inherited name the result is a catalog
    template. *)
Lemma getPathway_template (bodyType complaintType nation : option string) :
  inherited (to_string bodyType) = false →
  ∃ key r p, getPathway bodyType complaintType nation = VPathway r ∧
             PATHWAYS !! key = Some r ∧ catalog_heap !! r = Some p.
Proof.
  intros Hi.
  destruct (getPathway_resolved bodyType complaintType nation) as [key r Hr|Hi' _].
  - destruct (PATHWAYS_object _ _ Hr) as (p & Hp & _). eauto 6.
  - congruence.
Qed.

(** With no template under the body type nor under any of its nation
    keys, the result is the [other_gov] template. *)
Lemma getPathway_fallback (bodyType complaintType nation : option string) :
  inherited (to_string bodyType) = false →
  PATHWAYS !! to_string bodyType = None →
  (∀ sfx, PATHWAYS !! (to_string bodyType ++ "_" ++ sfx) = None) →
  ∃ r, getPathway bodyType complaintType nation = VPathway r ∧
       PATHWAYS !! "other_gov" = Some r ∧
       catalog_heap !! r = Some Catalog.other_gov.
Proof.
  intros Hi Hn Hs. exists 25. split; [|done].
  assert (Hdwp : strict_eq bodyType "dwp" = false).
  { destruct bodyType as [b|]; [|done]. simpl.
    apply not_true_is_false. intros ->%String.eqb_eq. discriminate. }
  unfold getPathway. cbv zeta. rewrite Hdwp. simpl andb. cbv iota.
  assert (Hbase : or_else (get VPathway PATHWAYS (to_string bodyType))
                          (get VPathway PATHWAYS "other_gov") = VPathway 25).
  { unfold get at 1. rewrite Hn, Hi. reflexivity. }
  rewrite Hbase.
  destruct (truthy nation && negb (strict_eq nation "England")); [|done].
  destruct (nation_keys !! to_string nation) as [nationKey|] eqn:Hk; [|done].
  destruct (negb (String.eqb nationKey "")); [|done].
  unfold get. rewrite Hs.
  apply nation_keys_range in Hk.
  rewrite (inherited_suffix (to_string bodyType));
    [done|destruct Hk as [->|[->| ->]]; reflexivity].
Qed.

(** C8, at the failing input.  The body type "constructor" has no catalog
    entry, yet the result is neither the [other_gov] template nor any
    pathway: the property read finds [Object.prototype.constructor], a
    truthy value, and [getPathway] returns it. *)
Theorem getPathway_constructor :
  PATHWAYS !! "constructor" = None ∧
  getPathway (Some "constructor") None None = VInherited "constructor" ∧
  (∀ r, getPathway (Some "constructor") None None ≠ VPathway r) ∧
  get VPathway PATHWAYS "other_gov" = VPathway 25.
Proof. repeat split. intros r. discriminate. Qed.

(** *** Keyword priority *)

Lemma marked_lookup (i j : nat) (ss : list PathwayStep) (st : PathwayStep) :
  alter (set_current true) i (set_current false <$> ss) !! j = Some st →
  (is_current st = true ↔ j = i).
Proof.
  intros H. destruct (decide (j = i)) as [->|Hne].
  - rewrite list_lookup_alter_eq in H.
    destruct ((set_current false <$> ss) !! i) as [st'|]; [|done].
    injection H as <-. done.
  - rewrite list_lookup_alter_ne in H by done.
    rewrite list_lookup_fmap in H.
    destruct (ss !! j) as [st'|]; [|done].
    injection H as <-. split; [discriminate|done].
Qed.

Lemma ombudsman_not_nothing (s : string) :
  ombudsman_class (toLowerCase s) = true → nothing_taken (Some s) = false.
Proof.
  intros Ho. apply not_true_is_false. intros Hnt.
  apply nothing_taken_spec in Hnt as [|(s' & [= <-] & [->|[E|E]])];
    [done| |rewrite E in Ho..]; discriminate.
Qed.

Lemma mentions_ombudsman_class (s : string) :
  mentions_ombudsman s → ombudsman_class (toLowerCase s) = true.
Proof.
  intros (kw & Hin & Hkw). unfold ombudsman_class.
  rewrite !orb_true_iff.
  repeat (apply elem_of_cons in Hin as [->|Hin]; [tauto|]).
  by apply elem_of_nil in Hin.
Qed.

(** The ombudsman class alone decides the outcome. *)
Lemma adjustForStepsTaken_ombudsman (h : heap) (r : ref) (p : Pathway) (s : string) :
  h !! r = Some p →
  steps p ≠ [] →
  ombudsman_class (toLowerCase s) = true →
  ∃ r' h' p',
    adjustForStepsTaken h (VPathway r) (Some s) = Normal (VPathway r', h') ∧
    h' !! r' = Some p' ∧
    List.length (steps p') = List.length (steps p) ∧
    ∀ i st, steps p' !! i = Some st →
            (is_current st = true ↔ i = (List.length (steps p') - 1)%nat).
Proof.
  intros Hr Hne Ho.
  eexists _, _, _.
  rewrite (adjustForStepsTaken_clone _ _ p) by (done || by apply ombudsman_not_nothing).
  split; [reflexivity|].
  split; [rewrite lookup_app_r by lia; by rewrite Nat.sub_diag|].
  simpl to_string. unfold adjusted_copy. simpl steps.
  rewrite length_alter, length_fmap. split; [done|].
  intros i st Hst. apply marked_lookup in Hst. rewrite Hst.
  unfold target. rewrite Ho. done.
Qed.

(** C9.  For every pathway object with at least two steps and every text
    that mentions an ombudsman keyword ("ombudsman", "phso", "lgsco" or
    "iopc", in any letter case) together with a keyword of the formal or
    of the informal class, the returned pathway has its last step, and
    only that step, flagged current. *)
Theorem adjustForStepsTaken_ombudsman_priority
    (h : heap) (r : ref) (p : Pathway) (s : string) :
  h !! r = Some p →
  (2 ≤ List.length (steps p))%nat →
  mentions_ombudsman s →
  formal_class (toLowerCase s) = true ∨ informal_class (toLowerCase s) = true →
  ∃ r' h' p',
    adjustForStepsTaken h (VPathway r) (Some s) = Normal (VPathway r', h') ∧
    h' !! r' = Some p' ∧
    List.length (steps p') = List.length (steps p) ∧
    ∀ i st, steps p' !! i = Some st →
            (is_current st = true ↔ i = (List.length (steps p') - 1)%nat).
Proof.
  intros Hr Hlen Ho _.
  apply adjustForStepsTaken_ombudsman; [done| |by apply mentions_ombudsman_class].
  intros E. rewrite E in Hlen. simpl in Hlen. lia.
Qed.

Lemma adjustForStepsTaken_ombudsman_priority_witness :
  ∃ r' h' p',
    adjustForStepsTaken catalog_heap (VPathway 3)
      (Some "I Complained in writing, then tried the Ombudsman")
      = Normal (VPathway r', h') ∧
    h' !! r' = Some p' ∧
    List.length (steps p') = List.length (steps Catalog.council) ∧
    ∀ i st, steps p' !! i = Some st →
            (is_current st = true ↔ i = (List.length (steps p') - 1)%nat).
Proof.
  apply (adjustForStepsTaken_ombudsman_priority catalog_heap 3 Catalog.council).
  - reflexivity.
  - simpl. lia.
  - exists "ombudsman". split; [set_solver|reflexivity].
  - left. reflexivity.
Defined.

(** *** More about resolution *)

Lemma no_variant_base (bodyType : option string) (nation : option string) :
  (∀ sfx, sfx ∈ ["scotland"; "wales"; "ni"] →
          PATHWAYS !! (to_string bodyType ++ "_" ++ sfx) = None) →
  (if truthy nation && negb (strict_eq nation "England") then
     match nation_keys !! to_string nation with
     | Some nationKey =>
         if negb (String.eqb nationKey "") then
           let nationPathway :=
             get VPathway PATHWAYS (to_string bodyType ++ "_" ++ nationKey) in
           if is_truthy nationPathway then nationPathway
           else or_else (get VPathway PATHWAYS (to_string bodyType))
                        (get VPathway PATHWAYS "other_gov")
         else or_else (get VPathway PATHWAYS (to_string bodyType))
                      (get VPathway PATHWAYS "other_gov")
     | None => or_else (get VPathway PATHWAYS (to_string bodyType))
                       (get VPathway PATHWAYS "other_gov")
     end
   else or_else (get VPathway PATHWAYS (to_string bodyType))
                (get VPathway PATHWAYS "other_gov"))
  = or_else (get VPathway PATHWAYS (to_string bodyType))
            (get VPathway PATHWAYS "other_gov").
Proof.
  intros Hno.
  destruct (truthy nation && negb (strict_eq nation "England")); [|done].
  destruct (nation_keys !! to_string nation) as [nationKey|] eqn:Hk; [|done].
  destruct (negb (String.eqb nationKey "")); [|done].
  cbv zeta. unfold get at 1 2.
  pose proof (nation_keys_range _ _ Hk) as Hr.
  rewrite Hno by (destruct Hr as [->|[->| ->]]; set_solver).
  rewrite (inherited_suffix (to_string bodyType));
    [done|destruct Hr as [->|[->| ->]]; reflexivity].
Qed.

(** X1.  [getPathway] never returns [undefined]: for every body type,
    complaint type and nation the result is a catalog template with at
    least one step and exactly one step flagged current, or, when the
    body type is the name of a member of [Object.prototype], that
    member. *)
Theorem getPathway_never_undefined (bodyType complaintType nation : option string) :
  getPathway bodyType complaintType nation ≠ VUndefined ∧
  ((∃ key r p,
      getPathway bodyType complaintType nation = VPathway r ∧
      PATHWAYS !! key = Some r ∧ catalog_heap !! r = Some p ∧
      steps p ≠ [] ∧ current_count p = 1) ∨
   (inherited (to_string bodyType) = true ∧
    getPathway bodyType complaintType nation = VInherited (to_string bodyType))).
Proof.
  destruct (getPathway_resolved bodyType complaintType nation) as [key r Hr|Hi Hn].
  - split; [discriminate|]. left.
    destruct (PATHWAYS_object _ _ Hr) as (p & Hp & Hwf%well_formed_steps).
    exists key, r, p. tauto.
  - split; [discriminate|]. right. done.
Qed.

(** X2.  A body type with no template of its own and no nation variant,
    and which is not the name of an inherited member, resolves to the
    [other_gov] template whatever the complaint type and the nation. *)
Theorem getPathway_unknown_body_falls_back
    (bodyType complaintType nation : option string) :
  inherited (to_string bodyType) = false →
  PATHWAYS !! to_string bodyType = None →
  (∀ sfx, sfx ∈ ["scotland"; "wales"; "ni"] →
          PATHWAYS !! (to_string bodyType ++ "_" ++ sfx) = None) →
  ∃ r, getPathway bodyType complaintType nation = VPathway r ∧
       PATHWAYS !! "other_gov" = Some r ∧
       catalog_heap !! r = Some Catalog.other_gov.
Proof.
  intros Hi Hn Hs. exists 25. split; [|done].
  assert (Hdwp : strict_eq bodyType "dwp" = false).
  { destruct bodyType as [b|]; [|done]. simpl.
    apply not_true_is_false. intros ->%String.eqb_eq. discriminate. }
  unfold getPathway. cbv zeta. rewrite Hdwp. simpl andb. cbv iota.
  rewrite no_variant_base by done.
  unfold get at 1. rewrite Hn, Hi. reflexivity.
Qed.

Lemma getPathway_unknown_body_falls_back_witness :
  ∃ r, getPathway (Some "home_office") (Some "decision") (Some "Wales") = VPathway r ∧
       PATHWAYS !! "other_gov" = Some r ∧
       catalog_heap !! r = Some Catalog.other_gov.
Proof.
  apply (getPathway_unknown_body_falls_back (Some "home_office")).
  - reflexivity.
  - reflexivity.
  - intros sfx H.
    repeat (apply elem_of_cons in H as [->|H]; [reflexivity|]).
    by apply elem_of_nil in H.
Defined.

(** X3.  For Scotland, Wales and Northern Ireland, a body type that has a
    template under its nation key ("scotland", "wales", "ni") resolves to
    that template, whatever the complaint type. *)
Theorem getPathway_nation_variant
    (bodyType nation sfx : string) (complaintType : option string) (r : ref) :
  nation_keys !! nation = Some sfx →
  PATHWAYS !! (bodyType ++ "_" ++ sfx) = Some r →
  getPathway (Some bodyType) complaintType (Some nation) = VPathway r.
Proof.
  intros Hk Hr.
  assert (Hdwp : strict_eq (Some bodyType) "dwp" = false).
  { simpl. apply not_true_is_false. intros ->%String.eqb_eq.
    apply nation_keys_range in Hk. destruct Hk as [->|[->| ->]]; discriminate. }
  assert (Hn : truthy (Some nation) && negb (strict_eq (Some nation) "England") = true).
  { simpl. apply andb_true_iff. rewrite !negb_true_iff. split.
    - apply not_true_is_false. intros ->%String.eqb_eq. discriminate.
    - apply not_true_is_false. intros ->%String.eqb_eq. discriminate. }
  unfold getPathway. cbv zeta. rewrite Hdwp, Hn. simpl andb. cbv iota.
  simpl to_string. rewrite Hk.
  assert (Hs : negb (String.eqb sfx "") = true).
  { apply nation_keys_range in Hk. destruct Hk as [->|[->| ->]]; reflexivity. }
  rewrite Hs. unfold get at 1 2. rewrite Hr. reflexivity.
Qed.

Lemma getPathway_nation_variant_witness :
  getPathway (Some "council") (Some "service") (Some "Northern Ireland")
    = VPathway 22.
Proof.
  apply (getPathway_nation_variant "council" "Northern Ireland" "ni").
  - reflexivity.
  - reflexivity.
Defined.

(** X4.  A nation other than "Scotland", "Wales" and "Northern Ireland"
    (England, none, the empty text, another spelling such as "scotland")
    is ignored: the result is the one without nation. *)
Theorem getPathway_other_nation_ignored
    (bodyType complaintType nation : option string) :
  nation ≠ Some "Scotland" → nation ≠ Some "Wales" →
  nation ≠ Some "Northern Ireland" →
  getPathway bodyType complaintType nation = getPathway bodyType complaintType None.
Proof.
  intros H1 H2 H3.
  assert (Hk : nation_keys !! to_string nation = None ∨ nation = None).
  { destruct nation as [n|]; [left|by right]. simpl.
    destruct (nation_keys !! n) as [v|] eqn:E; [|done]. exfalso.
    unfold nation_keys in E.
    apply lookup_insert_Some in E as [[<- _]|[_ E]]; [done|].
    apply lookup_insert_Some in E as [[<- _]|[_ E]]; [done|].
    apply lookup_singleton_Some in E as [<- _]. done. }
  unfold getPathway. cbv zeta.
  destruct Hk as [Hk| ->]; [|reflexivity].
  rewrite Hk. simpl truthy. simpl andb. cbv iota.
  destruct (truthy nation && negb (strict_eq nation "England")); reflexivity.
Qed.

Lemma getPathway_other_nation_ignored_witness :
  getPathway (Some "police") None (Some "scotland") = getPathway (Some "police") None None.
Proof.
  apply (getPathway_other_nation_ignored (Some "police") None (Some "scotland"));
    discriminate.
Defined.

(** X5.  A body type without nation variants in the catalog (school,
    hmrc, dwp, other_gov, any unknown one) resolves in every nation as it
    does without nation. *)
Theorem getPathway_without_variant
    (bodyType complaintType nation : option string) :
  (∀ sfx, sfx ∈ ["scotland"; "wales"; "ni"] →
          PATHWAYS !! (to_string bodyType ++ "_" ++ sfx) = None) →
  getPathway bodyType complaintType nation = getPathway bodyType complaintType None.
Proof.
  intros Hs. unfold getPathway. cbv zeta.
  rewrite no_variant_base by done. reflexivity.
Qed.

Lemma getPathway_without_variant_witness :
  getPathway (Some "school") None (Some "Scotland") = getPathway (Some "school") None None.
Proof.
  apply (getPathway_without_variant (Some "school")).
  intros sfx H.
  repeat (apply elem_of_cons in H as [->|H]; [reflexivity|]).
  by apply elem_of_nil in H.
Defined.

Lemma supported_resolve :
  Forall (λ key, ∃ r p, PATHWAYS !! key = Some r ∧
                        getPathway (Some key) None None = VPathway r ∧
                        catalog_heap !! r = Some p ∧
                        (key, p) ∈ Catalog.entries)
         getSupportedBodyTypes.
Proof.
  unfold getSupportedBodyTypes.
  repeat constructor;
    (eexists _, _; split; [reflexivity|]; split; [reflexivity|];
     split; [reflexivity|]; set_solver).
Qed.

(** X6.  Every name that [getSupportedBodyTypes] lists, taken as a body
    type without complaint type and nation, resolves to the template that
    the catalog stores under that very name; this includes "dwp", the two
    DWP sub-pathways and the nation-specific names. *)
Theorem getSupportedBodyTypes_resolve (key : string) :
  key ∈ getSupportedBodyTypes →
  ∃ r p, PATHWAYS !! key = Some r ∧
         getPathway (Some key) None None = VPathway r ∧
         catalog_heap !! r = Some p ∧
         (key, p) ∈ Catalog.entries.
Proof.
  intros H. pose proof supported_resolve as Hall.
  rewrite Forall_forall in Hall. by apply Hall.
Qed.

Lemma getSupportedBodyTypes_resolve_witness :
  ∃ r p, PATHWAYS !! "gp_wales" = Some r ∧
         getPathway (Some "gp_wales") None None = VPathway r ∧
         catalog_heap !! r = Some p ∧
         ("gp_wales", p) ∈ Catalog.entries.
Proof.
  apply (getSupportedBodyTypes_resolve "gp_wales").
  unfold getSupportedBodyTypes. simpl. set_solver.
Defined.

(** *** More about [adjustForStepsTaken] *)

Lemma class_not_nothing (s : string) :
  formal_class (toLowerCase s) = true ∨ informal_class (toLowerCase s) = true →
  nothing_taken (Some s) = false.
Proof.
  intros Hc. apply not_true_is_false. intros Hnt.
  apply nothing_taken_spec in Hnt as [|(s' & [= <-] & [->|[E|E]])];
    [done| |rewrite E in Hc..]; destruct Hc; discriminate.
Qed.

Lemma adjustForStepsTaken_marks (h : heap) (r : ref) (p : Pathway)
    (stepsTaken : option string) :
  h !! r = Some p →
  steps p ≠ [] →
  nothing_taken stepsTaken = false →
  ∃ r' h' p',
    adjustForStepsTaken h (VPathway r) stepsTaken = Normal (VPathway r', h') ∧
    h' !! r' = Some p' ∧
    List.length (steps p') = List.length (steps p) ∧
    ∀ i st, steps p' !! i = Some st →
            (is_current st = true ↔
             i = target (toLowerCase (to_string stepsTaken)) (List.length (steps p))).
Proof.
  intros Hr Hne Hnt.
  eexists _, _, _.
  rewrite (adjustForStepsTaken_clone _ _ p) by done.
  split; [reflexivity|].
  split; [rewrite lookup_app_r by lia; by rewrite Nat.sub_diag|].
  unfold adjusted_copy. simpl steps.
  rewrite length_alter, length_fmap. split; [done|].
  intros i st Hst. by apply marked_lookup in Hst.
Qed.

(** X7.  A text with a keyword of the formal class ("formal", "written",
    "complained", "stage 2", "tier 2") or of the informal class ("pals",
    "spoke", "called", "mentioned", "raised", "tried"), in any letter
    case, and without ombudsman keyword, flags the second step of the
    pathway when it has one and else the first, whichever steps the
    pathway has and whichever stage the text names. *)
Theorem adjustForStepsTaken_formal_or_informal
    (h : heap) (r : ref) (p : Pathway) (s : string) :
  h !! r = Some p →
  steps p ≠ [] →
  ombudsman_class (toLowerCase s) = false →
  formal_class (toLowerCase s) = true ∨ informal_class (toLowerCase s) = true →
  ∃ r' h' p',
    adjustForStepsTaken h (VPathway r) (Some s) = Normal (VPathway r', h') ∧
    h' !! r' = Some p' ∧
    List.length (steps p') = List.length (steps p) ∧
    ∀ i st, steps p' !! i = Some st →
            (is_current st = true ↔ i = second_or_first (List.length (steps p))).
Proof.
  intros Hr Hne Ho Hc.
  destruct (adjustForStepsTaken_marks h r p (Some s) Hr Hne (class_not_nothing s Hc))
    as (r' & h' & p' & Ha & Hp' & Hlen & Hcur).
  exists r', h', p'. repeat (split; [done|]).
  intros i st Hst. rewrite (Hcur i st Hst). simpl to_string.
  unfold target, second_or_first. rewrite Ho.
  assert (Hn : (0 <? List.length (steps p) - 1)%nat = (1 <? List.length (steps p))%nat).
  { destruct (List.length (steps p)) as [|[|n]]; reflexivity. }
  rewrite Hn.
  destruct (formal_class (toLowerCase s)); [done|].
  destruct Hc as [Hc|Hc]; [discriminate|]. by rewrite Hc.
Qed.

Lemma adjustForStepsTaken_formal_or_informal_witness :
  ∃ r' h' p',
    adjustForStepsTaken catalog_heap (VPathway 3)
      (Some "I went through Stage 2 of the council procedure")
      = Normal (VPathway r', h') ∧
    h' !! r' = Some p' ∧
    List.length (steps p') = List.length (steps Catalog.council) ∧
    ∀ i st, steps p' !! i = Some st →
            (is_current st = true ↔
             i = second_or_first (List.length (steps Catalog.council))).
Proof.
  apply (adjustForStepsTaken_formal_or_informal catalog_heap 3 Catalog.council).
  - reflexivity.
  - discriminate.
  - reflexivity.
  - left. reflexivity.
Defined.

(** X8.  A text of ASCII characters that is not empty, not "none"/"no",
    and has no keyword of any class leaves the first step as the only
    current one, in a new object. *)
Theorem adjustForStepsTaken_no_keyword
    (h : heap) (r : ref) (p : Pathway) (s : string) :
  h !! r = Some p →
  steps p ≠ [] →
  ascii_only s = true →
  nothing_taken (Some s) = false →
  ombudsman_class (toLowerCase s) = false →
  formal_class (toLowerCase s) = false →
  informal_class (toLowerCase s) = false →
  ∃ r' h' p',
    adjustForStepsTaken h (VPathway r) (Some s) = Normal (VPathway r', h') ∧
    h !! r' = None ∧
    h' !! r' = Some p' ∧
    ∀ i st, steps p' !! i = Some st → (is_current st = true ↔ i = 0%nat).
Proof.
  intros Hr Hne _ Hnt Ho Hf Hi.
  destruct (adjustForStepsTaken_marks h r p (Some s) Hr Hne Hnt)
    as (r' & h' & p' & Ha & Hp' & Hlen & Hcur).
  exists r', h', p'. split; [done|]. split.
  - rewrite (adjustForStepsTaken_clone _ _ p) in Ha by done.
    injection Ha as <- _. by apply lookup_ge_None_2.
  - split; [done|]. intros i st Hst. rewrite (Hcur i st Hst).
    simpl to_string. unfold target. by rewrite Ho, Hf, Hi.
Qed.

Lemma adjustForStepsTaken_no_keyword_witness :
  ∃ r' h' p',
    adjustForStepsTaken catalog_heap (VPathway 1) (Some "I emailed the surgery")
      = Normal (VPathway r', h') ∧
    catalog_heap !! r' = None ∧
    h' !! r' = Some p' ∧
    ∀ i st, steps p' !! i = Some st → (is_current st = true ↔ i = 0%nat).
Proof.
  apply (adjustForStepsTaken_no_keyword catalog_heap 1 Catalog.gp);
    (reflexivity || discriminate).
Defined.

(** X9.  On a pathway object the function throws in one case only: the
    text passes the early return and the pathway has no steps, so that
    the default branch writes to [steps[0]], which is undefined. *)
Theorem adjustForStepsTaken_throws_iff
    (h : heap) (r : ref) (p : Pathway) (stepsTaken : option string) :
  h !! r = Some p →
  adjustForStepsTaken h (VPathway r) stepsTaken = Throw ↔
  nothing_taken stepsTaken = false ∧ steps p = [].
Proof.
  intros Hr. split.
  - intros H. destruct (nothing_taken stepsTaken) eqn:Hnt.
    + by rewrite adjustForStepsTaken_early in H.
    + split; [done|]. destruct (steps p) as [|s ss] eqn:Hs; [done|].
      rewrite (adjustForStepsTaken_clone _ _ p) in H; [done..|].
      by rewrite Hs.
  - intros [Hnt Hs]. unfold adjustForStepsTaken.
    rewrite Hnt, Hr. unfold adjust. rewrite Hs. reflexivity.
Qed.

Lemma adjustForStepsTaken_throws_iff_witness :
  adjustForStepsTaken [stepless] (VPathway 0) (Some "I emailed the surgery") = Throw.
Proof.
  apply (adjustForStepsTaken_throws_iff [stepless] 0 stepless
           (Some "I emailed the surgery")).
  - reflexivity.
  - split; reflexivity.
Defined.

Lemma lower_char_idem (c : ascii) : lower_char (lower_char c) = lower_char c.
Proof.
  destruct c as [[] [] [] [] [] [] [] []]; reflexivity.
Qed.

Lemma toLowerCase_idem (s : string) : toLowerCase (toLowerCase s) = toLowerCase s.
Proof.
  induction s as [|c s IH]; simpl; [done|]. by rewrite lower_char_idem, IH.
Qed.

(** X10.  Letter case never matters: a text and its lower-cased form give
    the same outcome, for every store and every pathway value. *)
Theorem adjustForStepsTaken_case_insensitive (h : heap) (v : value) (s : string) :
  adjustForStepsTaken h v (Some s) = adjustForStepsTaken h v (Some (toLowerCase s)).
Proof.
  assert (Hnt : nothing_taken (Some s) = nothing_taken (Some (toLowerCase s))).
  { unfold nothing_taken. simpl. rewrite toLowerCase_idem.
    by destruct s. }
  unfold adjustForStepsTaken. rewrite <- Hnt. simpl to_string.
  by rewrite toLowerCase_idem.
Qed.

Lemma fmap_clear_alter (i : nat) (ss : list PathwayStep) :
  set_current false <$> alter (set_current true) i (set_current false <$> ss)
  = set_current false <$> ss.
Proof.
  revert i. induction ss as [|x ss IH]; intros i; [done|].
  destruct i as [|i]; simpl.
  - f_equal. clear. induction ss as [|y ss IH]; simpl; [done|]. by rewrite IH.
  - f_equal. apply IH.
Qed.

Lemma adjusted_copy_idem (lower : string) (p : Pathway) :
  adjusted_copy lower (adjusted_copy lower p) = adjusted_copy lower p.
Proof.
  unfold adjusted_copy. simpl.
  rewrite fmap_clear_alter, length_alter, length_fmap. reflexivity.
Qed.

(** X11.  Applying the same text again to a result changes nothing: the
    second result has the contents of the first. *)
Theorem adjustForStepsTaken_twice
    (h h1 : heap) (r r1 : ref) (p : Pathway) (stepsTaken : option string) :
  h !! r = Some p →
  steps p ≠ [] →
  adjustForStepsTaken h (VPathway r) stepsTaken = Normal (VPathway r1, h1) →
  ∃ r2 h2,
    adjustForStepsTaken h1 (VPathway r1) stepsTaken = Normal (VPathway r2, h2) ∧
    h2 !! r2 = h1 !! r1.
Proof.
  intros Hr Hne Ha.
  destruct (nothing_taken stepsTaken) eqn:Hnt.
  - rewrite adjustForStepsTaken_early in Ha by done. injection Ha as <- <-.
    exists r, h. by rewrite adjustForStepsTaken_early.
  - rewrite (adjustForStepsTaken_clone _ _ p) in Ha by done.
    injection Ha as <- <-.
    set (lower := toLowerCase (to_string stepsTaken)).
    assert (H1 : (h ++ [adjusted_copy lower p])%list !! List.length h
                 = Some (adjusted_copy lower p)).
    { rewrite lookup_app_r by lia. by rewrite Nat.sub_diag. }
    eexists _, _.
    rewrite (adjustForStepsTaken_clone _ _ (adjusted_copy lower p)); [| done | done |].
    + split; [reflexivity|]. fold lower. rewrite adjusted_copy_idem, H1.
      rewrite lookup_app_r by lia. by rewrite Nat.sub_diag.
    + unfold adjusted_copy. simpl. intros E.
      apply (f_equal List.length) in E.
      rewrite length_alter, length_fmap in E.
      destruct (steps p); [done|]. discriminate.
Qed.

Lemma adjustForStepsTaken_twice_witness :
  ∃ r2 h2,
    adjustForStepsTaken (catalog_heap ++ [adjusted_copy "i spoke to pals" Catalog.nhs_trust])
      (VPathway 26) (Some "I spoke to PALS") = Normal (VPathway r2, h2) ∧
    h2 !! r2 =
      (catalog_heap ++ [adjusted_copy "i spoke to pals" Catalog.nhs_trust])%list !! 26%nat.
Proof.
  apply (adjustForStepsTaken_twice catalog_heap _ 0 26 Catalog.nhs_trust
           (Some "I spoke to PALS")).
  - reflexivity.
  - discriminate.
  - reflexivity.
Defined.

End RouterProofs.

(** ** The session controller *)

Module ChatProofs.
Import JsString Router RouterProofs.

(** Confirmation resolves and shows a pathway for every facts record whose
    body type is not an inherited property name: the safeguarding
    classification and the nation are never read. *)
Lemma handleConfirmSummary_resolves (st : Chat.state) (facts : Facts) :
  Chat.extractedFacts st = Some facts →
  hosts_catalog (Chat.objects st) →
  inherited (to_string (bodyType facts)) = false →
  ∃ st' key r0 r p,
    Chat.handleConfirmSummary st = Normal st' ∧
    getPathway (bodyType facts) (complaintType facts) None = VPathway r0 ∧
    PATHWAYS !! key = Some r0 ∧
    Chat.currentPathway st' = Some (VPathway r) ∧
    Chat.objects st' !! r = Some p ∧
    Chat.messages st' = (Chat.messages st ++ [Chat.PathwayCard r])%list.
Proof.
  intros Hf Hh Hi.
  destruct (getPathway_template (bodyType facts) (complaintType facts) None Hi)
    as (key & r0 & p0 & Hget & Hkey & Hp0).
  destruct (PATHWAYS_object _ _ Hkey) as (p0' & Hp0' & Hwf%well_formed_steps).
  assert (p0' = p0) as -> by congruence.
  destruct Hwf as [Hne _].
  unfold Chat.handleConfirmSummary. rewrite Hf, Hget.
  destruct (nothing_taken (stepsTaken facts)) eqn:Hnt.
  - rewrite adjustForStepsTaken_early by done.
    eexists _, key, r0, r0, p0. simpl. rewrite (Hh _ _ Hp0).
    split; [reflexivity|]. simpl. by rewrite (Hh _ _ Hp0).
  - rewrite (adjustForStepsTaken_clone _ _ p0) by (done || by apply Hh).
    set (p' := adjusted_copy _ p0).
    assert (Hp' : (Chat.objects st ++ [p'])%list !! List.length (Chat.objects st) = Some p').
    { rewrite lookup_app_r by lia. by rewrite Nat.sub_diag. }
    eexists _, key, r0, _, p'. simpl. rewrite Hp'.
    split; [reflexivity|]. done.
Qed.

(** C1, at the failing input.  With facts classified as an emergency, a
    crime, or a child or adult safeguarding concern, confirming the
    summary resolves the hospital pathway, stores it as the current
    pathway and shows its card. *)
Theorem handleConfirmSummary_serious_concern_proceeds :
  Forall
    (λ concern,
       ∃ st' r p,
         Chat.handleConfirmSummary
           (Chat.handleSend_facts (hospital_facts concern) Chat.initial)
           = Normal st' ∧
         Chat.currentPathway st' = Some (VPathway r) ∧
         Chat.objects st' !! r = Some p ∧
         title p = "NHS Hospital/Trust Complaint" ∧
         Chat.messages st' =
           [Chat.SummaryCard (hospital_facts concern); Chat.PathwayCard r])
    ["emergency"; "crime"; "child_safeguarding"; "adult_safeguarding"].
Proof.
  repeat constructor; eexists _, _, _; (split; [vm_compute; reflexivity|]); done.
Qed.

(** Confirmation does not read the nation. *)
Lemma handleConfirmSummary_nation_irrelevant (st : Chat.state) (facts : Facts) (n : option string) :
  Chat.extractedFacts st = Some facts →
  Chat.handleConfirmSummary
    {| Chat.extractedFacts :=
         Some {| bodyType := bodyType facts;
                 complaintType := complaintType facts;
                 nation := n;
                 stepsTaken := stepsTaken facts;
                 safeguardingConcern := safeguardingConcern facts |};
       Chat.currentPathway := Chat.currentPathway st;
       Chat.objects := Chat.objects st;
       Chat.messages := Chat.messages st |}
  = cbind (Chat.handleConfirmSummary st)
      (λ st', Normal
         {| Chat.extractedFacts :=
              Some {| bodyType := bodyType facts;
                      complaintType := complaintType facts;
                      nation := n;
                      stepsTaken := stepsTaken facts;
                      safeguardingConcern := safeguardingConcern facts |};
            Chat.currentPathway := Chat.currentPathway st';
            Chat.objects := Chat.objects st';
            Chat.messages := Chat.messages st' |}).
Proof.
  intros Hf. unfold Chat.handleConfirmSummary. rewrite Hf. simpl.
  destruct (adjustForStepsTaken _ _ _) as [[cur h]|]; simpl; [|done].
  unfold Chat.showPathwayCard. simpl.
  destruct cur as [|r|k]; try done.
  destruct (h !! r); done.
Qed.

(** C3, at the failing input.  For a police complaint whose facts say
    Scotland, the resolver given the nation selects [police_scotland],
    but confirmation selects the base [police] template. *)
Theorem handleConfirmSummary_drops_nation :
  ∃ st' r_base r_scot,
    PATHWAYS !! "police" = Some r_base ∧
    PATHWAYS !! "police_scotland" = Some r_scot ∧
    r_base ≠ r_scot ∧
    getPathway (bodyType police_scotland_facts)
               (complaintType police_scotland_facts)
               (nation police_scotland_facts) = VPathway r_scot ∧
    Chat.handleConfirmSummary
      (Chat.handleSend_facts police_scotland_facts Chat.initial) = Normal st' ∧
    Chat.currentPathway st' = Some (VPathway r_base) ∧
    Chat.objects st' !! r_base = Some Catalog.police.
Proof.
  eexists _, 4, 13.
  split; [reflexivity|]. split; [reflexivity|]. split; [discriminate|].
  split; [reflexivity|]. split; [vm_compute; reflexivity|]. done.
Qed.

(** *** The step a letter is addressed to *)

Lemma find_flagged (ss : list PathwayStep) :
  List.length (List.filter is_current ss) = 1%nat →
  ∃ i st, ss !! i = Some st ∧ List.find is_current ss = Some st ∧
          is_current st = true ∧
          ∀ j st', ss !! j = Some st' → is_current st' = true → j = i.
Proof.
  induction ss as [|x ss IH]; simpl; [discriminate|].
  destruct (is_current x) eqn:Hx; simpl.
  - intros Hlen. exists 0%nat, x. repeat (split; [done|]).
    intros [|j] st' Hj Hc; [done|]. exfalso. simpl in Hj.
    assert (Hin : st' ∈ List.filter is_current ss).
    { apply list_elem_of_In, filter_In. split; [|done].
      apply list_elem_of_In. by eapply list_elem_of_lookup_2. }
    destruct (List.filter is_current ss); [by apply elem_of_nil in Hin|discriminate].
  - intros Hlen. destruct (IH Hlen) as (i & st & Hi & Hf & Hc & Hu).
    exists (S i), st. repeat (split; [done|]).
    intros [|j] st' Hj Hc'; simpl in Hj.
    + injection Hj as <-. congruence.
    + f_equal. by eapply Hu.
Qed.

(** X12.  After [adjustForStepsTaken] on a catalog template, the step that
    [buildLetterPrompt] picks ([steps.find(s => s.current) || steps[0]])
    is a step of the returned pathway, it is flagged current, and it is
    the only flagged step: the letter goes to the step shown as current. *)
Theorem currentStep_after_adjust
    (h : heap) (key : string) (r : ref) (stepsTaken : option string) :
  hosts_catalog h →
  PATHWAYS !! key = Some r →
  ∃ r' h' p' i st,
    adjustForStepsTaken h (VPathway r) stepsTaken = Normal (VPathway r', h') ∧
    h' !! r' = Some p' ∧
    steps p' !! i = Some st ∧
    Chat.currentStep p' = Some st ∧
    is_current st = true ∧
    ∀ j st', steps p' !! j = Some st' → is_current st' = true → j = i.
Proof.
  intros Hh (p & Hp%Hh & [Hne Hone]%well_formed_steps)%PATHWAYS_object.
  assert (Hres : ∃ r' h' p',
    adjustForStepsTaken h (VPathway r) stepsTaken = Normal (VPathway r', h') ∧
    h' !! r' = Some p' ∧ current_count p' = 1%nat).
  { destruct (nothing_taken stepsTaken) eqn:Hnt.
    - exists r, h, p. by rewrite adjustForStepsTaken_early.
    - eexists _, _, _. rewrite (adjustForStepsTaken_clone _ _ p) by done.
      split; [reflexivity|]. split.
      + rewrite lookup_app_r by lia. by rewrite Nat.sub_diag.
      + by apply adjusted_copy_count. }
  destruct Hres as (r' & h' & p' & Ha & Hp' & Hc).
  destruct (find_flagged (steps p') Hc) as (i & st & Hi & Hf & Hcur & Hu).
  exists r', h', p', i, st. repeat (split; [done|]).
  split; [|done]. unfold Chat.currentStep. by rewrite Hf.
Qed.

Lemma currentStep_after_adjust_witness :
  ∃ r' h' p' i st,
    adjustForStepsTaken catalog_heap (VPathway 5)
      (Some "I raised it with the class teacher") = Normal (VPathway r', h') ∧
    h' !! r' = Some p' ∧
    steps p' !! i = Some st ∧
    Chat.currentStep p' = Some st ∧
    is_current st = true ∧
    ∀ j st', steps p' !! j = Some st' → is_current st' = true → j = i.
Proof.
  apply (currentStep_after_adjust catalog_heap "school" 5).
  - apply hosts_catalog_initial.
  - reflexivity.
Defined.

(** *** What a session keeps true *)

Lemma sound_initial : Chat.sound Chat.initial.
Proof.
  split; [apply hosts_catalog_initial|]. split; [|done].
  intros r p Hp. simpl in Hp. apply well_formed_steps.
  pose proof catalog_well_formed as Hall.
  rewrite forallb_forall in Hall. apply Hall.
  apply list_elem_of_In. by eapply list_elem_of_lookup_2.
Qed.

Lemma adjustForStepsTaken_inv (h h' : heap) (v cur : value) (stepsTaken : option string) :
  adjustForStepsTaken h v stepsTaken = Normal (cur, h') →
  (cur = v ∧ h' = h) ∨
  (∃ r p a, v = VPathway r ∧ h !! r = Some p ∧
            adjust (toLowerCase (to_string stepsTaken)) p = Normal a ∧
            cur = VPathway (List.length h) ∧ h' = (h ++ [a])%list).
Proof.
  unfold adjustForStepsTaken.
  destruct (nothing_taken stepsTaken).
  - intros [= <- <-]. by left.
  - destruct v as [|r|k]; try discriminate.
    destruct (h !! r) as [p|] eqn:Hr; [|discriminate].
    destruct (adjust _ p) as [a|] eqn:Ha; [|discriminate].
    simpl. intros [= <- <-]. right. by exists r, p, a.
Qed.

Lemma sound_confirm (st : Chat.state) :
  Chat.sound st → Chat.sound (Chat.handleConfirmSummary_vars st).
Proof.
  intros (Hh & Hwf & Hcur). unfold Chat.handleConfirmSummary_vars.
  destruct (Chat.extractedFacts st) as [facts|]; [|done].
  cbv zeta.
  destruct (adjustForStepsTaken _ _ _) as [[cur h']|] eqn:Ha; [|done].
  assert (Hs1 : Chat.sound {| Chat.extractedFacts := Some facts;
                         Chat.currentPathway := Some cur;
                         Chat.objects := h';
                         Chat.messages := Chat.messages st |}).
  { apply adjustForStepsTaken_inv in Ha
      as [[-> ->]|(r & p & a & Hv & Hr & Hadj & -> & ->)].
    - split; [done|]. split; [done|]. simpl. intros r [= Hr].
      destruct (getPathway_resolved (bodyType facts) (complaintType facts) None)
        as [key r0 Hkey|]; [|discriminate].
      injection Hr as ->.
      destruct (PATHWAYS_object _ _ Hkey) as (p & Hp & _).
      exists p. by apply Hh.
    - destruct (Hwf r p Hr) as [Hne _].
      rewrite adjust_steps in Hadj by done. injection Hadj as <-.
      split; [by apply hosts_catalog_app|]. split.
      + simpl. intros r' p' Hp'.
        apply lookup_app_Some in Hp' as [Hp'|[_ Hp']]; [by eapply Hwf|].
        apply list_lookup_singleton_Some in Hp' as [_ <-].
        split; [|by apply adjusted_copy_count].
        unfold adjusted_copy. simpl. intros E.
        apply (f_equal List.length) in E.
        rewrite length_alter, length_fmap in E.
        destruct (steps p); [done|]. discriminate.
      + simpl. intros r' [= <-].
        rewrite lookup_app_r by lia. rewrite Nat.sub_diag. by eexists. }
  unfold Chat.showPathwayCard.
  destruct cur as [|r|k]; try done.
  cbn [Chat.objects].
  destruct (h' !! r); [|done].
  destruct Hs1 as (H1 & H2 & H3). by split.
Qed.

Lemma sound_handle (st : Chat.state) (e : Chat.event) :
  Chat.sound st → Chat.sound (Chat.handle st e).
Proof.
  intros Hs. destruct e as [|facts|]; simpl.
  - destruct Hs as (Hh & Hwf & _). by split.
  - destruct Hs as (Hh & Hwf & Hc). by split.
  - by apply sound_confirm.
Qed.

(** X13.  Whatever the user does and whatever facts arrive (any sequence
    of starts, extractions and confirmations, including confirmations
    that throw), the catalog templates stay as they were loaded, every
    pathway object has exactly one current step, and the current pathway
    is either unset, an object of the store with one current step, or
    not a pathway at all. *)
Theorem session_sound (es : list Chat.event) :
  let st := Chat.session es in
  (∀ r p, catalog_heap !! r = Some p → Chat.objects st !! r = Some p) ∧
  (∀ r, Chat.currentPathway st = Some (VPathway r) →
        ∃ p st1, Chat.objects st !! r = Some p ∧ current_count p = 1%nat ∧
                 Chat.currentStep p = Some st1 ∧ is_current st1 = true).
Proof.
  cbv zeta. unfold Chat.session.
  assert (Hs : Chat.sound (foldl Chat.handle Chat.initial es)).
  { generalize sound_initial. generalize Chat.initial.
    induction es as [|e es IH]; intros st Hst; simpl; [done|].
    by apply IH, sound_handle. }
  destruct Hs as (Hh & Hwf & Hcur). split; [exact Hh|].
  intros r [p Hp]%Hcur. destruct (Hwf r p Hp) as [_ Hone].
  destruct (find_flagged (steps p) Hone) as (i & st1 & _ & Hf & Hc & _).
  exists p, st1. repeat (split; [done|]).
  split; [|done]. unfold Chat.currentStep. by rewrite Hf.
Qed.

Lemma inherited_no_template (k : string) :
  inherited k = true → PATHWAYS !! k = None ∧ String.eqb k "dwp" = false.
Proof.
  unfold inherited. intros (name & Hin & ->%String.eqb_eq)%existsb_exists.
  unfold Object_prototype in Hin. simpl in Hin.
  repeat (destruct Hin as [<-|Hin]; [by split|]). done.
Qed.

(** X14.  When the body type of the facts is the name of a member of
    [Object.prototype] ("constructor", "toString", ...), confirming the
    summary throws and no pathway card is added. *)
Theorem handleConfirmSummary_inherited_throws (st : Chat.state) (facts : Facts) :
  Chat.extractedFacts st = Some facts →
  inherited (to_string (bodyType facts)) = true →
  Chat.handleConfirmSummary st = Throw ∧
  Chat.messages (Chat.handleConfirmSummary_vars st) = Chat.messages st.
Proof.
  intros Hf Hi.
  destruct (inherited_no_template _ Hi) as [Hn Hd].
  assert (Hget : getPathway (bodyType facts) (complaintType facts) None
                 = VInherited (to_string (bodyType facts))).
  { unfold getPathway. cbv zeta.
    assert (Hdwp : strict_eq (bodyType facts) "dwp" = false).
    { destruct (bodyType facts) as [b|]; [exact Hd|done]. }
    rewrite Hdwp. simpl. unfold get at 1. by rewrite Hn, Hi. }
  unfold Chat.handleConfirmSummary, Chat.handleConfirmSummary_vars.
  rewrite Hf, Hget. cbv zeta. unfold adjustForStepsTaken.
  destruct (nothing_taken (stepsTaken facts)); done.
Qed.

Lemma handleConfirmSummary_inherited_throws_witness :
  let st := Chat.handleSend_facts
              {| bodyType := Some "toString"; complaintType := None;
                 nation := None; stepsTaken := Some "no";
                 safeguardingConcern := None |} Chat.initial in
  Chat.handleConfirmSummary st = Throw ∧
  Chat.messages (Chat.handleConfirmSummary_vars st) = Chat.messages st.
Proof.
  cbv zeta.
  eapply handleConfirmSummary_inherited_throws; reflexivity.
Defined.

(** *** The complaint type on the summary card *)

Lemma dwp_general_base (nation : option string) (complaintType : option string) :
  strict_eq complaintType "decision" = false →
  strict_eq complaintType "service" = false →
  getPathway (Some "dwp") complaintType nation = VPathway 8.
Proof.
  intros Hd Hs. unfold getPathway. cbv zeta.
  rewrite (no_variant_base (Some "dwp")).
  - rewrite Hd, Hs. by destruct (_ && _).
  - intros sfx H.
    repeat (apply elem_of_cons in H as [->|H]; [reflexivity|]).
    by apply elem_of_nil in H.
Qed.

(** X15.  The summary card labels the complaint type exactly when it is
    one of the two types that change the DWP route: for every complaint
    type and nation, [formatComplaintType] returns a label if and only if
    [getPathway('dwp', type, nation)] is the decision or the service
    template rather than the combined DWP template. *)
Theorem formatComplaintType_matches_routing
    (type : option string) (nation : option string) :
  (∃ l, Chat.formatComplaintType type = Chat.LText l) ↔
  (getPathway (Some "dwp") type nation = VPathway 6 ∨
   getPathway (Some "dwp") type nation = VPathway 7).
Proof.
  destruct (strict_eq type "decision") eqn:Hd.
  { destruct type as [t|]; [|done]. apply String.eqb_eq in Hd as ->.
    split; [by left|]. intros _. by eexists. }
  destruct (strict_eq type "service") eqn:Hs.
  { destruct type as [t|]; [|done]. apply String.eqb_eq in Hs as ->.
    split; [by right|]. intros _. by eexists. }
  rewrite dwp_general_base by done.
  split; [|intros [|]; discriminate].
  intros [l Hl]. exfalso. revert Hl. unfold Chat.formatComplaintType.
  destruct (negb (truthy type) || strict_eq type "general"); [done|].
  cbv zeta.
  destruct type as [t|]; simpl in *.
  - rewrite lookup_insert_ne by (intros <-; by rewrite String.eqb_refl in Hd).
    rewrite lookup_singleton_ne by (intros <-; by rewrite String.eqb_refl in Hs).
    by destruct (inherited t).
  - done.
Qed.

End ChatProofs.

(** ** The later controller: gate, nation and deadlines *)

Module WorkflowProofs.
Import JsString JsDate Router RouterProofs ChatProofs.

(** The later [handleConfirmSummary] passes the nation on. *)
Lemma handleConfirmSummary_uses_nation :
  ∃ st' r,
    Workflow.handleConfirmSummary
      (Workflow.handleSend_facts police_scotland_facts None Workflow.initial)
      = Normal st' ∧
    PATHWAYS !! "police_scotland" = Some r ∧
    Workflow.currentPathway st' = Some (VPathway r) ∧
    Workflow.sessionStatus st' = Workflow.pathway.
Proof. eexists _, 13. split; [vm_compute; reflexivity|]. done. Qed.

(** *** The safeguarding gate *)

Lemma inherited_In (k : string) :
  inherited k = true → In k Object_prototype.
Proof.
  unfold inherited. intros H. apply existsb_exists in H as (x & Hx & E).
  by apply String.eqb_eq in E as ->.
Qed.

Lemma by_nation_array (table : gmap string (list Workflow.contact)) (nation : string) :
  inherited nation = false →
  ∃ l, Workflow.by_nation table nation = Workflow.ContactsArray l.
Proof.
  intros H. unfold Workflow.by_nation.
  destruct (table !! nation); [by eexists|]. rewrite H. by eexists.
Qed.

(** No nation of the contact tables is the name of an inherited member. *)
Lemma by_nation_inherited (table : gmap string (list Workflow.contact)) (nation : string) :
  table = Workflow.childSafeguardingContacts ∨
  table = Workflow.adultSafeguardingContacts ∨
  table = Workflow.regulatoryContacts →
  inherited nation = true →
  Workflow.by_nation table nation = Workflow.ContactsInherited nation.
Proof.
  intros Ht H. unfold Workflow.by_nation. rewrite H.
  replace (table !! nation) with (@None (list Workflow.contact)); [done|].
  apply inherited_In in H. unfold Object_prototype in H. simpl in H.
  destruct Ht as [->|[->| ->]];
    repeat (destruct H as [<-|H]; [vm_compute; reflexivity|]);
    destruct H.
Qed.

Lemma gate_info_emergency (nation : string) :
  ∃ i l, Workflow.gate_info nation "emergency" = Some i ∧
         Workflow.info_contacts i = Workflow.ContactsArray l.
Proof.
  unfold Workflow.gate_info, Workflow.contactInfo.
  eexists _, _. by simplify_map_eq.
Qed.

Lemma gate_info_crime (nation : string) :
  ∃ i l, Workflow.gate_info nation "crime" = Some i ∧
         Workflow.info_contacts i = Workflow.ContactsArray l.
Proof.
  unfold Workflow.gate_info, Workflow.contactInfo.
  eexists _, _. by simplify_map_eq.
Qed.

Lemma gate_info_child (nation : string) :
  ∃ i, Workflow.gate_info nation "child_safeguarding" = Some i ∧
       Workflow.info_contacts i =
         Workflow.by_nation Workflow.childSafeguardingContacts nation.
Proof.
  unfold Workflow.gate_info, Workflow.contactInfo.
  eexists. by simplify_map_eq.
Qed.

Lemma gate_info_adult (nation : string) :
  ∃ i, Workflow.gate_info nation "adult_safeguarding" = Some i ∧
       Workflow.info_contacts i =
         Workflow.by_nation Workflow.adultSafeguardingContacts nation.
Proof.
  unfold Workflow.gate_info, Workflow.contactInfo.
  eexists. by simplify_map_eq.
Qed.

(** The gate for a serious concern: it is inserted, with the flag that
    leaves "Return to home" as its only button, unless the concern is a
    child or adult safeguarding one and the session's nation names an
    inherited member; then the call throws. *)
Lemma showSafeguardingGate_serious (concern : string) (st : Workflow.state) :
  concern ∈ Workflow.SERIOUS_CONCERNS →
  (Workflow.showSafeguardingGate concern st = Throw ∧
   (concern = "child_safeguarding" ∨ concern = "adult_safeguarding") ∧
   inherited (Workflow.session_nation st) = true) ∨
  (∃ title action contacts,
     Workflow.showSafeguardingGate concern st =
       Normal (Workflow.add_element
                 (Workflow.SafeguardingGate title action contacts true) st) ∧
     ¬ ((concern = "child_safeguarding" ∨ concern = "adult_safeguarding") ∧
        inherited (Workflow.session_nation st) = true)).
Proof.
  intros Hin. unfold Workflow.SERIOUS_CONCERNS in Hin.
  unfold Workflow.showSafeguardingGate.
  set (n := Workflow.session_nation st).
  apply elem_of_cons in Hin as [->|Hin].
  { right. destruct (gate_info_emergency n) as (i & l & -> & ->).
    eexists _, _, _. split; [reflexivity|]. by intros [[|] _]. }
  apply elem_of_cons in Hin as [->|Hin].
  { right. destruct (gate_info_crime n) as (i & l & -> & ->).
    eexists _, _, _. split; [reflexivity|]. by intros [[|] _]. }
  apply elem_of_cons in Hin as [->|Hin].
  { destruct (gate_info_child n) as (i & -> & ->).
    destruct (inherited n) eqn:Hn.
    - left. rewrite by_nation_inherited by auto. auto.
    - right. destruct (by_nation_array Workflow.childSafeguardingContacts n Hn)
        as [l ->].
      eexists _, _, _. split; [reflexivity|]. by intros [_ ?]. }
  apply elem_of_cons in Hin as [->|Hin].
  { destruct (gate_info_adult n) as (i & -> & ->).
    destruct (inherited n) eqn:Hn.
    - left. rewrite by_nation_inherited by auto. auto.
    - right. destruct (by_nation_array Workflow.adultSafeguardingContacts n Hn)
        as [l ->].
      eexists _, _, _. split; [reflexivity|]. by intros [_ ?]. }
  by apply elem_of_nil in Hin.
Qed.

Lemma serious_is_concern (concern : string) :
  concern ∈ Workflow.SERIOUS_CONCERNS →
  truthy (Some concern) && negb (strict_eq (Some concern) "none") = true.
Proof.
  unfold Workflow.SERIOUS_CONCERNS. intros Hin.
  repeat (apply elem_of_cons in Hin as [->|Hin]; [done|]).
  by apply elem_of_nil in Hin.
Qed.

(** The later summary card sends a serious concern to the gate: no
    pathway is resolved, the status stays [summary], and the gate offers
    no button that confirms. *)
Lemma confirm_summary_click_serious (concern : string) (st : Workflow.state) :
  concern ∈ Workflow.SERIOUS_CONCERNS →
  inherited (Workflow.session_nation st) = false →
  ∃ title action contacts,
    Workflow.confirm_summary_click (hospital_facts concern) st
      = Normal (Workflow.add_element
                  (Workflow.SafeguardingGate title action contacts true) st) ∧
    Workflow.gate_click true Workflow.gate_acknowledge
      (Workflow.add_element
         (Workflow.SafeguardingGate title action contacts true) st) = None.
Proof.
  intros Hin Hn. unfold Workflow.confirm_summary_click.
  cbn [safeguardingConcern hospital_facts].
  rewrite serious_is_concern by done. cbn [to_string].
  destruct (showSafeguardingGate_serious concern st Hin)
    as [(_ & _ & Hi)|(title & action & contacts & -> & _)]; [congruence|].
  by eexists _, _, _.
Qed.

(** A summary card stays on the page when a newer one arrives, and its
    listener tests the facts it was rendered with while
    [handleConfirmSummary] reads the latest facts.  After a first
    extraction without concern and a second one classified as a crime,
    the first card's button resolves the pathway for the second facts. *)
Lemma stale_summary_card_passes_gate :
  let st :=
    Workflow.handleSend_facts (hospital_facts "crime") None
      (Workflow.handleSend_facts (hospital_facts "none") None Workflow.initial) in
  Workflow.extractedFacts st = Some (hospital_facts "crime") ∧
  Workflow.SummaryCard (hospital_facts "none") ∈ Workflow.messages st ∧
  ∃ st' r,
    Workflow.confirm_summary_click (hospital_facts "none") st = Normal st' ∧
    Workflow.currentPathway st' = Some (VPathway r) ∧
    Workflow.sessionStatus st' = Workflow.pathway.
Proof.
  cbv zeta. split; [reflexivity|]. split; [set_solver|].
  eexists _, _. split; [vm_compute; reflexivity|]. done.
Qed.

(** The later [handleConfirmSummary] itself still has no check: called on
    a session whose facts are classified as a crime, it resolves the
    pathway. *)
Lemma handleConfirmSummary_ungated :
  ∃ st' r,
    Workflow.handleConfirmSummary
      (Workflow.handleSend_facts (hospital_facts "crime") None Workflow.initial)
      = Normal st' ∧
    Workflow.currentPathway st' = Some (VPathway r) ∧
    Workflow.sessionStatus st' = Workflow.pathway.
Proof. eexists _, _. split; [vm_compute; reflexivity|]. done. Qed.

(** *** Business days *)

Lemma addWorkingDays_loop_done (holidays : list string) (tz : Z) (fuel : nat)
    (result added days : Z) :
  (added <? days)%Z = false →
  Workflow.addWorkingDays_loop holidays tz fuel result added days = Some result.
Proof.
  intros H.
  destruct fuel; cbn [Workflow.addWorkingDays_loop]; rewrite H; reflexivity.
Qed.

Lemma addWorkingDays_loop_step (holidays : list string) (tz : Z) (fuel : nat)
    (result added days : Z) :
  (added <? days)%Z = true →
  Workflow.addWorkingDays_loop holidays tz (S fuel) result added days =
    let result' := setDate tz result (getDate tz result + 1) in
    if negb (getDay tz result' =? 0)%Z && negb (getDay tz result' =? 6)%Z &&
       negb (Workflow.array_includes holidays (toISOString_slice_0_10 result'))
    then Workflow.addWorkingDays_loop holidays tz fuel result' (added + 1) days
    else Workflow.addWorkingDays_loop holidays tz fuel result' added days.
Proof.
  intros H. cbn [Workflow.addWorkingDays_loop]. rewrite H. reflexivity.
Qed.

(** More fuel never changes a result. *)
Lemma addWorkingDays_loop_fuel (holidays : list string) (tz : Z) (fuel extra : nat)
    (result added days r : Z) :
  Workflow.addWorkingDays_loop holidays tz fuel result added days = Some r →
  Workflow.addWorkingDays_loop holidays tz (fuel + extra) result added days = Some r.
Proof.
  revert result added.
  induction fuel as [|fuel IH]; intros result added H.
  - cbn [Workflow.addWorkingDays_loop] in H.
    destruct (added <? days)%Z eqn:E; [discriminate|].
    rewrite addWorkingDays_loop_done by done. exact H.
  - destruct (added <? days)%Z eqn:E.
    + rewrite addWorkingDays_loop_step in H by done.
      change (S fuel + extra)%nat with (S (fuel + extra)).
      rewrite addWorkingDays_loop_step by done.
      cbv zeta in *.
      destruct (_ && _); by apply IH.
    + rewrite addWorkingDays_loop_done in * by done. exact H.
Qed.

(** On a date-only start value (UTC midnight of 17 April 2025), under
    GMT or British Summer Time, one working day ends on 22 April 2025:
    Good Friday, the weekend and Easter Monday are skipped. *)
Lemma addWorkingDays_easter_2025 (tz : Z) (fuel : nat) :
  tz = 0%Z ∨ tz = 60%Z →
  (5 ≤ fuel)%nat →
  Workflow.addWorkingDays tz fuel (utc_midnight 2025 4 17) 1
    = Some (utc_midnight 2025 4 22) ∧
  toISOString_slice_0_10 (utc_midnight 2025 4 22) = "2025-04-22" ∧
  civil_from_days (Day (LocalTime tz (utc_midnight 2025 4 22))) = (2025, 4, 22)%Z.
Proof.
  intros Htz Hfuel.
  replace fuel with (5 + (fuel - 5))%nat by lia.
  unfold Workflow.addWorkingDays.
  destruct Htz as [-> | ->];
    (split; [apply addWorkingDays_loop_fuel; vm_compute; reflexivity|]);
    split; vm_compute; reflexivity.
Qed.

Lemma Day_of (d r : Z) : (0 ≤ r < msPerDay)%Z → Day (d * msPerDay + r) = d.
Proof.
  intros Hr. unfold Day. symmetry.
  apply (Z.div_unique _ _ d r); lia.
Qed.

Lemma TimeWithinDay_of (d r : Z) :
  (0 ≤ r < msPerDay)%Z → TimeWithinDay (d * msPerDay + r) = r.
Proof.
  intros Hr. unfold TimeWithinDay. symmetry.
  apply (Z.mod_unique _ _ d r); lia.
Qed.

(** Under British Summer Time the first hour of a local day still lies on
    the previous UTC day.  From any instant of that hour on 17 April 2025
    the loop lands on the same time of 18 April, reads Friday as the
    weekday and "2025-04-17" as the date, and counts Good Friday. *)
Lemma addWorkingDays_first_hour_bst (fuel : nat) (ms : Z) :
  (0 ≤ ms < 3600000)%Z →
  Workflow.addWorkingDays 60 (S fuel) (local_midnight 60 2025 4 17 + ms)%Z 1
    = Some (local_midnight 60 2025 4 18 + ms)%Z ∧
  civil_from_days (Day (LocalTime 60 (local_midnight 60 2025 4 17 + ms)%Z))
    = (2025, 4, 17)%Z ∧
  civil_from_days (Day (LocalTime 60 (local_midnight 60 2025 4 18 + ms)%Z))
    = (2025, 4, 18)%Z.
Proof.
  intros Hms.
  assert (E0 : local_midnight 60 2025 4 17 = (20195 * msPerDay - 60 * msPerMinute)%Z)
    by (vm_compute; reflexivity).
  assert (E1 : local_midnight 60 2025 4 18 = (20196 * msPerDay - 60 * msPerMinute)%Z)
    by (vm_compute; reflexivity).
  assert (L0 : LocalTime 60 (local_midnight 60 2025 4 17 + ms)%Z
               = (20195 * msPerDay + ms)%Z)
    by (unfold LocalTime; rewrite E0; lia).
  assert (L1 : LocalTime 60 (local_midnight 60 2025 4 18 + ms)%Z
               = (20196 * msPerDay + ms)%Z)
    by (unfold LocalTime; rewrite E1; lia).
  assert (Hr : (0 ≤ ms < msPerDay)%Z) by (unfold msPerDay; lia).
  assert (Hset : setDate 60 (local_midnight 60 2025 4 17 + ms)%Z
                   (getDate 60 (local_midnight 60 2025 4 17 + ms) + 1)%Z
                 = (local_midnight 60 2025 4 18 + ms)%Z).
  { unfold setDate, getDate. rewrite L0, Day_of, TimeWithinDay_of by done.
    change (civil_from_days 20195) with (2025, 4, 17)%Z. cbv iota beta.
    change (days_from_civil 2025 4 1) with 20179%Z.
    unfold UTC. rewrite E1. lia. }
  assert (Hday : getDay 60 (local_midnight 60 2025 4 18 + ms)%Z = 5%Z).
  { unfold getDay. rewrite L1, Day_of by done. reflexivity. }
  assert (Hiso : toISOString_slice_0_10 (local_midnight 60 2025 4 18 + ms)%Z
                 = "2025-04-17").
  { unfold toISOString_slice_0_10.
    replace (local_midnight 60 2025 4 18 + ms)%Z
      with (20195 * msPerDay + (msPerDay - 60 * msPerMinute + ms))%Z
      by (rewrite E1; lia).
    rewrite Day_of by (unfold msPerDay, msPerMinute; lia).
    vm_compute. reflexivity. }
  split; [|split].
  - unfold Workflow.addWorkingDays.
    rewrite addWorkingDays_loop_step by reflexivity.
    cbv zeta. rewrite Hset, Hday, Hiso.
    replace (Workflow.array_includes Workflow.UK_BANK_HOLIDAYS "2025-04-17")
      with false by (vm_compute; reflexivity).
    simpl andb. cbv iota.
    apply addWorkingDays_loop_done. reflexivity.
  - rewrite L0, Day_of by done. reflexivity.
  - rewrite L1, Day_of by done. reflexivity.
Qed.

(** C5, at the failing input.  Under British Summer Time, start from local
    midnight of 17 April 2025 ([new Date(2025, 3, 17)]).  One working day
    later the function answers local midnight of 18 April 2025, which is
    Good Friday, a listed holiday: the weekday is read in local time but
    the date compared with the holiday list is the UTC date, here 17
    April. *)
Theorem addWorkingDays_counts_good_friday (fuel : nat) :
  let start := local_midnight 60 2025 4 17 in
  let answer := local_midnight 60 2025 4 18 in
  civil_from_days (Day (LocalTime 60 start)) = (2025, 4, 17)%Z ∧
  Workflow.addWorkingDays 60 (S fuel) start 1 = Some answer ∧
  civil_from_days (Day (LocalTime 60 answer)) = (2025, 4, 18)%Z ∧
  getDay 60 answer = 5%Z ∧
  toISOString_slice_0_10 answer = "2025-04-17" ∧
  Workflow.array_includes Workflow.UK_BANK_HOLIDAYS "2025-04-18" = true ∧
  answer ≠ local_midnight 60 2025 4 22.
Proof.
  cbv zeta. split; [vm_compute; reflexivity|]. split.
  - unfold Workflow.addWorkingDays.
    rewrite addWorkingDays_loop_step by reflexivity.
    cbv zeta.
    replace (setDate 60 (local_midnight 60 2025 4 17)
               (getDate 60 (local_midnight 60 2025 4 17) + 1))
      with (local_midnight 60 2025 4 18) by (vm_compute; reflexivity).
    replace (getDay 60 (local_midnight 60 2025 4 18)) with 5%Z
      by (vm_compute; reflexivity).
    replace (toISOString_slice_0_10 (local_midnight 60 2025 4 18))
      with "2025-04-17" by (vm_compute; reflexivity).
    replace (Workflow.array_includes Workflow.UK_BANK_HOLIDAYS "2025-04-17")
      with false by (vm_compute; reflexivity).
    simpl andb. cbv iota.
    apply addWorkingDays_loop_done. reflexivity.
  - repeat split; try (vm_compute; reflexivity).
    vm_compute. discriminate.
Qed.

(** *** The gate of the later summary card *)

(** X16.  In the later controller, the confirm button of a summary card
    whose facts carry a serious concern (emergency, crime, child or adult
    safeguarding) never resolves a pathway.  It throws, before anything
    is inserted, exactly when the concern is a child or adult
    safeguarding one and the session's nation names a member of
    [Object.prototype]; in every other case it only shows the gate:
    pathway, status and store are left as they were, and the one button
    of that gate leads back to the landing view. *)
Theorem confirm_summary_click_serious_blocks
    (facts : Facts) (concern : string) (st : Workflow.state) :
  safeguardingConcern facts = Some concern →
  concern ∈ Workflow.SERIOUS_CONCERNS →
  (Workflow.confirm_summary_click facts st = Throw ↔
     (concern = "child_safeguarding" ∨ concern = "adult_safeguarding") ∧
     inherited (Workflow.session_nation st) = true) ∧
  ∀ st',
    Workflow.confirm_summary_click facts st = Normal st' →
    (∃ title action contacts,
       Workflow.messages st' =
         (Workflow.messages st
            ++ [Workflow.SafeguardingGate title action contacts true])%list) ∧
    Workflow.currentPathway st' = Workflow.currentPathway st ∧
    Workflow.sessionStatus st' = Workflow.sessionStatus st ∧
    Workflow.objects st' = Workflow.objects st ∧
    ∀ b out, Workflow.gate_click true b st' = Some out →
             b = Workflow.gate_go_home ∧
             out = Normal (Workflow.handleBackToLanding st') ∧
             Workflow.currentPathway (Workflow.handleBackToLanding st')
               = Workflow.currentPathway st ∧
             Workflow.sessionStatus (Workflow.handleBackToLanding st')
               = Workflow.sessionStatus st.
Proof.
  intros Hc Hin. unfold Workflow.confirm_summary_click. rewrite Hc.
  rewrite serious_is_concern by done. cbn [to_string].
  destruct (showSafeguardingGate_serious concern st Hin)
    as [(-> & Hk & Hi)|(title & action & contacts & -> & Hnot)].
  - split; [done|]. intros st' [=].
  - split; [split; [discriminate|done]|].
    intros st' [= <-].
    split; [by eexists _, _, _|]. do 3 (split; [reflexivity|]).
    intros b out Hb. destruct b; simpl in Hb; [|discriminate..].
    by injection Hb as <-.
Qed.

Lemma confirm_summary_click_serious_blocks_witness :
  (Workflow.confirm_summary_click (hospital_facts "adult_safeguarding")
     Workflow.initial = Throw ↔
     ("adult_safeguarding" = "child_safeguarding" ∨
      "adult_safeguarding" = "adult_safeguarding") ∧
     inherited (Workflow.session_nation Workflow.initial) = true) ∧
  ∀ st',
    Workflow.confirm_summary_click (hospital_facts "adult_safeguarding")
      Workflow.initial = Normal st' →
    (∃ title action contacts,
       Workflow.messages st' =
         (Workflow.messages Workflow.initial
            ++ [Workflow.SafeguardingGate title action contacts true])%list) ∧
    Workflow.currentPathway st' = Workflow.currentPathway Workflow.initial ∧
    Workflow.sessionStatus st' = Workflow.sessionStatus Workflow.initial ∧
    Workflow.objects st' = Workflow.objects Workflow.initial ∧
    ∀ b out, Workflow.gate_click true b st' = Some out →
             b = Workflow.gate_go_home ∧
             out = Normal (Workflow.handleBackToLanding st') ∧
             Workflow.currentPathway (Workflow.handleBackToLanding st')
               = Workflow.currentPathway Workflow.initial ∧
             Workflow.sessionStatus (Workflow.handleBackToLanding st')
               = Workflow.sessionStatus Workflow.initial.
Proof.
  apply (confirm_summary_click_serious_blocks
           (hospital_facts "adult_safeguarding") "adult_safeguarding").
  - reflexivity.
  - unfold Workflow.SERIOUS_CONCERNS. set_solver.
Defined.

(** The two outcomes, on a session in Scotland and on one whose postcode
    lookup answered with a country named [constructor]. *)
Example confirm_summary_click_scotland :
  Workflow.confirm_summary_click (hospital_facts "child_safeguarding")
    (Workflow.handleSend_facts (hospital_facts "child_safeguarding")
       (Some (Some "Scotland")) Workflow.initial)
  = Normal
      (Workflow.add_element
         (Workflow.SafeguardingGate
            "This may be a child safeguarding concern"
            "To protect a child from harm, contact a safeguarding team directly."
            [ ("NSPCC helpline", "0808 800 5000");
              ("Scottish Children's Reporter", "0300 200 1555");
              ("Local council children's services", "Find via your council's website");
              ("Police Scotland", "101 or 999 if urgent") ]
            true)
         (Workflow.handleSend_facts (hospital_facts "child_safeguarding")
            (Some (Some "Scotland")) Workflow.initial)).
Proof. vm_compute. reflexivity. Qed.

Example confirm_summary_click_inherited_nation :
  Workflow.confirm_summary_click (hospital_facts "child_safeguarding")
    (Workflow.handleSend_facts (hospital_facts "child_safeguarding")
       (Some (Some "constructor")) Workflow.initial)
  = Throw.
Proof. vm_compute. reflexivity. Qed.

(** *** What the business-day loop computes *)

Lemma addWorkingDays_loop_in_done (holidays : list string) (z : zone) (fuel : nat)
    (result added days : Z) :
  (added <? days)%Z = false →
  Workflow.addWorkingDays_loop_in holidays z fuel result added days
    = Some (Normal result).
Proof.
  intros H.
  destruct fuel; cbn [Workflow.addWorkingDays_loop_in]; rewrite H; reflexivity.
Qed.

Lemma addWorkingDays_loop_in_next (holidays : list string) (z : zone) (fuel : nat)
    (result added days : Z) :
  (added <? days)%Z = true →
  Workflow.addWorkingDays_loop_in holidays z (S fuel) result added days =
    match Zoned.TimeClip (Workflow.next_day z result) with
    | None => Some Throw
    | Some result' =>
        if Workflow.counts holidays z result'
        then Workflow.addWorkingDays_loop_in holidays z fuel result' (added + 1) days
        else Workflow.addWorkingDays_loop_in holidays z fuel result' added days
    end.
Proof.
  intros H. cbn [Workflow.addWorkingDays_loop_in]. rewrite H.
  unfold Workflow.next_day, Workflow.counts, Zoned.setDate. reflexivity.
Qed.

Lemma TimeClip_Some (t r : Z) : Zoned.TimeClip t = Some r → r = t.
Proof. unfold Zoned.TimeClip. destruct (_ <=? _)%Z; congruence. Qed.

Lemma addWorkingDays_loop_in_walk (holidays : list string) (z : zone) (fuel : nat)
    (t added days r : Z) :
  (added < days)%Z →
  Workflow.addWorkingDays_loop_in holidays z fuel t added days = Some (Normal r) →
  ∃ k, last (Workflow.days_after z t k) = Some r ∧
       Z.of_nat (List.length (List.filter (Workflow.counts holidays z)
                                (Workflow.days_after z t k))) = (days - added)%Z ∧
       Workflow.counts holidays z r = true.
Proof.
  revert t added.
  induction fuel as [|fuel IH]; intros t added Hlt H.
  - cbn [Workflow.addWorkingDays_loop_in] in H.
    apply Z.ltb_lt in Hlt. rewrite Hlt in H. discriminate.
  - rewrite addWorkingDays_loop_in_next in H by (by apply Z.ltb_lt).
    destruct (Zoned.TimeClip (Workflow.next_day z t)) as [t'|] eqn:Hclip;
      [|discriminate].
    apply TimeClip_Some in Hclip. subst t'.
    destruct (Workflow.counts holidays z (Workflow.next_day z t)) eqn:Hc.
    + destruct (Z.lt_ge_cases (added + 1) days) as [Hmore|Hdone].
      * destruct (IH _ _ Hmore H) as (k & Hlast & Hcount & Hr).
        exists (S k). unfold Workflow.days_after in *. cbn [Workflow.visited].
        split; [|split; [|done]].
        -- destruct k as [|k]; [discriminate|].
           cbn [Workflow.visited] in *. by rewrite last_cons, Hlast.
        -- cbn [List.filter]. rewrite Hc. cbn [List.length]. lia.
      * rewrite addWorkingDays_loop_in_done in H by (apply Z.ltb_ge; lia).
        injection H as <-. exists 1%nat.
        unfold Workflow.days_after. cbn [Workflow.visited List.filter].
        rewrite Hc. split; [done|]. split; [simpl; lia|done].
    + destruct (IH _ _ Hlt H) as (k & Hlast & Hcount & Hr).
      exists (S k). unfold Workflow.days_after in *. cbn [Workflow.visited].
      split; [|split; [|done]].
      * destruct k as [|k]; [discriminate|].
        cbn [Workflow.visited] in *. by rewrite last_cons, Hlast.
      * cbn [List.filter]. rewrite Hc. exact Hcount.
Qed.

Lemma next_day_fixed (tz t : Z) :
  Workflow.next_day (fixed tz) t = setDate tz t (getDate tz t + 1).
Proof.
  unfold Workflow.next_day, Zoned.setDate_value, Zoned.getDate, Zoned.LocalTime,
    Zoned.UTC, setDate, getDate, LocalTime, UTC, fixed.
  cbn [offset_at offset_of_local]. reflexivity.
Qed.

Lemma counts_fixed (holidays : list string) (tz t : Z) :
  Workflow.counts holidays (fixed tz) t =
    negb (getDay tz t =? 0)%Z && negb (getDay tz t =? 6)%Z &&
    negb (Workflow.array_includes holidays (toISOString_slice_0_10 t)).
Proof.
  unfold Workflow.counts, Zoned.getDay, Zoned.LocalTime, getDay, LocalTime, fixed.
  cbn [offset_at]. reflexivity.
Qed.

(** In a zone without clock changes the loop is the loop of the first
    model. *)
Lemma addWorkingDays_loop_in_fixed (holidays : list string) (tz : Z) (fuel : nat)
    (t added days r : Z) :
  Workflow.addWorkingDays_loop_in holidays (fixed tz) fuel t added days
    = Some (Normal r) →
  Workflow.addWorkingDays_loop holidays tz fuel t added days = Some r.
Proof.
  revert t added.
  induction fuel as [|fuel IH]; intros t added H.
  - cbn [Workflow.addWorkingDays_loop_in] in H.
    cbn [Workflow.addWorkingDays_loop].
    destruct (added <? days)%Z; congruence.
  - destruct (added <? days)%Z eqn:E.
    + rewrite addWorkingDays_loop_in_next in H by done.
      rewrite addWorkingDays_loop_step by done. cbv zeta.
      destruct (Zoned.TimeClip (Workflow.next_day (fixed tz) t)) as [t'|] eqn:Hclip;
        [|discriminate].
      apply TimeClip_Some in Hclip. subst t'.
      rewrite <- (next_day_fixed tz t), <- counts_fixed.
      destruct (Workflow.counts _ _ _); by apply IH.
    + rewrite addWorkingDays_loop_in_done in H by done.
      rewrite addWorkingDays_loop_done by done. congruence.
Qed.

(** X17.  In any zone, with or without clock changes: when
    [addWorkingDays] returns for a positive number of days, its result is
    one of the calendar days that follow the start, reached by moving one
    local day at a time; exactly [days] of the days visited up to and
    including the result pass the loop's test (not a Saturday or Sunday
    by local weekday, UTC date not in the holiday list), and the result
    itself passes it. *)
Theorem addWorkingDays_counts_days (z : zone) (fuel : nat) (fromDate days r : Z) :
  (0 < days)%Z →
  Workflow.addWorkingDays_in z fuel fromDate days = Some (Normal r) →
  ∃ k, last (Workflow.days_after z fromDate k) = Some r ∧
       Z.of_nat (List.length (List.filter (Workflow.counts Workflow.UK_BANK_HOLIDAYS z)
                                (Workflow.days_after z fromDate k))) = days ∧
       Workflow.counts Workflow.UK_BANK_HOLIDAYS z r = true.
Proof.
  intros Hd H. unfold Workflow.addWorkingDays_in in H.
  destruct (addWorkingDays_loop_in_walk _ _ _ _ _ _ _ Hd H) as (k & Hl & Hc & Hr).
  exists k. split; [done|]. split; [lia|done].
Qed.

Lemma addWorkingDays_counts_days_witness :
  ∃ k, last (Workflow.days_after europe_london (utc_midnight 2026 3 27) k)
         = Some (utc_midnight 2026 4 3 - msPerHour)%Z ∧
       Z.of_nat (List.length
                   (List.filter (Workflow.counts Workflow.UK_BANK_HOLIDAYS europe_london)
                      (Workflow.days_after europe_london (utc_midnight 2026 3 27) k)))
         = 5%Z ∧
       Workflow.counts Workflow.UK_BANK_HOLIDAYS europe_london
         (utc_midnight 2026 4 3 - msPerHour)%Z = true.
Proof.
  apply (addWorkingDays_counts_days europe_london 10 (utc_midnight 2026 3 27) 5).
  - lia.
  - vm_compute. reflexivity.
Defined.

(** A walk across the clock change of 29 March 2026.  From 27 March,
    then local midnight in GMT, five working days end on local midnight
    of 3 April in British Summer Time: that is Good Friday, whose UTC
    date is still 2 April.  Without the clock change the walk ends on
    7 April. *)
Example addWorkingDays_across_clock_change :
  Workflow.addWorkingDays_in europe_london 10 (utc_midnight 2026 3 27) 5
    = Some (Normal (utc_midnight 2026 4 3 - msPerHour)%Z) ∧
  civil_from_days (Day (Zoned.LocalTime europe_london
                          (utc_midnight 2026 4 3 - msPerHour)%Z))
    = (2026, 4, 3)%Z ∧
  toISOString_slice_0_10 (utc_midnight 2026 4 3 - msPerHour)%Z = "2026-04-02" ∧
  Workflow.array_includes Workflow.UK_BANK_HOLIDAYS "2026-04-03" = true ∧
  Workflow.addWorkingDays_in (fixed 0) 12 (utc_midnight 2026 3 27) 5
    = Some (Normal (utc_midnight 2026 4 7)).
Proof. repeat split; vm_compute; reflexivity. Qed.

End WorkflowProofs.

(** ** Fact extraction *)

Module IntakeProofs.
Import Intake.
Local Open Scope list_scope.

(** *** Strings *)

Lemma startsWith_spec (s p : text) :
  startsWith s p = true → s = p ++ drop (List.length p) s.
Proof.
  revert s. induction p as [|a p IH]; intros s H.
  - reflexivity.
  - destruct s as [|b s]; simpl in H; [discriminate|].
    apply andb_true_iff in H as [Hab Hp].
    apply N.eqb_eq in Hab as ->. simpl. f_equal. by apply IH.
Qed.

Lemma startsWith_app (s p x : text) :
  startsWith s (p ++ x) = true → startsWith s p = true.
Proof.
  revert s. induction p as [|a p IH]; intros s H.
  - by destruct s.
  - destruct s as [|b s]; simpl in *; [discriminate|].
    apply andb_true_iff in H as [-> Hp]. simpl. by apply IH.
Qed.

Lemma before_first_take (m s b : text) :
  before_first m s = Some b →
  take (List.length b) s = b ∧ (List.length b ≤ List.length s)%nat.
Proof.
  revert b. induction s as [|a s IH]; intros b H.
  - cbn [before_first] in H. destruct (startsWith [] m); [|discriminate].
    by injection H as <-.
  - cbn [before_first] in H.
    destruct (startsWith (a :: s) m).
    + injection H as <-. simpl. split; [done|lia].
    + destruct (before_first m s) as [b'|] eqn:Hb; [|discriminate].
      injection H as <-. destruct (IH b' eq_refl) as [IH1 IH2].
      simpl. split; [by rewrite IH1|lia].
Qed.

Lemma before_first_prefix (m s b : text) :
  before_first m s = Some b →
  take (List.length s - List.length (drop (List.length b) s)) s = b.
Proof.
  intros H. destruct (before_first_take _ _ _ H) as [Ht Hl].
  rewrite length_drop.
  replace (List.length s - (List.length s - List.length b))%nat
    with (List.length b) by lia.
  exact Ht.
Qed.

(** *** The matcher on the pattern of [extractFacts] *)

(** A lazy run of arbitrary characters followed by the literal [m] stops
    at the first occurrence of [m]. *)
Lemma star_lazy_any {R} (m s : text) (f : text → R) :
  star_lazy (in_class CAny) s
    (λ rest, if startsWith rest m then Some (f rest) else None)
  = (λ b, f (drop (List.length b) s)) <$> before_first m s.
Proof.
  induction s as [|a s IH].
  - cbn [star_lazy before_first]. destruct (startsWith [] m); reflexivity.
  - cbn [star_lazy before_first].
    destruct (startsWith (a :: s) m); [reflexivity|].
    cbn [in_class]. rewrite IH. destruct (before_first m s); reflexivity.
Qed.

Lemma rmatch_group (s : text) :
  rmatch (RSeq (RGroup (RStar false CAny)) (RLit (lit "```"))) s []
    (λ _ caps, Some caps)
  = (λ b, [b]) <$> before_first (lit "```") s.
Proof.
  etrans.
  { apply (star_lazy_any (lit "```") s
             (λ rest, [] ++ [take (List.length s - List.length rest) s])). }
  destruct (before_first (lit "```") s) as [b|] eqn:Hb; [|reflexivity].
  simpl. by rewrite (before_first_prefix _ _ _ Hb).
Qed.

(** No white space character is a backtick. *)
Lemma is_space_not_backtick (u : N) :
  is_space u = true → N.eqb 96 u = false.
Proof.
  intros H. apply not_true_is_false. intros E.
  apply N.eqb_eq in E. subst u. discriminate.
Qed.

Lemma before_first_space (u : N) (s : text) :
  is_space u = true →
  before_first (lit "```") (u :: s) = cons u <$> before_first (lit "```") s.
Proof.
  intros H. cbn [before_first].
  change (startsWith (u :: s) (lit "```"))
    with (N.eqb 96 u && startsWith s (lit "``")).
  by rewrite (is_space_not_backtick u H).
Qed.

(** A greedy run of white space gives nothing back when the rest of the
    pattern cannot use it. *)
Lemma star_greedy_space {R} (G : text → option R) (s : text) :
  (∀ u s', is_space u = true → G s' = None → G (u :: s') = None) →
  star_greedy is_space s G = G (trimStart s).
Proof.
  intros HG.
  assert (Hback : ∀ t, G (trimStart t) = None → G t = None).
  { induction t as [|a t IH]; [done|]. cbn [trimStart].
    destruct (is_space a) eqn:Ha; [|done].
    intros H. by apply HG, IH. }
  induction s as [|a s IH]; [reflexivity|].
  cbn [star_greedy trimStart].
  destruct (is_space a) eqn:Ha; [|reflexivity].
  rewrite IH. destruct (G (trimStart s)) eqn:E; [reflexivity|].
  by apply HG, Hback.
Qed.

Lemma trimStart_before_first (s : text) :
  trimStart <$> before_first (lit "```") s = before_first (lit "```") (trimStart s).
Proof.
  induction s as [|a s IH].
  - reflexivity.
  - cbn [trimStart]. destruct (is_space a) eqn:Ha.
    + rewrite before_first_space by done. rewrite <- IH.
      destruct (before_first (lit "```") s) as [b|]; [|reflexivity].
      simpl. by rewrite Ha.
    + cbn [before_first]. destruct (startsWith (a :: s) (lit "```")); [reflexivity|].
      destruct (before_first (lit "```") s) as [b|]; [|reflexivity].
      simpl. by rewrite Ha.
Qed.

(** The whole pattern, tried at the start of [s]. *)
Lemma rmatch_json_block (s : text) :
  rmatch json_block_re s [] (λ _ caps, Some caps) =
    if startsWith s (lit "```json")
    then (λ b, [trimStart b]) <$> before_first (lit "```") (drop 7 s)
    else None.
Proof.
  unfold json_block_re. cbn [rmatch].
  destruct (startsWith s (lit "```json")); [|reflexivity].
  change (List.length (lit "```json")) with 7%nat.
  etrans.
  { apply (star_greedy_space
             (λ rest, rmatch (RSeq (RGroup (RStar false CAny)) (RLit (lit "```")))
                        rest [] (λ _ caps, Some caps))).
    intros a s' Ha. rewrite !rmatch_group, before_first_space by done.
    destruct (before_first (lit "```") s'); [discriminate|reflexivity]. }
  cbv beta. rewrite rmatch_group, <- trimStart_before_first.
  destruct (before_first (lit "```") (drop 7 s)); reflexivity.
Qed.

(** *** The match is the first fenced block *)

Lemma after_first_none (m x s : text) :
  before_first m s = None → after_first (m ++ x) s = None.
Proof.
  induction s as [|a s IH]; cbn [before_first after_first]; intros H.
  - destruct (startsWith [] (m ++ x)) eqn:E; [|reflexivity].
    apply startsWith_app in E. rewrite E in H. discriminate.
  - destruct (startsWith (a :: s) (m ++ x)) eqn:E.
    + apply startsWith_app in E. rewrite E in H. discriminate.
    + apply IH. destruct (startsWith (a :: s) m); [discriminate|].
      destruct (before_first m s); [discriminate|reflexivity].
Qed.

(** When no closing fence follows the first marker, no later marker
    opens a block either. *)
Lemma no_later_block (rest : text) :
  before_first (lit "```") rest = None →
  first_json_block (lit "``json" ++ rest) = None.
Proof.
  intros H. unfold first_json_block.
  change (lit "``json" ++ rest)
    with (96 :: 96 :: 106 :: 115 :: 111 :: 110 :: rest)%N.
  change (lit "```json") with (lit "```" ++ lit "json").
  cbn [after_first].
  change (startsWith (96 :: 96 :: 106 :: 115 :: 111 :: 110 :: rest)%N
            (lit "```" ++ lit "json")) with false.
  change (startsWith (96 :: 106 :: 115 :: 111 :: 110 :: rest)%N
            (lit "```" ++ lit "json")) with false.
  change (startsWith (106 :: 115 :: 111 :: 110 :: rest)%N
            (lit "```" ++ lit "json")) with false.
  change (startsWith (115 :: 111 :: 110 :: rest)%N
            (lit "```" ++ lit "json")) with false.
  change (startsWith (111 :: 110 :: rest)%N
            (lit "```" ++ lit "json")) with false.
  change (startsWith (110 :: rest)%N
            (lit "```" ++ lit "json")) with false.
  cbv iota.
  by rewrite (after_first_none (lit "```") (lit "json") rest H).
Qed.

Lemma marker_tail (u : N) (s : text) :
  startsWith (u :: s) (lit "```json") = true → s = lit "``json" ++ drop 6 s.
Proof.
  intros H. change (lit "```json") with (96%N :: lit "``json") in H.
  cbn [startsWith] in H. apply andb_true_iff in H as [_ H].
  exact (startsWith_spec _ _ H).
Qed.

Lemma str_match_json_block (s : text) :
  str_match json_block_re s = (λ b, [trimStart b]) <$> first_json_block s.
Proof.
  induction s as [|a s IH]; [reflexivity|].
  cbn [str_match]. rewrite rmatch_json_block.
  unfold first_json_block at 1. cbn [after_first].
  change (List.length (lit "```json")) with 7%nat.
  destruct (startsWith (a :: s) (lit "```json")) eqn:Hs.
  - cbn [mbind option_bind].
    destruct (before_first (lit "```") (drop 7 (a :: s))) as [b|] eqn:Hb;
      [reflexivity|].
    cbn [fmap option_fmap option_map]. rewrite IH.
    rewrite (marker_tail _ _ Hs).
    by rewrite no_later_block by exact Hb.
  - rewrite IH. reflexivity.
Qed.

(** *** [extractFacts] against its description *)

Lemma trimStart_idem (s : text) : trimStart (trimStart s) = trimStart s.
Proof.
  induction s as [|a s IH]; [reflexivity|].
  cbn [trimStart]. destruct (is_space a) eqn:Ha; [exact IH|].
  cbn [trimStart]. by rewrite Ha.
Qed.

Lemma trim_trimStart (s : text) : trim (trimStart s) = trim s.
Proof. unfold trim. by rewrite trimStart_idem. Qed.

Section Exactness.

Variable JSON_parse : text → option json.

Lemma complete_facts_spec (responseText : text) (facts : json) :
  complete_facts JSON_parse responseText = Some facts ↔
  embedded_facts JSON_parse responseText facts.
Proof.
  unfold complete_facts, embedded_facts. split.
  - intros H.
    destruct (first_json_block responseText) as [block|] eqn:Hb; [|done].
    cbn [mbind option_bind] in H.
    destruct (JSON_parse (trim block)) as [parsed|] eqn:Hp; [|done].
    cbn [mbind option_bind] in H.
    destruct (truthy_value (own_field parsed (lit "extractionComplete"))) eqn:Hc;
      [|done].
    destruct (own_field parsed (lit "facts")) as [f|] eqn:Hf; [|done].
    cbn [mbind option_bind] in H.
    destruct (truthy_value (Some f)) eqn:Ht; [|done].
    injection H as <-. by exists block, parsed.
  - intros (block & parsed & -> & Hp & Hc & Hf & Ht).
    cbn [mbind option_bind]. rewrite Hp.
    cbn [mbind option_bind]. rewrite Hc, Hf.
    cbn [mbind option_bind]. by rewrite Ht.
Qed.

Lemma truthy_not_null (facts : json) :
  truthy_value (Some facts) = true → facts ≠ JNull.
Proof. by intros H ->. Qed.

Lemma try_block_spec (block : text) :
  match try_block JSON_parse [trimStart block] with
  | Normal (Some facts) => Some facts
  | Normal None | Throw => None
  end =
  (parsed ← JSON_parse (trim block);
   if truthy_value (own_field parsed (lit "extractionComplete")) then
     facts ← own_field parsed (lit "facts");
     if truthy_value (Some facts) then Some facts else None
   else None).
Proof.
  unfold try_block. cbn [lookup list_lookup]. rewrite trim_trimStart.
  destruct (JSON_parse (trim block)) as [parsed|]; [|reflexivity].
  destruct parsed as [|b|x|t|items|props]; try reflexivity.
  cbn [get_field own_field cbind mbind option_bind].
  destruct (truthy_value (assoc (lit "extractionComplete") props)); [|reflexivity].
  destruct (assoc (lit "facts") props) as [f|]; [|reflexivity].
  cbn [mbind option_bind]. destruct (truthy_value (Some f)); reflexivity.
Qed.

Lemma extractFacts_complete (responseText : text) :
  extractFacts JSON_parse responseText =
    Normal (default JNull (complete_facts JSON_parse responseText)).
Proof.
  unfold extractFacts, complete_facts.
  rewrite str_match_json_block.
  destruct (first_json_block responseText) as [block|]; [|reflexivity].
  cbn [fmap option_fmap option_map mbind option_bind].
  rewrite <- try_block_spec.
  destruct (try_block JSON_parse [trimStart block]) as [[facts|]|]; reflexivity.
Qed.

(** C10.  For every response text, [extractFacts] returns normally.  Its
    result is the [facts] field of the parsed first fenced block when
    that block parses as JSON and the parsed value has truthy
    [extractionComplete] and [facts] fields, and it is [null] in every
    other case; the former result is never [null]. *)
Theorem extractFacts_total_exact (responseText : text) :
  extractFacts JSON_parse responseText =
    Normal (default JNull (complete_facts JSON_parse responseText)) ∧
  (∀ facts, complete_facts JSON_parse responseText = Some facts ↔
            embedded_facts JSON_parse responseText facts) ∧
  (∀ facts, embedded_facts JSON_parse responseText facts → facts ≠ JNull).
Proof.
  split; [|split].
  - apply extractFacts_complete.
  - apply complete_facts_spec.
  - intros facts (_ & _ & _ & _ & _ & _ & Ht). by apply truthy_not_null.
Qed.

End Exactness.

(** A response with two blocks: the first one decides. *)
Example extractFacts_first_block (JSON_parse : text → option json) :
  JSON_parse (lit "{oops") = None →
  extractFacts JSON_parse (lit "Summary ```json
{oops
``` and ```json {} ```") = Normal JNull.
Proof.
  intros H. unfold extractFacts.
  replace (str_match json_block_re _) with (Some [lit "{oops
"]) by (vm_compute; reflexivity).
  unfold try_block. cbn [lookup list_lookup].
  replace (trim _) with (lit "{oops") by (vm_compute; reflexivity).
  by rewrite H.
Qed.

(** White space is the white space of the language, not of ASCII: a
    block padded with no-break spaces (U+00A0), a line separator
    (U+2028) and a byte-order mark (U+FEFF) is matched and trimmed like
    one padded with blanks, and its facts are returned. *)
Example extractFacts_unicode_padding (facts : json) :
  truthy_value (Some facts) = true →
  extractFacts
    (parses_only (lit "{}")
       (JObject [(lit "extractionComplete", JBool true); (lit "facts", facts)]))
    (lit "```json" ++ [0xA0; 0x2028]%N ++ lit "{}" ++ [0xFEFF; 0xA0]%N ++ lit "```")
  = Normal facts.
Proof.
  intros H. unfold extractFacts.
  replace (str_match json_block_re _)
    with (Some [lit "{}" ++ [0xFEFF; 0xA0]%N]) by (vm_compute; reflexivity).
  unfold try_block. cbn [lookup list_lookup].
  replace (trim _) with (lit "{}") by (vm_compute; reflexivity).
  unfold parses_only. rewrite bool_decide_eq_true_2 by reflexivity.
  cbn [get_field cbind].
  replace (assoc (lit "extractionComplete") _) with (Some (JBool true))
    by (vm_compute; reflexivity).
  cbn [truthy_value].
  replace (assoc (lit "facts") _) with (Some facts) by (vm_compute; reflexivity).
  by rewrite H.
Qed.

(** *** [getDisplayText] *)

Lemma after_first_as_before (m s : text) :
  after_first m s =
    (λ b, drop (List.length m) (drop (List.length b) s)) <$> before_first m s.
Proof.
  induction s as [|a s IH]; cbn [after_first before_first].
  - destruct (startsWith [] m); reflexivity.
  - destruct (startsWith (a :: s) m); [reflexivity|].
    rewrite IH. destruct (before_first m s); reflexivity.
Qed.

Lemma first_split (m s b : text) :
  before_first m s = Some b →
  ∃ a, after_first m s = Some a ∧ s = b ++ m ++ a.
Proof.
  revert b. induction s as [|c s IH]; intros b; cbn [after_first before_first].
  - destruct (startsWith [] m) eqn:E; [|discriminate].
    intros [= <-]. eexists. split; [reflexivity|]. by apply startsWith_spec in E.
  - destruct (startsWith (c :: s) m) eqn:E.
    + intros [= <-]. eexists. split; [reflexivity|]. by apply startsWith_spec in E.
    + destruct (before_first m s) as [b'|]; [|discriminate].
      intros [= <-]. destruct (IH b' eq_refl) as (a & Ha & Hs).
      exists a. split; [done|]. simpl. by f_equal.
Qed.

Lemma after_first_split (m s a : text) :
  after_first m s = Some a →
  ∃ b, before_first m s = Some b ∧ s = b ++ m ++ a.
Proof.
  intros H. rewrite after_first_as_before in H.
  destruct (before_first m s) as [b|] eqn:Hb; [|discriminate].
  destruct (first_split m s b Hb) as (a' & Ha' & Hs).
  rewrite after_first_as_before, Hb in Ha'. simpl in *.
  exists b. split; [done|]. congruence.
Qed.

Lemma after_first_space (u : N) (s : text) :
  is_space u = true →
  after_first (lit "```") (u :: s) = after_first (lit "```") s.
Proof.
  intros H. cbn [after_first].
  change (startsWith (u :: s) (lit "```"))
    with (N.eqb 96 u && startsWith s (lit "``")).
  by rewrite (is_space_not_backtick u H).
Qed.

Lemma after_first_trimStart (s : text) :
  after_first (lit "```") (trimStart s) = after_first (lit "```") s.
Proof.
  induction s as [|a s IH]; [reflexivity|].
  cbn [trimStart]. destruct (is_space a) eqn:Ha; [|reflexivity].
  by rewrite after_first_space.
Qed.

Lemma rmatch_lazy_fence (s : text) :
  rmatch (RSeq (RStar false CAny) (RLit (lit "```"))) s [] (λ rest _, Some rest)
  = after_first (lit "```") s.
Proof.
  rewrite after_first_as_before.
  exact (star_lazy_any (lit "```") s (drop 3)).
Qed.

(** The pattern of [getDisplayText], tried at the start of [s]: the text
    after the closing fence. *)
Lemma rmatch_json_block_cut (s : text) :
  rmatch json_block_cut_re s [] (λ rest _, Some rest) =
    if startsWith s (lit "```json") then after_first (lit "```") (drop 7 s)
    else None.
Proof.
  unfold json_block_cut_re. cbn [rmatch].
  destruct (startsWith s (lit "```json")); [|reflexivity].
  change (List.length (lit "```json")) with 7%nat.
  etrans.
  { apply (star_greedy_space
             (λ rest, rmatch (RSeq (RStar false CAny) (RLit (lit "```"))) rest []
                        (λ rest' _, Some rest'))).
    intros a s' Ha. rewrite !rmatch_lazy_fence, after_first_space by done. done. }
  cbv beta. by rewrite rmatch_lazy_fence, after_first_trimStart.
Qed.

Lemma closing_fence_iff (s : text) :
  before_first (lit "```") s = None ↔ after_first (lit "```") s = None.
Proof.
  rewrite after_first_as_before. by destruct (before_first (lit "```") s).
Qed.

Lemma around_none (s : text) :
  first_json_block s = None → around_first_block s = None.
Proof.
  unfold first_json_block, around_first_block. intros H.
  destruct (before_first (lit "```json") s) as [pre|]; [|reflexivity].
  cbn [mbind option_bind].
  destruct (after_first (lit "```json") s) as [rest|]; [|reflexivity].
  cbn [mbind option_bind] in *. apply closing_fence_iff in H. by rewrite H.
Qed.

Lemma str_replace_cut (s : text) :
  str_replace json_block_cut_re [] s =
    match around_first_block s with
    | Some (pre, post) => pre ++ post
    | None => s
    end.
Proof.
  induction s as [|a s IH]; [reflexivity|].
  cbn [str_replace]. rewrite rmatch_json_block_cut.
  unfold around_first_block. cbn [before_first after_first].
  change (List.length (lit "```json")) with 7%nat.
  destruct (startsWith (a :: s) (lit "```json")) eqn:Hs.
  - cbn [mbind option_bind].
    destruct (after_first (lit "```") (drop 7 (a :: s))) as [post|] eqn:Hp;
      [reflexivity|].
    rewrite IH, around_none; [reflexivity|].
    rewrite (marker_tail _ _ Hs).
    apply no_later_block. apply closing_fence_iff. exact Hp.
  - rewrite IH. unfold around_first_block.
    destruct (before_first (lit "```json") s) as [pre|]; [|reflexivity].
    cbn [fmap option_fmap option_map mbind option_bind].
    destruct (after_first (lit "```json") s ≫= after_first (lit "```")) as [post|];
      reflexivity.
Qed.

Lemma display_cut (s block : text) :
  first_json_block s = Some block →
  ∃ pre post,
    s = pre ++ lit "```json" ++ block ++ lit "```" ++ post ∧
    before_first (lit "```json") s = Some pre ∧
    getDisplayText s = trim (pre ++ post).
Proof.
  unfold first_json_block. intros H.
  destruct (after_first (lit "```json") s) as [rest|] eqn:Hrest; [|discriminate].
  cbn [mbind option_bind] in H.
  destruct (after_first_split _ _ _ Hrest) as (pre & Hpre & Hs).
  destruct (first_split _ _ _ H) as (post & Hpost & Hr).
  exists pre, post. split; [by rewrite Hs, Hr|]. split; [done|].
  unfold getDisplayText. rewrite str_replace_cut.
  unfold around_first_block. rewrite Hpre, Hrest.
  cbn [mbind option_bind]. by rewrite Hpost.
Qed.

(** X18.  A response without fenced block (no [```json] marker, or no
    closing fence after the first marker) is displayed as it is, trimmed,
    and yields no facts. *)
Theorem no_block_display_and_facts
    (JSON_parse : text → option json) (responseText : text) :
  first_json_block responseText = None →
  getDisplayText responseText = trim responseText ∧
  extractFacts JSON_parse responseText = Normal JNull.
Proof.
  intros H. split.
  - unfold getDisplayText. by rewrite str_replace_cut, around_none.
  - unfold extractFacts. by rewrite str_match_json_block, H.
Qed.

Lemma no_block_display_and_facts_witness :
  getDisplayText ([0xA0]%N ++ lit " Could you tell me when this happened? ```json { ")
    = trim ([0xA0]%N ++ lit " Could you tell me when this happened? ```json { ") ∧
  extractFacts (λ _, None)
    ([0xA0]%N ++ lit " Could you tell me when this happened? ```json { ")
    = Normal JNull.
Proof.
  apply (no_block_display_and_facts (λ _, None)).
  vm_compute. reflexivity.
Defined.

(** X19.  When the response has a fenced block, the displayed text is the
    response with its first block cut out (marker, contents and closing
    fence) and the remainder trimmed; the text before the marker and the
    text after the closing fence are kept whole, later blocks included. *)
Theorem getDisplayText_cuts_first_block (responseText block : text) :
  first_json_block responseText = Some block →
  ∃ pre post,
    responseText = pre ++ lit "```json" ++ block ++ lit "```" ++ post ∧
    before_first (lit "```json") responseText = Some pre ∧
    getDisplayText responseText = trim (pre ++ post).
Proof. apply display_cut. Qed.

Lemma getDisplayText_cuts_first_block_witness :
  ∃ pre post,
    lit "Thanks. ```json {} ``` Is that right?" ++ [0x2029; 0xA0]%N
      = pre ++ lit "```json" ++ lit " {} " ++ lit "```" ++ post ∧
    before_first (lit "```json")
      (lit "Thanks. ```json {} ``` Is that right?" ++ [0x2029; 0xA0]%N) = Some pre ∧
    getDisplayText (lit "Thanks. ```json {} ``` Is that right?" ++ [0x2029; 0xA0]%N)
      = trim (pre ++ post).
Proof.
  apply (getDisplayText_cuts_first_block
           (lit "Thanks. ```json {} ``` Is that right?" ++ [0x2029; 0xA0]%N)
           (lit " {} ")).
  vm_compute. reflexivity.
Defined.

(** X20.  Whenever [extractFacts] returns facts, they are the [facts]
    field of the value parsed from the first fenced block, trimmed, and
    [getDisplayText] shows the response without that very block: the
    text before the first marker followed by the text after the block's
    closing fence, trimmed. *)
Theorem extracted_block_not_displayed
    (JSON_parse : text → option json) (responseText : text) (facts : json) :
  extractFacts JSON_parse responseText = Normal facts →
  facts ≠ JNull →
  ∃ pre block post parsed,
    first_json_block responseText = Some block ∧
    before_first (lit "```json") responseText = Some pre ∧
    responseText = pre ++ lit "```json" ++ block ++ lit "```" ++ post ∧
    JSON_parse (trim block) = Some parsed ∧
    own_field parsed (lit "facts") = Some facts ∧
    getDisplayText responseText = trim (pre ++ post).
Proof.
  intros H Hn. rewrite extractFacts_complete in H. injection H as H.
  destruct (complete_facts JSON_parse responseText) as [f|] eqn:Hc;
    [|by simpl in H].
  simpl in H. subst f.
  apply complete_facts_spec in Hc as (block & parsed & Hb & Hp & _ & Hf & _).
  destruct (display_cut _ _ Hb) as (pre & post & Hs & Hpre & Hd).
  by exists pre, block, post, parsed.
Qed.

Lemma extracted_block_not_displayed_witness :
  ∃ pre block post parsed,
    first_json_block (lit "Here is my summary. ```json X ``` Please confirm.")
      = Some block ∧
    before_first (lit "```json")
      (lit "Here is my summary. ```json X ``` Please confirm.") = Some pre ∧
    lit "Here is my summary. ```json X ``` Please confirm."
      = pre ++ lit "```json" ++ block ++ lit "```" ++ post ∧
    parses_only (lit "X")
      (JObject [(lit "extractionComplete", JBool true);
                (lit "facts", JString (lit "f"))]) (trim block) = Some parsed ∧
    own_field parsed (lit "facts") = Some (JString (lit "f")) ∧
    getDisplayText (lit "Here is my summary. ```json X ``` Please confirm.")
      = trim (pre ++ post).
Proof.
  apply (extracted_block_not_displayed
           (parses_only (lit "X")
              (JObject [(lit "extractionComplete", JBool true);
                        (lit "facts", JString (lit "f"))]))
           (lit "Here is my summary. ```json X ``` Please confirm.")
           (JString (lit "f"))).
  - vm_compute. reflexivity.
  - discriminate.
Defined.

End IntakeProofs.
